(** * certtool: configuration resolution and certificate generation

    A shallow embedding of the [lupaxa.certtool] package
    ([config.py], [certs.py], [cli.py], [utils.py], [example.py],
    [version.py], [exceptions.py]), the properties its design document
    states about it, and further properties of the code.  Of [cli.py],
    [parse_args] and [main] are left out: the first is [argparse]'s
    work, the second turns exceptions into exit codes.

    Conventions of the embedding.
    - A Python [str] is a [string] of ASCII characters.  Case mapping,
      whitespace and alphanumeric tests are Python's on code points
      below 128; larger code points are carried unchanged and count as
      neither letters, digits nor whitespace.
    - A JSON value is a [value]; a Python [dict] keyed by strings is a
      [gmap string value].  Insertion order is not recorded; the one
      place that would observe it takes it from [Externals].
    - A raised exception is a [Raise e] result.  The text of an f-string
      is kept as the list of its pieces ([frag]): literal text and the
      interpolated objects, unformatted.
    - The cryptography library, the JSON decoder, the operating system
      and the [repr] builtin are collaborators, gathered in [Externals];
      the library calls made and the file system are state ([World]). *)

From Stdlib Require Import ZArith String Ascii List Bool Lia.
From Stdlib Require Import Floats.SpecFloat.
From stdpp Require Import base gmap sets list strings pretty sorting.

#[local] Set Warnings "-register-all".
#[local] Open Scope string_scope.
#[local] Open Scope Z_scope.

(** ** Python values *)

Inductive value :=
| VNone
| VBool (b : bool)
| VInt (n : Z)
| VFloat (f : spec_float)
| VStr (s : string)
| VList (l : list value)
| VDict (m : gmap string value).

(** A file system path, as its components ([pathlib.Path.parts]). *)
Abbreviation Path := (list string).

(** ** Exceptions ([exceptions.py] and the builtins that can escape) *)

Inductive py_kind :=
| ValueError
| TypeError
| OverflowError
| AttributeError
| KeyError
| UnicodeDecodeError
| JSONDecodeError
| OSError
| FileExistsError.

Inductive exn :=
| CertToolError (msg : list frag)
| ConfigError (msg : list frag)
| GenerationError (msg : list frag)
| OutputError (msg : list frag)
| Builtin (k : py_kind)
with frag :=
| Lit (s : string)
| Repr (v : value)
| Str (v : value)
| StrExc (e : exn)
| StrPath (p : Path)
| StrNat (n : nat).

(** [isinstance(e, CertToolError)]: the three specializations derive from
    the base class; builtin exceptions do not. *)
Definition is_CertToolError (e : exn) : bool :=
  match e with
  | Builtin _ => false
  | _ => true
  end.

Definition is_ConfigError (e : exn) : bool :=
  match e with
  | ConfigError _ => true
  | _ => false
  end.

(** [isinstance(k, OSError)]. *)
Definition is_OSError (k : py_kind) : bool :=
  match k with
  | OSError | FileExistsError => true
  | _ => false
  end.

(** Outcome of a call: a value, a raised exception, or a loop that was
    cut off by the fuel of the embedding (no Python counterpart; it is
    never caught). *)
Inductive result (A : Type) :=
| Ok (a : A)
| Raise (e : exn)
| OutOfFuel.
Arguments Ok {A} a.
Arguments Raise {A} e.
Arguments OutOfFuel {A}.

#[global] Instance result_ret : MRet result := λ A a, Ok a.
#[global] Instance result_bind : MBind result := λ A B k r,
  match r with
  | Ok a => k a
  | Raise e => Raise e
  | OutOfFuel => OutOfFuel
  end.
#[global] Instance result_fmap : FMap result := λ A B f r,
  match r with
  | Ok a => Ok (f a)
  | Raise e => Raise e
  | OutOfFuel => OutOfFuel
  end.

(** ** String builtins *)

Module PyStr.

Definition code (c : ascii) : N := N_of_ascii c.

Definition in_range (lo hi : N) (c : ascii) : bool :=
  ((lo <=? code c) && (code c <=? hi))%N.

(** [ch.isspace()] below 128: tab to carriage return, the four
    separators 28..31, and the space. *)
Definition isspace (c : ascii) : bool :=
  in_range 9 13 c || in_range 28 31 c || (code c =? 32)%N.

Definition isupper (c : ascii) : bool := in_range 65 90 c.
Definition islower (c : ascii) : bool := in_range 97 122 c.
Definition isdigit (c : ascii) : bool := in_range 48 57 c.
Definition isalnum (c : ascii) : bool := isupper c || islower c || isdigit c.

Definition lower_char (c : ascii) : ascii :=
  if isupper c then ascii_of_N (code c + 32) else c.
Definition upper_char (c : ascii) : ascii :=
  if islower c then ascii_of_N (code c - 32) else c.

Fixpoint map (f : ascii → ascii) (s : string) : string :=
  match s with
  | EmptyString => EmptyString
  | String c r => String (f c) (map f r)
  end.

Definition lower : string → string := map lower_char.
Definition upper : string → string := map upper_char.

Fixpoint lstrip_by (p : ascii → bool) (s : string) : string :=
  match s with
  | EmptyString => EmptyString
  | String c r => if p c then lstrip_by p r else s
  end.

Fixpoint rstrip_by (p : ascii → bool) (s : string) : string :=
  match s with
  | EmptyString => EmptyString
  | String c r =>
      match rstrip_by p r with
      | EmptyString => if p c then EmptyString else String c EmptyString
      | r' => String c r'
      end
  end.

Definition strip_by (p : ascii → bool) (s : string) : string :=
  rstrip_by p (lstrip_by p s).

(** [s.strip()] *)
Definition strip : string → string := strip_by isspace.

Definition is_empty (s : string) : bool :=
  match s with
  | EmptyString => true
  | _ => false
  end.

Fixpoint chars (s : string) : list string :=
  match s with
  | EmptyString => []
  | String c r => String c EmptyString :: chars r
  end.

Fixpoint count (p : ascii → bool) (s : string) : nat :=
  match s with
  | EmptyString => 0
  | String c r => (if p c then 1 else 0) + count p r
  end.

(** [s.endswith(suffix)] *)
Definition endswith (s suffix : string) : bool :=
  let n := String.length s in
  let k := String.length suffix in
  (k <=? n)%nat && String.eqb (substring (n - k) k s) suffix.

End PyStr.

(** ** Truthiness: [bool(v)] *)

Definition float_is_zero (f : spec_float) : bool :=
  match f with
  | S754_zero _ => true
  | _ => false
  end.

Definition truthy (v : value) : bool :=
  match v with
  | VNone => false
  | VBool b => b
  | VInt n => negb (n =? 0)
  | VFloat f => negb (float_is_zero f)
  | VStr s => negb (PyStr.is_empty s)
  | VList l => match l with [] => false | _ => true end
  | VDict m => negb (size m =? 0)%nat
  end.

(** [d.update(m)]: the entries of [m] win. *)
Definition dict_update (d m : gmap string value) : gmap string value := m ∪ d.

(** [d[k]], raising [KeyError] when the key is missing. *)
Definition subscript (d : gmap string value) (k : string) : result value :=
  match d !! k with
  | Some v => Ok v
  | None => Raise (Builtin KeyError)
  end.

(** ** Objects of the cryptography library

    The library is a collaborator: its objects are records of the
    parameters the tool feeds it; whether a call succeeds is decided
    by [Externals]. *)

Inductive DigestAlgorithm := SHA256 | SHA384 | SHA512.

Inductive NameOID :=
| COUNTRY_NAME
| STATE_OR_PROVINCE_NAME
| LOCALITY_NAME
| ORGANIZATION_NAME
| ORGANIZATIONAL_UNIT_NAME
| COMMON_NAME
| EMAIL_ADDRESS.

Record NameAttribute := { attr_oid : NameOID; attr_value : value }.

(** [x509.Name]: the attributes in the order given. *)
Abbreviation Name := (list NameAttribute).

Record RSAPrivateKey := { key_size : Z; key_secret : Z }.

Inductive GeneralName := DNSName (name : string).

Inductive ExtensionType :=
| BasicConstraints (ca : bool) (path_length : option Z)
| SubjectAlternativeName (names : list GeneralName).

Record Extension := { ext_value : ExtensionType; critical : bool }.

Record CertificateSigningRequest := {
  csr_subject : Name;
  csr_key : RSAPrivateKey;
  csr_extensions : list Extension;
  csr_digest : DigestAlgorithm;
}.

(** Times are microseconds since the epoch. *)
Record Certificate := {
  subject : Name;
  issuer : Name;
  public_key : RSAPrivateKey;
  serial_number : Z;
  not_valid_before : Z;
  not_valid_after : Z;
  extensions : list Extension;
  signature_hash : DigestAlgorithm;
}.

Inductive KeySerializationEncryption :=
| NoEncryption
| BestAvailableEncryption (password : string).

(** [certs.py]: the two dataclasses. *)
Record CertComponents := {
  private_key : RSAPrivateKey;
  csr : CertificateSigningRequest;
  cert : Certificate;
}.

Record PemBundle := {
  certificate_pem : string;
  csr_pem : string;
  private_key_pem : string;
}.

(** Calls into the library, in the order they are made. *)
Inductive lib_call :=
| Call_generate_private_key (bits : value)
| Call_sign_csr
| Call_sign_certificate
| Call_private_bytes (enc : KeySerializationEncryption)
| Call_csr_public_bytes
| Call_cert_public_bytes.

(** ** File system and process state *)

Inductive node :=
| NFile (data : string)
| NDir.

Record World := {
  fs : gmap Path node;
  stdout : list (list frag);
  stderr : list (list frag);
  lib_calls : list lib_call;
}.

(** ** Collaborators

    What the tool does not decide itself.  A field of type
    [... → option py_kind] answers [Some k] when the call raises [k]. *)
Record Externals := {
  (** [repr(v)] of a value that is not a [str]; [str(v)] is the same
      text for every JSON type but [str]. *)
  py_repr : value → string;
  (** [sys.get_int_max_str_digits()]; [0] switches the limit off. *)
  int_max_str_digits : nat;
  (** the keys of a dict in insertion order *)
  dict_keys : gmap string value → list string;
  (** [bytes.decode("utf-8")] of a file's content *)
  utf8_decode : string → option string;
  (** [json.loads] *)
  json_loads : string → option value;
  (** [Path(label).stem] *)
  path_stem : string → string;
  (** [datetime.now(timezone.utc)] *)
  now : Z;
  (** [x509.random_serial_number()] *)
  random_serial_number : Z;
  (** [rsa.generate_private_key(public_exponent, key_size)] *)
  rsa_generate_private_key : Z → value → py_kind + RSAPrivateKey;
  (** [x509.NameAttribute(oid, v)] rejecting its value *)
  name_attribute_error : NameOID → value → option py_kind;
  (** [x509.DNSName(s)] rejecting a string *)
  dns_name_error : string → option py_kind;
  (** date arithmetic and the builder's setters rejecting the window:
      the current time and the [valid_days] argument *)
  validity_error : Z → value → option py_kind;
  (** the length of [timedelta(days=valid_days)] in microseconds, for a
      [valid_days] the library accepts *)
  timedelta_days : value → Z;
  (** [CertificateSigningRequestBuilder.sign] *)
  csr_sign_error : CertificateSigningRequest → option py_kind;
  (** [CertificateBuilder.sign] *)
  cert_sign_error : Certificate → option py_kind;
  (** [private_bytes(PEM, PKCS8, encryption)] *)
  private_bytes : RSAPrivateKey → KeySerializationEncryption → py_kind + string;
  (** [public_bytes(PEM)] of a CSR and of a certificate *)
  csr_public_bytes : CertificateSigningRequest → py_kind + string;
  cert_public_bytes : Certificate → py_kind + string;
  (** [Path.mkdir] failing for a reason other than the path existing *)
  mkdir_error : gmap Path node → Path → option py_kind;
  (** [Path.write_bytes] failing *)
  write_error : gmap Path node → Path → option py_kind;
  (** what other processes do to the file system between an existence
      check and the creation that follows it *)
  interference : gmap Path node → gmap Path node;
}.

(** [str(v)] *)
Definition py_str (X : Externals) (v : value) : string :=
  match v with
  | VStr s => s
  | _ => py_repr X v
  end.

(** ** [int(v)] *)

Definition digit_value (c : ascii) : Z := Z.of_N (PyStr.code c) - 48.

(** Decimal digits with single underscores between them. *)
Fixpoint int_digits (s : string) (acc : Z) (after_digit : bool) : option Z :=
  match s with
  | EmptyString => if after_digit then Some acc else None
  | String c r =>
      if PyStr.isdigit c then int_digits r (10 * acc + digit_value c) true
      else if Ascii.eqb c "_" && after_digit then int_digits r acc false
      else None
  end.

Definition int_literal (s : string) : option Z :=
  match s with
  | String "-" r => Z.opp <$> int_digits r 0 false
  | String "+" r => int_digits r 0 false
  | _ => int_digits s 0 false
  end.

Definition too_many_digits (X : Externals) (s : string) : bool :=
  let limit := int_max_str_digits X in
  negb (limit =? 0)%nat && (limit <? PyStr.count PyStr.isdigit s)%nat.

(** Truncation of a float towards zero. *)
Definition float_trunc (f : spec_float) : result Z :=
  match f with
  | S754_zero _ => Ok 0
  | S754_infinity _ => Raise (Builtin OverflowError)
  | S754_nan => Raise (Builtin ValueError)
  | S754_finite s m e =>
      let a := Z.shiftl (Z.pos m) e in
      Ok (if s then - a else a)
  end.

Definition py_int (X : Externals) (v : value) : result Z :=
  match v with
  | VBool b => Ok (if b then 1 else 0)
  | VInt n => Ok n
  | VFloat f => float_trunc f
  | VStr s =>
      let t := PyStr.strip s in
      if too_many_digits X t then Raise (Builtin ValueError)
      else match int_literal t with
           | Some n => Ok n
           | None => Raise (Builtin ValueError)
           end
  | VNone | VList _ | VDict _ => Raise (Builtin TypeError)
  end.

(** ** [utils.py]: shared constants *)

Definition DN_KEYS : list string :=
  [ "countryName"; "stateOrProvinceName"; "localityName"; "organizationName";
    "organizationalUnitName"; "commonName"; "emailAddress" ].

Definition CONFIG_DEFAULT : gmap string value :=
  list_to_map
    [ ("digest_alg", VStr "sha512");
      ("private_key_bits", VInt 2048);
      ("private_key_type", VStr "RSA");
      ("encrypt_key", VBool false);
      ("valid_days", VInt 365);
      ("subject_alt_names", VList []) ].

(** ** [config.py] *)

Module Config.

Definition _coerce_bool (value : value) : result bool :=
  let fail := Raise (ConfigError [Lit "Cannot coerce "; Repr value; Lit " to bool"]) in
  match value with
  | VBool b => Ok b
  | VInt _ | VFloat _ => Ok (truthy value)
  | VStr s =>
      let v := PyStr.lower (PyStr.strip s) in
      if bool_decide (v ∈ ["1"; "true"; "yes"; "y"; "on"]) then Ok true
      else if bool_decide (v ∈ ["0"; "false"; "no"; "n"; "off"]) then Ok false
      else fail
  | _ => fail
  end.

(** The outcome of reading and decoding a file. *)
Definition read_text (X : Externals) (files : gmap Path node) (path : Path)
    : result string :=
  match files !! path with
  | Some (NFile data) =>
      match utf8_decode X data with
      | Some raw => Ok raw
      | None => Raise (Builtin UnicodeDecodeError)
      end
  | _ => Raise (Builtin OSError)
  end.

Definition _read_json_file (X : Externals) (files : gmap Path node) (path : Path)
    : result value :=
  match read_text X files path with
  | Raise (Builtin k) =>
      if is_OSError k
      then Raise (ConfigError [Lit "Unable to read JSON config "; StrPath path;
                               Lit ": "; StrExc (Builtin k)])
      else Raise (Builtin k)
  | Raise e => Raise e
  | OutOfFuel => OutOfFuel
  | Ok raw =>
      match json_loads X raw with
      | Some data => Ok data
      | None =>
          Raise (ConfigError [Lit "Invalid JSON in config "; StrPath path;
                              Lit ": "; StrExc (Builtin JSONDecodeError)])
      end
  end.

Definition _ensure_dict_top_level (data : value) (path : Path)
    : result (gmap string value) :=
  match data with
  | VDict d => Ok d
  | _ => Raise (ConfigError [Lit "JSON config "; StrPath path;
                             Lit " must be an object at the top level"])
  end.

(** [isinstance(data.get(key), dict)] guarding [target.update(data[key])] *)
Definition update_from_block (target data : gmap string value) (key : string)
    : gmap string value :=
  match data !! key with
  | Some (VDict block) => dict_update target block
  | _ => target
  end.

Definition _extract_explicit_blocks (data : gmap string value)
    : gmap string value * gmap string value :=
  let dn := update_from_block ∅ data "dn" in
  let cfg := update_from_block ∅ data "config" in
  (dn, cfg).

Definition _extract_flat_config (data : gmap string value)
    : gmap string value * gmap string value :=
  map_fold
    (λ key value '(dn, cfg),
       if bool_decide (key ∈ DN_KEYS) then (<[key := value]> dn, cfg)
       else if bool_decide (key ∈ dom CONFIG_DEFAULT) || bool_decide (key = "passphrase")
            then (dn, <[key := value]> cfg)
            else (dn, cfg))
    (∅, ∅) data.

(** [if key in cfg: cfg[key] = f(cfg[key])] *)
Definition coerce_key (f : value → result value) (key : string)
    (cfg : gmap string value) : result (gmap string value) :=
  match cfg !! key with
  | Some v => v' ← f v; Ok (<[key := v']> cfg)
  | None => Ok cfg
  end.

Definition _coerce_config_types (X : Externals) (cfg : gmap string value)
    : result (gmap string value) :=
  cfg ← coerce_key (λ v, VInt <$> py_int X v) "private_key_bits" cfg;
  cfg ← coerce_key (λ v, VInt <$> py_int X v) "valid_days" cfg;
  cfg ← coerce_key (λ v, VBool <$> _coerce_bool v) "encrypt_key" cfg;
  Ok cfg.

(** The part of [load_json_config] that follows the parse. *)
Definition split_config (X : Externals) (data : gmap string value)
    : result (gmap string value * gmap string value) :=
  let '(dn, cfg) :=
    if bool_decide ("dn" ∈ dom data) || bool_decide ("config" ∈ dom data)
    then _extract_explicit_blocks data
    else _extract_flat_config data in
  cfg ← _coerce_config_types X cfg;
  Ok (dn, cfg).

Definition load_json_config (X : Externals) (files : gmap Path node) (path : Path)
    : result (gmap string value * gmap string value) :=
  data_raw ← _read_json_file X files path;
  data ← _ensure_dict_top_level data_raw path;
  split_config X data.

Definition validate_dn (X : Externals) (dn : gmap string value) : result unit :=
  if negb (truthy (VDict dn))
  then Raise (ConfigError [Lit "DN is empty. You must supply DN attributes (at least 'commonName') either via CLI or JSON configuration."])
  else
    let cn := default VNone (dn !! "commonName") in
    if negb (truthy cn) || negb (truthy (VStr (PyStr.strip (py_str X cn))))
    then Raise (ConfigError [Lit "DN is missing 'commonName'. Provide it in the JSON config or via CLI."])
    else Ok ().

(** [cfg.get("private_key_type", "").upper() != "RSA"] *)
Definition key_type_is_not_rsa (cfg : gmap string value) : result bool :=
  match default (VStr "") (cfg !! "private_key_type") with
  | VStr s => Ok (negb (String.eqb (PyStr.upper s) "RSA"))
  | _ => Raise (Builtin AttributeError)
  end.

(** The text of the error raised for a key type [kt]. *)
Definition unsupported_key_type (kt : value) : exn :=
  ConfigError [Lit "Unsupported private_key_type "; Repr kt;
               Lit "; only 'RSA' is supported."].

(** [d = dict(base)] followed by [if extra: d.update(extra)] *)
Definition overlay (base : gmap string value) (extra : option (gmap string value))
    : gmap string value :=
  match extra with
  | Some m => if truthy (VDict m) then dict_update base m else base
  | None => base
  end.

Definition merge_settings_json (X : Externals)
    (json_dn json_cfg : option (gmap string value))
    : result (gmap string value * gmap string value) :=
  let dn := overlay ∅ json_dn in
  let cfg := overlay CONFIG_DEFAULT json_cfg in
  bits ← subscript cfg "private_key_bits";
  bits ← py_int X bits;
  let cfg := <["private_key_bits" := VInt bits]> cfg in
  days ← subscript cfg "valid_days";
  days ← py_int X days;
  let cfg := <["valid_days" := VInt days]> cfg in
  bad ← key_type_is_not_rsa cfg;
  if (bad : bool)
  then
    kt ← subscript cfg "private_key_type";
    Raise (unsupported_key_type kt)
  else
    _ ← validate_dn X dn;
    Ok (dn, cfg).

End Config.

(** ** Stateful computations: a result and the world it leaves *)

Definition M (A : Type) : Type := World → result A * World.

#[global] Instance M_ret : MRet M := λ A a w, (Ok a, w).
#[global] Instance M_bind : MBind M := λ A B k m w,
  match m w with
  | (Ok a, w') => k a w'
  | (Raise e, w') => (Raise e, w')
  | (OutOfFuel, w') => (OutOfFuel, w')
  end.

Definition lift {A} (r : result A) : M A := λ w, (r, w).

Definition raise {A} (e : exn) : M A := lift (Raise e).

(** [try: m except Exception as exc: h(exc)] *)
Definition try_except {A} (m : M A) (h : exn → M A) : M A := λ w,
  match m w with
  | (Raise e, w') => h e w'
  | other => other
  end.

Definition call (c : lib_call) : M unit := λ w,
  (Ok (), {| fs := fs w; stdout := stdout w; stderr := stderr w;
             lib_calls := lib_calls w ++ [c] |}).

(** [print(line)] and [print(line, file=sys.stderr)] *)
Definition print (line : list frag) : M unit := λ w,
  (Ok (), {| fs := fs w; stdout := stdout w ++ [line]; stderr := stderr w;
             lib_calls := lib_calls w |}).

Definition print_err (line : list frag) : M unit := λ w,
  (Ok (), {| fs := fs w; stdout := stdout w; stderr := stderr w ++ [line];
             lib_calls := lib_calls w |}).

Definition set_fs (files : gmap Path node) (w : World) : World :=
  {| fs := files; stdout := stdout w; stderr := stderr w; lib_calls := lib_calls w |}.

(** Reading the file system of the current world. *)
Definition with_files {A} (f : gmap Path node → result A) : M A := λ w, (f (fs w), w).

(** The outcome of a library call that may raise a builtin exception. *)
Definition of_lib {A} (r : py_kind + A) : M A :=
  match r with
  | inl k => raise (Builtin k)
  | inr a => mret a
  end.

Definition check_lib (r : option py_kind) : M unit :=
  match r with
  | Some k => raise (Builtin k)
  | None => mret ()
  end.

(** ** [pathlib] on the modelled file system *)

Module PathLib.

(** [base / name] for a one-component [name] *)
Definition joinpath (base : Path) (name : string) : Path := base ++ [name].

Definition exists_ (files : gmap Path node) (p : Path) : bool :=
  bool_decide (is_Some (files !! p)).

Definition is_dir (files : gmap Path node) (p : Path) : bool :=
  match files !! p with
  | Some NDir => true
  | _ => false
  end.

Definition is_file (files : gmap Path node) (p : Path) : bool :=
  match files !! p with
  | Some (NFile _) => true
  | _ => false
  end.

(** The path and its ancestors, outermost first. *)
Fixpoint prefixes (p : Path) : list Path :=
  match p with
  | [] => []
  | x :: r => [x] :: (cons x <$> prefixes r)
  end.

(** [p.mkdir(parents=True, exist_ok=False)] *)
Definition mkdir (X : Externals) (files : gmap Path node) (p : Path)
    : py_kind + gmap Path node :=
  if exists_ files p then inl FileExistsError
  else match mkdir_error X files p with
       | Some k => inl k
       | None => inr (files ∪ list_to_map ((λ q, (q, NDir)) <$> prefixes p))
       end.

(** [p.write_bytes(data)] *)
Definition write_bytes (X : Externals) (files : gmap Path node) (p : Path)
    (data : string) : py_kind + gmap Path node :=
  match write_error X files p with
  | Some k => inl k
  | None => inr (<[p := NFile data]> files)
  end.

(** [d.glob("*.json")]: the names of the entries of [d] that end in
    [.json]. *)
Definition glob_json (files : gmap Path node) (d : Path) : list string :=
  omap (λ p, match last p with
             | Some name =>
                 if bool_decide (p = joinpath d name) && PyStr.endswith name ".json"
                 then Some name else None
             | None => None
             end)
       (elements (dom files)).

(** [sorted(d.glob("*.json"))]: paths of one directory compare by name. *)
Definition sorted_glob_json (files : gmap Path node) (d : Path) : list Path :=
  joinpath d <$> merge_sort String.le (glob_json files d).

End PathLib.

(** ** [certs.py] *)

Module Certs.

Definition ALLOWED_DIGESTS : gmap string DigestAlgorithm :=
  list_to_map [ ("sha256", SHA256); ("sha384", SHA384); ("sha512", SHA512) ].

(** The seven [if dn.get(key): ...append(NameAttribute(oid, dn[key]))]
    statements of [build_x509_name], in their order. *)
Definition NAME_FIELDS : list (string * NameOID) :=
  [ ("countryName", COUNTRY_NAME);
    ("stateOrProvinceName", STATE_OR_PROVINCE_NAME);
    ("localityName", LOCALITY_NAME);
    ("organizationName", ORGANIZATION_NAME);
    ("organizationalUnitName", ORGANIZATIONAL_UNIT_NAME);
    ("commonName", COMMON_NAME);
    ("emailAddress", EMAIL_ADDRESS) ].

Fixpoint name_attributes (X : Externals) (dn : gmap string value)
    (fields : list (string * NameOID)) : result Name :=
  match fields with
  | [] => Ok []
  | (key, oid) :: rest =>
      let v := default VNone (dn !! key) in
      if truthy v then
        match name_attribute_error X oid v with
        | Some k => Raise (Builtin k)
        | None =>
            attrs ← name_attributes X dn rest;
            Ok ({| attr_oid := oid; attr_value := v |} :: attrs)
        end
      else name_attributes X dn rest
  end.

Definition build_x509_name (X : Externals) (dn : gmap string value) : result Name :=
  name_attributes X dn NAME_FIELDS.

(** [digest_name.lower()] needs a [str]. *)
Definition get_digest (digest_name : value) : result DigestAlgorithm :=
  match digest_name with
  | VStr s =>
      let key := PyStr.lower s in
      match ALLOWED_DIGESTS !! key with
      | Some alg => Ok alg
      | None => Raise (ConfigError [Lit "Unsupported digest: "; Repr (VStr key)])
      end
  | _ => Raise (Builtin AttributeError)
  end.

Definition generate_key_pair (X : Externals) (bits : value) : M RSAPrivateKey :=
  try_except
    (_ ← call (Call_generate_private_key bits);
     of_lib (rsa_generate_private_key X 65537 bits))
    (λ exc, raise (GenerationError [Lit "Failed to generate RSA key ("; Str bits;
                                    Lit " bits): "; StrExc exc])).

(** [except CertToolError: raise] followed by
    [except Exception as exc: raise GenerationError(...)] *)
Definition reraise_or_wrap {A} (prefix : string) (exc : exn) : M A :=
  if is_CertToolError exc then raise exc
  else raise (GenerationError [Lit prefix; StrExc exc]).

Definition generate_csr (X : Externals) (private_key : RSAPrivateKey)
    (subject : Name) (digest_alg : value) : M CertificateSigningRequest :=
  try_except
    (algorithm ← lift (get_digest digest_alg);
     let request := {| csr_subject := subject; csr_key := private_key;
                       csr_extensions := []; csr_digest := algorithm |} in
     _ ← call Call_sign_csr;
     _ ← check_lib (csr_sign_error X request);
     mret request)
    (reraise_or_wrap "Failed to generate CSR: ").

(** [for name in v]: the items a value yields when iterated. *)
Definition py_iter (X : Externals) (v : value) : result (list value) :=
  match v with
  | VList l => Ok l
  | VStr s => Ok (VStr <$> PyStr.chars s)
  | VDict m => Ok (VStr <$> dict_keys X m)
  | _ => Raise (Builtin TypeError)
  end.

(** [x509.DNSName(name)] *)
Definition dns_name (X : Externals) (name : value) : result GeneralName :=
  match name with
  | VStr s =>
      match dns_name_error X s with
      | Some k => Raise (Builtin k)
      | None => Ok (DNSName s)
      end
  | _ => Raise (Builtin TypeError)
  end.

(** [[x509.DNSName(name) for name in names]] *)
Fixpoint dns_names (X : Externals) (names : list value) : result (list GeneralName) :=
  match names with
  | [] => Ok []
  | name :: rest =>
      g ← dns_name X name;
      gs ← dns_names X rest;
      Ok (g :: gs)
  end.

(** [timedelta(days=valid_days)] in microseconds. *)
Definition days_us (X : Externals) (valid_days : value) : Z :=
  match valid_days with
  | VInt n => n * 86400000000
  | VBool b => if b then 86400000000 else 0
  | _ => timedelta_days X valid_days
  end.

(** [if subject_alt_names:] on an optional argument *)
Definition opt_truthy (v : option value) : bool :=
  match v with
  | Some v => truthy v
  | None => false
  end.

Definition generate_self_signed_cert (X : Externals) (private_key : RSAPrivateKey)
    (subject : Name) (digest_alg : value) (valid_days : value)
    (subject_alt_names : option value) : M Certificate :=
  try_except
    (let now := now X in
     _ ← check_lib (validity_error X now valid_days);
     let builder :=
       [ {| ext_value := BasicConstraints true None; critical := true |} ] in
     builder ←
       (if opt_truthy subject_alt_names then
          items ← lift (py_iter X (default VNone subject_alt_names));
          names ← lift (dns_names X items);
          let san := SubjectAlternativeName names in
          mret (builder ++ [ {| ext_value := san; critical := false |} ])%list
        else mret builder);
     algorithm ← lift (get_digest digest_alg);
     let certificate :=
       {| subject := subject; issuer := subject; public_key := private_key;
          serial_number := random_serial_number X;
          not_valid_before := now - 60000000;
          not_valid_after := now + days_us X valid_days;
          extensions := builder;
          signature_hash := algorithm |} in
     _ ← call Call_sign_certificate;
     _ ← check_lib (cert_sign_error X certificate);
     mret certificate)
    (reraise_or_wrap "Failed to generate self-signed certificate: ").

(** [cfg.get("subject_alt_names") or None] *)
Definition get_or_none (cfg : gmap string value) (key : string) : option value :=
  match cfg !! key with
  | Some v => if truthy v then Some v else None
  | None => None
  end.

Definition create_cert_components (X : Externals) (dn cfg : gmap string value)
    : M CertComponents :=
  subject ← lift (build_x509_name X dn);
  bits ← lift (subscript cfg "private_key_bits");
  private_key ← generate_key_pair X bits;
  digest_alg ← lift (subscript cfg "digest_alg");
  csr ← generate_csr X private_key subject digest_alg;
  digest_alg ← lift (subscript cfg "digest_alg");
  valid_days ← lift (subscript cfg "valid_days");
  cert ← generate_self_signed_cert X private_key subject digest_alg valid_days
           (get_or_none cfg "subject_alt_names");
  mret {| private_key := private_key; csr := csr; cert := cert |}.

(** [passphrase] is [None] ([VNone]) or a [str]; [passphrase.encode]
    needs a [str]. *)
Definition serialize_cert_components (X : Externals) (components : CertComponents)
    (encrypt_key : bool) (passphrase : value) : M PemBundle :=
  encryption ←
    (if encrypt_key then
       if negb (truthy passphrase) then
         raise (ConfigError [Lit "encrypt_key is true but no passphrase was provided. Set 'passphrase' in the JSON config or via --passphrase."])
       else match passphrase with
            | VStr p => mret (BestAvailableEncryption p)
            | _ => raise (Builtin AttributeError)
            end
     else mret NoEncryption);
  try_except
    (_ ← call (Call_private_bytes encryption);
     private_key_pem ← of_lib (private_bytes X (private_key components) encryption);
     _ ← call Call_csr_public_bytes;
     csr_pem ← of_lib (csr_public_bytes X (csr components));
     _ ← call Call_cert_public_bytes;
     cert_pem ← of_lib (cert_public_bytes X (cert components));
     mret {| certificate_pem := cert_pem; csr_pem := csr_pem;
             private_key_pem := private_key_pem |})
    (λ exc, raise (GenerationError [Lit "Failed to serialize certificate artifacts: ";
                                    StrExc exc])).

(** *** Filesystem naming and output helpers *)

Definition is_slug_punct (ch : ascii) : bool :=
  bool_decide (ch ∈ ["."; "-"; "_"]%char).

(** One turn of the [for ch in value] loop: the character appended, if any. *)
Definition slug_char (ch : ascii) : option ascii :=
  if PyStr.isalnum ch || is_slug_punct ch then Some ch
  else if PyStr.isspace ch then Some "_"%char
  else None.

Fixpoint slug_chars (value : string) : string :=
  match value with
  | EmptyString => EmptyString
  | String ch rest =>
      match slug_char ch with
      | Some c => String c (slug_chars rest)
      | None => slug_chars rest
      end
  end.

Definition slugify (value : string) : string :=
  let value := PyStr.lower (PyStr.strip value) in
  if PyStr.is_empty value then "cert"
  else
    let slug := PyStr.strip_by is_slug_punct (slug_chars value) in
    if PyStr.is_empty slug then "cert" else slug.

(** [candidate.mkdir(parents=True, exist_ok=False)] under
    [except OSError], after the existence check found nothing: other
    processes act in between. *)
Definition create_dir (X : Externals) (candidate : Path) : M Path := λ w,
  let files := interference X (fs w) in
  match PathLib.mkdir X files candidate with
  | inr files' => (Ok candidate, set_fs files' w)
  | inl k =>
      if is_OSError k
      then (Raise (OutputError [Lit "Unable to create directory "; StrPath candidate;
                                Lit ": "; StrExc (Builtin k)]), set_fs files w)
      else (Raise (Builtin k), set_fs files w)
  end.

(** [f"{base_name}-{counter}"] *)
Definition suffixed (base_name : string) (counter : nat) : string :=
  base_name +:+ "-" +:+ pretty counter.

(** The [while True] loop of [make_cert_subdir], from [counter] on. *)
Fixpoint suffix_loop (X : Externals) (fuel : nat) (base_output_dir : Path)
    (base_name : string) (counter : nat) : M Path := λ w,
  match fuel with
  | O => (OutOfFuel, w)
  | S fuel' =>
      let candidate := PathLib.joinpath base_output_dir (suffixed base_name counter) in
      if negb (PathLib.exists_ (fs w) candidate)
      then create_dir X candidate w
      else suffix_loop X fuel' base_output_dir base_name (S counter) w
  end.

Definition subdir_base_name (X : Externals) (dn : gmap string value)
    (label : option string) : string :=
  let v := default VNone (dn !! "commonName") in
  let cn := PyStr.strip (py_str X (if truthy v then v else VStr "")) in
  if negb (PyStr.is_empty cn) then slugify cn
  else match label with
       | Some l => if negb (PyStr.is_empty l) then slugify (path_stem X l) else "cert"
       | None => "cert"
       end.

Definition make_cert_subdir (X : Externals) (fuel : nat) (base_output_dir : Path)
    (dn : gmap string value) (label : option string) : M Path := λ w,
  let base_name := subdir_base_name X dn label in
  let candidate := PathLib.joinpath base_output_dir base_name in
  if negb (PathLib.exists_ (fs w) candidate)
  then create_dir X candidate w
  else suffix_loop X fuel base_output_dir base_name 1 w.

Definition newline : string := String "010"%char EmptyString.

Definition write_bundle_to_stdout (bundle : PemBundle) (label : option string)
    : M unit :=
  _ ← match label with
      | Some l =>
          if negb (PyStr.is_empty l)
          then print [Lit newline; Lit "########## CONFIG: "; Str (VStr l);
                      Lit " ##########"; Lit newline]
          else mret ()
      | None => mret ()
      end;
  _ ← print [Lit "# Self-signed certificate (PEM)"];
  _ ← print [Lit (certificate_pem bundle)];
  _ ← print [Lit "# Certificate Signing Request (CSR, PEM)"];
  _ ← print [Lit (csr_pem bundle)];
  _ ← print [Lit "# Private Key (PEM)"];
  print [Lit (private_key_pem bundle)].

(** [path.write_bytes(data)] *)
Definition write_file (X : Externals) (path : Path) (data : string) : M unit := λ w,
  match PathLib.write_bytes X (fs w) path data with
  | inr files' => (Ok (), set_fs files' w)
  | inl k => (Raise (Builtin k), w)
  end.

Definition write_bundle_to_dir (X : Externals) (fuel : nat) (bundle : PemBundle)
    (dn : gmap string value) (label : option string) (output_dir : Path) : M unit :=
  subdir ← make_cert_subdir X fuel output_dir dn label;
  let cert_path := PathLib.joinpath subdir "cert.pem" in
  let csr_path := PathLib.joinpath subdir "csr.pem" in
  let key_path := PathLib.joinpath subdir "key.pem" in
  try_except
    (_ ← write_file X cert_path (certificate_pem bundle);
     _ ← write_file X csr_path (csr_pem bundle);
     write_file X key_path (private_key_pem bundle))
    (λ exc,
       match exc with
       | Builtin k =>
           if is_OSError k
           then raise (OutputError [Lit "Failed to write PEM files in "; StrPath subdir;
                                    Lit ": "; StrExc exc])
           else raise exc
       | _ => raise exc
       end).

(** *** High-level orchestration helpers *)

Definition handle_single_cert (X : Externals) (fuel : nat) (dn cfg : gmap string value)
    (label : option string) (output_dir : option Path) : M unit :=
  components ← create_cert_components X dn cfg;
  bundle ← serialize_cert_components X components
              (truthy (default VNone (cfg !! "encrypt_key")))
              (default VNone (cfg !! "passphrase"));
  match output_dir with
  | None => write_bundle_to_stdout bundle label
  | Some d => write_bundle_to_dir X fuel bundle dn label d
  end.

Definition generate_from_json_file (X : Externals) (path : Path) : M PemBundle :=
  '(json_dn, json_cfg) ← with_files (λ files, Config.load_json_config X files path);
  '(dn, cfg) ← lift (Config.merge_settings_json X (Some json_dn) (Some json_cfg));
  components ← create_cert_components X dn cfg;
  serialize_cert_components X components
    (truthy (default VNone (cfg !! "encrypt_key")))
    (default VNone (cfg !! "passphrase")).

(** What [generate_from_dn_and_config] does once the DN and the key
    type have passed. *)
Definition generate_checked (X : Externals) (dn cfg : gmap string value) : M PemBundle :=
  cfg ← lift (Config.coerce_key (λ v, VInt <$> py_int X v) "private_key_bits" cfg);
  cfg ← lift (Config.coerce_key (λ v, VInt <$> py_int X v) "valid_days" cfg);
  components ← create_cert_components X dn cfg;
  serialize_cert_components X components
    (truthy (default VNone (cfg !! "encrypt_key")))
    (default VNone (cfg !! "passphrase")).

Definition generate_from_dn_and_config (X : Externals) (dn cfg : gmap string value)
    : M PemBundle :=
  _ ← lift (Config.validate_dn X dn);
  bad ← lift (Config.key_type_is_not_rsa cfg);
  if (bad : bool)
  then raise (Config.unsupported_key_type (default VNone (cfg !! "private_key_type")))
  else generate_checked X dn cfg.

End Certs.

(** ** [utils.py]: the output directory *)

Module Utils.

(** [path.mkdir(parents=True, exist_ok=True)]: a directory that is
    already there is accepted as it is. *)
Definition mkdir_exist_ok (X : Externals) (files : gmap Path node) (p : Path)
    : py_kind + gmap Path node :=
  if PathLib.is_dir files p then inr files else PathLib.mkdir X files p.

Definition prepare_output_dir (X : Externals) (path : option Path)
    : M (option Path) := λ w,
  match path with
  | None => (Ok None, w)
  | Some p =>
      match mkdir_exist_ok X (fs w) p with
      | inr files' => (Ok (Some p), set_fs files' w)
      | inl k =>
          if is_OSError k
          then (Raise (OutputError [Lit "Unable to create output directory ";
                                    StrPath p; Lit ": "; StrExc (Builtin k)]), w)
          else (Raise (Builtin k), w)
      end
  end.

End Utils.

(** ** [version.py] *)

Module Version.

Definition __version__ : string := "0.1.1-rc1".

Definition get_version : string := __version__.

End Version.

(** ** Collaborators of the command line

    What the command line asks of the JSON encoder and of the
    certificate parser; the generation path uses neither. *)
Record CliExternals := {
  (** [json.dumps(v, indent=2)] *)
  json_dumps : value → string;
  (** [x509.load_pem_x509_certificate(data)] *)
  load_pem_x509_certificate : string → py_kind + Certificate;
  (** [name.rfc4514_string()] *)
  rfc4514_string : Name → string;
  (** [str(t)] of a point in time *)
  datetime_str : Z → string;
}.

(** ** [example.py] *)

Module Example.

Definition build_example_config : gmap string value :=
  list_to_map
    [ ("dn", VDict (list_to_map
         [ ("countryName", VStr "UK");
           ("stateOrProvinceName", VStr "Somerset");
           ("localityName", VStr "Glastonbury");
           ("organizationName", VStr "The Lupaxa Project");
           ("organizationalUnitName", VStr "Certificate Tooling");
           ("commonName", VStr "example.lupaxa.test");
           ("emailAddress", VStr "admin@example.test") ]));
      ("config", VDict (list_to_map
         [ ("digest_alg", VStr "sha512");
           ("private_key_bits", VInt 2048);
           ("private_key_type", VStr "RSA");
           ("encrypt_key", VBool false);
           ("valid_days", VInt 365);
           ("subject_alt_names",
            VList [VStr "example.lupaxa.test"; VStr "www.example.lupaxa.test"]) ])) ].

Definition generate_example_config (X : Externals) (Y : CliExternals)
    (example_file : option Path) : M unit :=
  let config_dict := build_example_config in
  let json_str := json_dumps Y (VDict config_dict) in
  match example_file with
  | None => print [Lit json_str]
  | Some p => λ w,
      match PathLib.write_bytes X (fs w) p (json_str +:+ Certs.newline) with
      | inr files' => (Ok (), set_fs files' w)
      | inl k =>
          if is_OSError k
          then (Raise (OutputError [Lit "Unable to write example config to ";
                                    StrPath p; Lit ": "; StrExc (Builtin k)]), w)
          else (Raise (Builtin k), w)
      end
  end.

End Example.

(** ** The parsed command line

    The [argparse.Namespace] that [parse_args] returns: one attribute
    for each option, [None] for an option that was not given.  A path
    is true whenever it is there. *)

Module Argparse.

Record Namespace := {
  version : bool;
  generate_example : bool;
  example_file : option Path;
  config : option Path;
  config_dir : option Path;
  output_dir : option Path;
  validate_config : option Path;
  inspect_cert : option Path;
  countryName : option string;
  stateOrProvinceName : option string;
  localityName : option string;
  organizationName : option string;
  organizationalUnitName : option string;
  commonName : option string;
  emailAddress : option string;
  digest_alg : option string;
  private_key_bits : option Z;
  private_key_type : option string;
  valid_days : option Z;
  encrypt_key : option bool;
  passphrase : option string;
}.

Definition opt_str (o : option string) : value := from_option VStr VNone o.
Definition opt_int (o : option Z) : value := from_option VInt VNone o.
Definition opt_bool (o : option bool) : value := from_option VBool VNone o.

(** [vars(args)], for the attributes that carry a DN or CONFIG value.
    There is no option for [subject_alt_names]. *)
Definition vars (args : Namespace) : gmap string value :=
  list_to_map
    [ ("countryName", opt_str (countryName args));
      ("stateOrProvinceName", opt_str (stateOrProvinceName args));
      ("localityName", opt_str (localityName args));
      ("organizationName", opt_str (organizationName args));
      ("organizationalUnitName", opt_str (organizationalUnitName args));
      ("commonName", opt_str (commonName args));
      ("emailAddress", opt_str (emailAddress args));
      ("digest_alg", opt_str (digest_alg args));
      ("private_key_bits", opt_int (private_key_bits args));
      ("private_key_type", opt_str (private_key_type args));
      ("valid_days", opt_int (valid_days args));
      ("encrypt_key", opt_bool (encrypt_key args));
      ("passphrase", opt_str (passphrase args)) ].

(** [hasattr(args, key)] and [getattr(args, key, None)] for the name of
    a DN or CONFIG value. *)
Definition hasattr (args : Namespace) (key : string) : bool :=
  bool_decide (key ∈ dom (vars args)).

Definition getattr (args : Namespace) (key : string) : value :=
  default VNone (vars args !! key).

(** [v is not None] *)
Definition is_not_none (v : value) : bool :=
  match v with
  | VNone => false
  | _ => true
  end.

(** [bool(p)] of an optional path *)
Definition given {A} (o : option A) : bool :=
  match o with
  | Some _ => true
  | None => false
  end.

End Argparse.

(** ** [cli.py]: the mode processors *)

Module Cli.

(** [if passphrase is not None and "passphrase" not in cfg:
    cfg["passphrase"] = passphrase] *)
Definition cli_passphrase (passphrase : option string) (cfg : gmap string value)
    : gmap string value :=
  match passphrase with
  | Some p =>
      if negb (bool_decide ("passphrase" ∈ dom cfg))
      then <["passphrase" := VStr p]> cfg
      else cfg
  | None => cfg
  end.

(** [cfg_path.name] *)
Definition path_name (p : Path) : string := default "" (last p).

(** The body of the [try] in [process_config_dir_mode]. *)
Definition process_one (X : Externals) (fuel : nat) (output_dir : option Path)
    (passphrase : option string) (cfg_path : Path) : M unit :=
  '(json_dn, json_cfg) ← with_files (λ files, Config.load_json_config X files cfg_path);
  '(dn, cfg) ← lift (Config.merge_settings_json X (Some json_dn) (Some json_cfg));
  let cfg := cli_passphrase passphrase cfg in
  Certs.handle_single_cert X fuel dn cfg (Some (path_name cfg_path)) output_dir.

(** The line printed by the [except] clause that catches [exc]. *)
Definition error_line (cfg_path : Path) (exc : exn) : list frag :=
  if is_CertToolError exc
  then [Lit "ERROR processing "; StrPath cfg_path; Lit ": "; StrExc exc]
  else [Lit "ERROR processing "; StrPath cfg_path; Lit ": unexpected error: "; StrExc exc].

(** [for cfg_path in json_files: try: body except ...: errors += 1; print],
    returning the final value of [errors]. *)
Fixpoint for_each_config (body : Path → M unit) (json_files : list Path)
    (errors : nat) : M nat := λ w,
  match json_files with
  | [] => (Ok errors, w)
  | cfg_path :: rest =>
      match body cfg_path w with
      | (Ok _, w') => for_each_config body rest errors w'
      | (Raise exc, w') =>
          let '(_, w'') := print_err (error_line cfg_path exc) w' in
          for_each_config body rest (S errors) w''
      | (OutOfFuel, w') => (OutOfFuel, w')
      end
  end.

(** [process_config_dir_mode] with the loop body as a parameter. *)
Definition config_dir_mode (body : Path → M unit) (config_dir : Path) : M unit := λ w,
  if negb (PathLib.exists_ (fs w) config_dir) || negb (PathLib.is_dir (fs w) config_dir)
  then (Raise (ConfigError [Lit "--config-dir "; StrPath config_dir;
                            Lit " is not a directory."]), w)
  else
    let json_files := PathLib.sorted_glob_json (fs w) config_dir in
    match json_files with
    | [] => (Raise (ConfigError [Lit "No *.json files found in "; StrPath config_dir]), w)
    | _ =>
        match for_each_config body json_files 0 w with
        | (Ok errors, w') =>
            if negb (errors =? 0)%nat
            then (Raise (CertToolError [StrNat errors;
                    Lit " config file(s) failed; see error messages above."]), w')
            else (Ok (), w')
        | (Raise e, w') => (Raise e, w')
        | (OutOfFuel, w') => (OutOfFuel, w')
        end
    end.

Definition process_config_dir_mode (X : Externals) (fuel : nat) (config_dir : Path)
    (output_dir : option Path) (passphrase : option string) : M unit :=
  config_dir_mode (process_one X fuel output_dir passphrase) config_dir.

Definition process_config_file_mode (X : Externals) (fuel : nat) (config_file : Path)
    (output_dir : option Path) (passphrase : option string) : M unit := λ w,
  if negb (PathLib.exists_ (fs w) config_file) || negb (PathLib.is_file (fs w) config_file)
  then (Raise (ConfigError [Lit "--config "; StrPath config_file; Lit " is not a file."]), w)
  else
    ('(json_dn, json_cfg) ← with_files (λ files, Config.load_json_config X files config_file);
     '(dn, cfg) ← lift (Config.merge_settings_json X (Some json_dn) (Some json_cfg));
     let cfg := cli_passphrase passphrase cfg in
     Certs.handle_single_cert X fuel dn cfg None output_dir) w.

(** *** Mode validation *)

(** The keys of [CONFIG_DEFAULT], in the order [for key in
    CONFIG_DEFAULT] visits them. *)
Definition CONFIG_KEYS : list string :=
  [ "digest_alg"; "private_key_bits"; "private_key_type"; "encrypt_key";
    "valid_days"; "subject_alt_names" ].

Definition _any_dn_cli_set (args : Argparse.Namespace) : bool :=
  existsb (λ key, Argparse.is_not_none (Argparse.getattr args key)) DN_KEYS.

Definition _any_cfg_cli_set (args : Argparse.Namespace) : bool :=
  existsb (λ key, Argparse.is_not_none (Argparse.getattr args key)) CONFIG_KEYS.

Definition _collect_example_mode_conflicts (args : Argparse.Namespace) : list string :=
  let conflicts := [] in
  let conflicts :=
    if Argparse.given (Argparse.config args)
    then (conflicts ++ ["--config"])%list else conflicts in
  let conflicts :=
    if Argparse.given (Argparse.config_dir args)
    then (conflicts ++ ["--config-dir"])%list else conflicts in
  let conflicts :=
    if Argparse.given (Argparse.output_dir args)
    then (conflicts ++ ["--output-dir"])%list else conflicts in
  let conflicts :=
    if _any_dn_cli_set args
    then (conflicts ++ ["DN CLI options"])%list else conflicts in
  let conflicts :=
    if _any_cfg_cli_set args
    then (conflicts ++ ["CONFIG CLI options"])%list else conflicts in
  conflicts.

Definition _validate_example_mode (args : Argparse.Namespace) : result unit :=
  let conflicts := _collect_example_mode_conflicts args in
  match conflicts with
  | [] => Ok ()
  | _ =>
      let conflict_list := String.concat ", " conflicts in
      Raise (ConfigError [Lit "--generate-example cannot be combined with certificate generation options. Use it alone (optionally with --example-file). Conflicting options: ";
                          Str (VStr conflict_list)])
  end.

Definition _validate_standard_mode (args : Argparse.Namespace) : result unit :=
  if Argparse.given (Argparse.config args) && Argparse.given (Argparse.config_dir args)
  then Raise (ConfigError [Lit "--config and --config-dir are mutually exclusive."])
  else
    let using_config :=
      Argparse.given (Argparse.config args) || Argparse.given (Argparse.config_dir args) in
    if negb using_config then Ok ()
    else if _any_dn_cli_set args || _any_cfg_cli_set args
    then Raise (ConfigError
           [Lit "DN/CONFIG CLI options cannot be used together with --config or --config-dir. ";
            Lit "Choose ONE mode:"; Lit Certs.newline;
            Lit "  * CLI-only: DN/CONFIG via CLI (no --config / --config-dir)";
            Lit Certs.newline;
            Lit "  * Config file: --config <file.json>"; Lit Certs.newline;
            Lit "  * Config dir:  --config-dir <dir>"])
    else Ok ().

Definition validate_mode_constraints (args : Argparse.Namespace) : result unit :=
  if Argparse.version args then Ok ()
  else if Argparse.given (Argparse.validate_config args) then
    if Argparse.generate_example args
       || Argparse.given (Argparse.config_dir args)
       || Argparse.given (Argparse.config args)
       || Argparse.given (Argparse.output_dir args)
       || _any_dn_cli_set args
       || _any_cfg_cli_set args
    then Raise (ConfigError [Lit "--validate-config cannot be combined with other generation options. Use it alone to check a single JSON config file."])
    else Ok ()
  else if Argparse.generate_example args then _validate_example_mode args
  else _validate_standard_mode args.

(** *** The mode without a configuration file *)

(** [if hasattr(args, key): value = getattr(args, key); if value is not
    None: d[key] = value] *)
Definition set_from_cli (args : Argparse.Namespace) (d : gmap string value)
    (key : string) : gmap string value :=
  if Argparse.hasattr args key then
    let value := Argparse.getattr args key in
    if Argparse.is_not_none value then <[key := value]> d else d
  else d.

(** The DN and the CONFIG that [process_cli_mode] derives from the
    flags, before the types are ensured. *)
Definition cli_dn (args : Argparse.Namespace) : gmap string value :=
  foldl (set_from_cli args) ∅ DN_KEYS.

Definition cli_cfg (args : Argparse.Namespace) : gmap string value :=
  let cfg := foldl (set_from_cli args) CONFIG_DEFAULT CONFIG_KEYS in
  if Argparse.is_not_none (Argparse.getattr args "passphrase")
  then <["passphrase" := Argparse.getattr args "passphrase"]> cfg
  else cfg.

Definition process_cli_mode (X : Externals) (fuel : nat) (args : Argparse.Namespace)
    (output_dir : option Path) : M unit :=
  let dn := cli_dn args in
  let cfg := cli_cfg args in
  bits ← lift (subscript cfg "private_key_bits");
  bits ← lift (py_int X bits);
  let cfg := <["private_key_bits" := VInt bits]> cfg in
  days ← lift (subscript cfg "valid_days");
  days ← lift (py_int X days);
  let cfg := <["valid_days" := VInt days]> cfg in
  bad ← lift (Config.key_type_is_not_rsa cfg);
  if (bad : bool)
  then
    kt ← lift (subscript cfg "private_key_type");
    raise (Config.unsupported_key_type kt)
  else
    _ ← lift (Config.validate_dn X dn);
    Certs.handle_single_cert X fuel dn cfg None output_dir.

(** *** Inspection of a certificate *)

(** [path.read_bytes()] *)
Definition read_bytes (files : gmap Path node) (path : Path) : py_kind + string :=
  match files !! path with
  | Some (NFile data) => inr data
  | _ => inl OSError
  end.

(** [cert.extensions.get_extension_for_class(SubjectAlternativeName)]
    followed by [san.value.get_values_for_type(DNSName)]; [None] when
    the certificate has no such extension. *)
Fixpoint san_dns_names (exts : list Extension) : option (list string) :=
  match exts with
  | [] => None
  | e :: rest =>
      match ext_value e with
      | SubjectAlternativeName names => Some ((λ '(DNSName s), s) <$> names)
      | _ => san_dns_names rest
      end
  end.

Definition inspect_certificate (Y : CliExternals) (path : Path) : M unit := λ w,
  match read_bytes (fs w) path with
  | inl k =>
      if is_OSError k
      then (Raise (ConfigError [Lit "Unable to read certificate "; StrPath path;
                                Lit ": "; StrExc (Builtin k)]), w)
      else (Raise (Builtin k), w)
  | inr data =>
      match load_pem_x509_certificate Y data with
      | inl k =>
          (Raise (ConfigError [Lit "Failed to parse certificate "; StrPath path;
                               Lit ": "; StrExc (Builtin k)]), w)
      | inr cert =>
          (_ ← print [Lit "Certificate: "; StrPath path];
           _ ← print [Lit "  Subject: "; Lit (rfc4514_string Y (subject cert))];
           _ ← print [Lit "  Issuer:  "; Lit (rfc4514_string Y (issuer cert))];
           _ ← print [Lit "  Valid from: "; Lit (datetime_str Y (not_valid_before cert))];
           _ ← print [Lit "  Valid until: "; Lit (datetime_str Y (not_valid_after cert))];
           match san_dns_names (extensions cert) with
           | Some (name :: names) =>
               print [Lit "  DNS SANs: "; Lit (String.concat ", " (name :: names))]
           | _ => mret ()
           end) w
      end
  end.

(** *** The controller *)

Definition run (X : Externals) (Y : CliExternals) (fuel : nat)
    (args : Argparse.Namespace) : M unit :=
  if Argparse.version args then print [Lit Version.get_version]
  else
    match Argparse.validate_config args with
    | Some path =>
        '(json_dn, json_cfg) ← with_files (λ files, Config.load_json_config X files path);
        _ ← lift (Config.merge_settings_json X (Some json_dn) (Some json_cfg));
        print [Lit "Configuration "; StrPath path; Lit " is valid."]
    | None =>
        match Argparse.inspect_cert args with
        | Some path => inspect_certificate Y path
        | None =>
            _ ← lift (validate_mode_constraints args);
            if Argparse.generate_example args
            then Example.generate_example_config X Y (Argparse.example_file args)
            else
              output_dir ← Utils.prepare_output_dir X (Argparse.output_dir args);
              let passphrase := Argparse.passphrase args in
              match Argparse.config_dir args with
              | Some config_dir =>
                  process_config_dir_mode X fuel config_dir output_dir passphrase
              | None =>
                  match Argparse.config args with
                  | Some config_file =>
                      process_config_file_mode X fuel config_file output_dir passphrase
                  | None => process_cli_mode X fuel args output_dir
                  end
              end
        end
    end.

End Cli.

(** ** Notions used to state the properties *)

(** Equality of two strings up to the case of their letters. *)
Fixpoint eq_ignore_case (s t : string) : bool :=
  match s, t with
  | EmptyString, EmptyString => true
  | String a s', String b t' =>
      Ascii.eqb (PyStr.lower_char a) (PyStr.lower_char b) && eq_ignore_case s' t'
  | _, _ => false
  end.

(** A string made of whitespace only (the empty string included). *)
Fixpoint blank (s : string) : bool :=
  match s with
  | EmptyString => true
  | String c r => PyStr.isspace c && blank r
  end.

(** The character [c] occurs in [s]. *)
Fixpoint occurs (c : ascii) (s : string) : bool :=
  match s with
  | EmptyString => false
  | String a r => Ascii.eqb a c || occurs c r
  end.

(** The words a string can spell, after trimming and up to case. *)
Definition spells (words : list string) (s : string) : bool :=
  existsb (eq_ignore_case (PyStr.strip s)) words.

(** The mapping a document holds under [key]; [None] when the key is
    missing or holds something else. *)
Definition mapping_at (data : gmap string value) (key : string)
    : option (gmap string value) :=
  match data !! key with
  | Some (VDict m) => Some m
  | _ => None
  end.

(** The value a setting takes once the defaults are overlaid: the
    caller's, else the default. *)
Definition setting (json_cfg : option (gmap string value)) (key : string)
    : option value :=
  match json_cfg ≫= (λ c, c !! key) with
  | Some v => Some v
  | None => CONFIG_DEFAULT !! key
  end.

(** The words [_coerce_bool] is documented to accept. *)
Definition TRUE_WORDS : list string := ["1"; "true"; "yes"; "y"; "on"].
Definition FALSE_WORDS : list string := ["0"; "false"; "no"; "n"; "off"].

(** The exceptions [int()] raises. *)
Definition int_failure_kinds : list py_kind := [ValueError; TypeError; OverflowError].

(** The configuration [merge_settings_json] returns: the overlay with
    the two integer fields converted. *)
Definition merged (json_cfg : option (gmap string value)) (bits days : Z)
    : gmap string value :=
  <["valid_days" := VInt days]>
    (<["private_key_bits" := VInt bits]> (Config.overlay CONFIG_DEFAULT json_cfg)).

(** The subject-alternative-name extensions a certificate carries. *)
Definition is_san (e : Extension) : bool :=
  match ext_value e with
  | SubjectAlternativeName _ => true
  | _ => false
  end.

Definition san_extensions (c : Certificate) : list Extension :=
  List.filter is_san (extensions c).

(** A library that raises nothing, asked for a key of [bits] bits. *)
Definition library_accepts (X : Externals) (bits : value) : Prop :=
  (∃ key, rsa_generate_private_key X 65537 bits = inr key)
  ∧ (∀ oid v, name_attribute_error X oid v = None)
  ∧ (∀ s, dns_name_error X s = None)
  ∧ (∀ t d, validity_error X t d = None)
  ∧ (∀ r, csr_sign_error X r = None)
  ∧ (∀ c, cert_sign_error X c = None).

(** The file system after [p.mkdir(parents=True)] succeeded: [p] and its
    missing ancestors are directories. *)
Definition mkdir_result (files : gmap Path node) (p : Path) : gmap Path node :=
  files ∪ list_to_map ((λ q, (q, NDir)) <$> PathLib.prefixes p).

(** No other process touches the file system and [mkdir] fails for no
    other reason than the path existing. *)
Definition quiet (X : Externals) : Prop :=
  (∀ files, interference X files = files)
  ∧ (∀ files p, mkdir_error X files p = None).

(** A call that comes back, with a value or an exception, from every
    world. *)
Definition returns {A} (m : M A) : Prop := ∀ w, fst (m w) ≠ OutOfFuel.

(** A call that returns and leaves the file system as it found it. *)
Definition steady {A} (m : M A) : Prop :=
  ∀ w, fst (m w) ≠ OutOfFuel ∧ fs (snd (m w)) = fs w.

(** A call that returns when given fuel above the number of existing
    paths, and adds at most [c] paths. *)
Definition grows {A} (fuel c : nat) (m : M A) : Prop :=
  ∀ w, (size (fs w) < fuel)%nat →
       fst (m w) ≠ OutOfFuel ∧ (size (fs (snd (m w))) ≤ size (fs w) + c)%nat.

(** The world after the batch has reported that [cfg_path] raised [exc]. *)
Definition reported (cfg_path : Path) (exc : exn) (w : World) : World :=
  snd (print_err (Cli.error_line cfg_path exc) w).

(** The batch as the design states it: the items are attempted one
    after another, each from the world its predecessor left; an item
    that raises is reported and counted, and the next one is attempted
    all the same.  [attempted body items w n w'] holds when this leads
    from [w] to [w'] with [n] failures. *)
Inductive attempted (body : Path → M unit)
    : list Path → World → nat → World → Prop :=
| attempted_none w : attempted body [] w 0 w
| attempted_done cfg_path rest w w1 n w' :
    body cfg_path w = (Ok (), w1) →
    attempted body rest w1 n w' →
    attempted body (cfg_path :: rest) w n w'
| attempted_failed cfg_path rest w exc w1 n w' :
    body cfg_path w = (Raise exc, w1) →
    attempted body rest (reported cfg_path exc w1) n w' →
    attempted body (cfg_path :: rest) w (S n) w'.

Definition all_ascii : list ascii := ascii_of_nat <$> seq 0 256.

(** The name under which [ALLOWED_DIGESTS] lists an algorithm. *)
Definition digest_name (alg : DigestAlgorithm) : string :=
  match alg with
  | SHA256 => "sha256"
  | SHA384 => "sha384"
  | SHA512 => "sha512"
  end.

(** ** A concrete environment

    One instance of the collaborators, on which the general statements
    are run: a library that accepts what it is given, a file system
    without failures or other processes, and a decoder that knows two
    documents. *)

Module Sample.

Definition repr (v : value) : string :=
  match v with
  | VNone => "None"
  | VBool true => "True"
  | VBool false => "False"
  | VInt n => pretty n
  | _ => "<value>"
  end.

Definition doc_blocks : value :=
  VDict (list_to_map
    [ ("dn", VDict (list_to_map [ ("commonName", VStr "a.test") ]));
      ("config", VDict (list_to_map [ ("valid_days", VStr "30") ])) ]).

Definition doc_flat : value :=
  VDict (list_to_map
    [ ("commonName", VStr "a.test");
      ("subject_alt_names", VList [VStr "a.test"; VStr "b.test"]) ]).

Definition loads (raw : string) : option value :=
  if String.eqb raw "blocks" then Some doc_blocks
  else if String.eqb raw "flat" then Some doc_flat
  else None.

Definition generate (e : Z) (bits : value) : py_kind + RSAPrivateKey :=
  match bits with
  | VInt n => if 1024 <=? n then inr {| key_size := n; key_secret := e |} else inl ValueError
  | _ => inl TypeError
  end.

Definition encode_key (k : RSAPrivateKey) (enc : KeySerializationEncryption)
    : py_kind + string :=
  match enc with
  | NoEncryption => inr "PRIVATE KEY"
  | BestAvailableEncryption p => inr ("ENCRYPTED PRIVATE KEY " +:+ p)
  end.

Definition externals : Externals :=
  {| py_repr := repr;
     int_max_str_digits := 4300;
     dict_keys := λ m, (map_to_list m).*1;
     utf8_decode := Some;
     json_loads := loads;
     path_stem := λ s, s;
     now := 1700000000000000;
     random_serial_number := 42;
     rsa_generate_private_key := generate;
     name_attribute_error := λ _ _, None;
     dns_name_error := λ _, None;
     validity_error := λ _ _, None;
     timedelta_days := λ _, 0;
     csr_sign_error := λ _, None;
     cert_sign_error := λ _, None;
     private_bytes := encode_key;
     csr_public_bytes := λ _, inr "CERTIFICATE REQUEST";
     cert_public_bytes := λ _, inr "CERTIFICATE";
     mkdir_error := λ _ _, None;
     write_error := λ _ _, None;
     interference := λ files, files |}.

Definition world (files : gmap Path node) : World :=
  {| fs := files; stdout := []; stderr := []; lib_calls := [] |}.

(** A directory of three configuration files, the second malformed. *)
Definition batch_files : gmap Path node :=
  list_to_map
    [ (["conf"], NDir);
      (["conf"; "a.json"], NFile "blocks");
      (["conf"; "b.json"], NFile "{");
      (["conf"; "c.json"], NFile "flat");
      (["conf"; "notes.txt"], NFile "blocks");
      (["out"], NDir) ].

(** Components to serialize. *)
Definition components : CertComponents :=
  let key := {| key_size := 2048; key_secret := 65537 |} in
  {| private_key := key;
     csr := {| csr_subject := []; csr_key := key; csr_extensions := [];
               csr_digest := SHA512 |};
     cert := {| subject := []; issuer := []; public_key := key; serial_number := 42;
                not_valid_before := 0; not_valid_after := 1; extensions := [];
                signature_hash := SHA512 |} |}.

End Sample.

(** ** Notions for the names of output directories *)

(** Every character of [s] satisfies [p]. *)
Fixpoint all_chars (p : ascii → bool) (s : string) : bool :=
  match s with
  | EmptyString => true
  | String c r => p c && all_chars p r
  end.

(** The first, respectively the last, character of [s] satisfies [p]. *)
Definition head_is (p : ascii → bool) (s : string) : bool :=
  match s with
  | EmptyString => false
  | String c _ => p c
  end.

Fixpoint last_is (p : ascii → bool) (s : string) : bool :=
  match s with
  | EmptyString => false
  | String c r =>
      match r with
      | EmptyString => p c
      | _ => last_is p r
      end
  end.

(** The characters the docstring of [slugify] allows: lower-case
    letters, digits, dot, dash and underscore. *)
Definition slug_safe_char (c : ascii) : bool :=
  PyStr.islower c || PyStr.isdigit c || Certs.is_slug_punct c.

(** A slug: not empty, made of the allowed characters, with a letter or
    a digit at both ends. *)
Definition is_slug (s : string) : bool :=
  negb (PyStr.is_empty s) && all_chars slug_safe_char s
  && negb (head_is Certs.is_slug_punct s) && negb (last_is Certs.is_slug_punct s).

(** ** Notions for the configuration documents *)

(** The keys the flat shape sends to the DN, and those it sends to the
    CONFIG. *)
Definition is_dn_key (key : string) : bool := bool_decide (key ∈ DN_KEYS).

Definition is_config_key (key : string) : bool :=
  bool_decide (key ∈ dom CONFIG_DEFAULT) || bool_decide (key = "passphrase").

(** A configuration whose coerced fields have their types. *)
Definition coerced (cfg : gmap string value) : Prop :=
  (∀ v, cfg !! "private_key_bits" = Some v → ∃ n, v = VInt n)
  ∧ (∀ v, cfg !! "valid_days" = Some v → ∃ n, v = VInt n)
  ∧ (∀ v, cfg !! "encrypt_key" = Some v → ∃ b, v = VBool b).

(** ** Notions for the generation path *)

(** The world after the library calls [calls] have been made. *)
Definition called (calls : list lib_call) (w : World) : World :=
  {| fs := fs w; stdout := stdout w; stderr := stderr w;
     lib_calls := lib_calls w ++ calls |}.

(** A call that prints nothing, neither to the standard output nor to
    the standard error. *)
Definition silent {A} (m : M A) : Prop :=
  ∀ w, stdout (snd (m w)) = stdout w ∧ stderr (snd (m w)) = stderr w.

(** The object identifiers of a name, in the order [build_x509_name]
    considers them. *)
Definition NAME_OIDS : list NameOID :=
  [ COUNTRY_NAME; STATE_OR_PROVINCE_NAME; LOCALITY_NAME; ORGANIZATION_NAME;
    ORGANIZATIONAL_UNIT_NAME; COMMON_NAME; EMAIL_ADDRESS ].

(** The lines [write_bundle_to_stdout] prints for a bundle, after the
    optional header. *)
Definition bundle_lines (bundle : PemBundle) : list (list frag) :=
  [ [Lit "# Self-signed certificate (PEM)"]; [Lit (certificate_pem bundle)];
    [Lit "# Certificate Signing Request (CSR, PEM)"]; [Lit (csr_pem bundle)];
    [Lit "# Private Key (PEM)"]; [Lit (private_key_pem bundle)] ].

(** The header line printed for a label that is not empty. *)
Definition header_lines (label : option string) : list (list frag) :=
  match label with
  | Some l =>
      if PyStr.is_empty l then []
      else [ [Lit Certs.newline; Lit "########## CONFIG: "; Str (VStr l);
              Lit " ##########"; Lit Certs.newline] ]
  | None => []
  end.

(** A file system in which every entry below the top level lies in a
    directory. *)
Definition well_formed (files : gmap Path node) : bool :=
  bool_decide (map_Forall (λ p _, (length p ≤ 1)%nat
                                  ∨ PathLib.is_dir files (removelast p) = true) files).

(** The file system after the files [entries] (name and content, the
    last written first) have been written into [subdir]. *)
Definition with_files_in (subdir : Path) (entries : list (string * string))
    (files : gmap Path node) : gmap Path node :=
  foldr (λ e acc, <[PathLib.joinpath subdir e.1 := NFile e.2]> acc) files entries.

(** ** Notions for the command line *)

(** Whether each option that carries a DN value was given, and the same
    for the options that carry a CONFIG value.  [--passphrase] is not
    among them, and no option carries [subject_alt_names]. *)
Definition dn_options (args : Argparse.Namespace) : list bool :=
  [ Argparse.given (Argparse.countryName args);
    Argparse.given (Argparse.stateOrProvinceName args);
    Argparse.given (Argparse.localityName args);
    Argparse.given (Argparse.organizationName args);
    Argparse.given (Argparse.organizationalUnitName args);
    Argparse.given (Argparse.commonName args);
    Argparse.given (Argparse.emailAddress args) ].

Definition cfg_options (args : Argparse.Namespace) : list bool :=
  [ Argparse.given (Argparse.digest_alg args);
    Argparse.given (Argparse.private_key_bits args);
    Argparse.given (Argparse.private_key_type args);
    Argparse.given (Argparse.encrypt_key args);
    Argparse.given (Argparse.valid_days args) ].

Definition any_given (options : list bool) : bool := existsb id options.

(** The entries of a dictionary that holds the options that were given. *)
Definition given_entries (options : list (string * option value))
    : list (string * value) :=
  omap (λ entry, (λ v, (entry.1, v)) <$> entry.2) options.

(** Collaborators of the command line on which the general statements
    are run: an encoder that writes a fixed text, and a decoder that
    reads the example document back from any text. *)
Definition sample_cli_externals : CliExternals :=
  {| json_dumps := λ _, "{example}";
     load_pem_x509_certificate := λ _, inl ValueError;
     rfc4514_string := λ _, "";
     datetime_str := λ _, "" |}.

Definition example_reader : Externals :=
  {| py_repr := py_repr Sample.externals;
     int_max_str_digits := int_max_str_digits Sample.externals;
     dict_keys := dict_keys Sample.externals;
     utf8_decode := Some;
     json_loads := λ _, Some (VDict Example.build_example_config);
     path_stem := path_stem Sample.externals;
     now := now Sample.externals;
     random_serial_number := random_serial_number Sample.externals;
     rsa_generate_private_key := rsa_generate_private_key Sample.externals;
     name_attribute_error := name_attribute_error Sample.externals;
     dns_name_error := dns_name_error Sample.externals;
     validity_error := validity_error Sample.externals;
     timedelta_days := timedelta_days Sample.externals;
     csr_sign_error := csr_sign_error Sample.externals;
     cert_sign_error := cert_sign_error Sample.externals;
     private_bytes := private_bytes Sample.externals;
     csr_public_bytes := csr_public_bytes Sample.externals;
     cert_public_bytes := cert_public_bytes Sample.externals;
     mkdir_error := mkdir_error Sample.externals;
     write_error := write_error Sample.externals;
     interference := interference Sample.externals |}.

(** * Properties *)

(** ** Strings *)

Module StrFacts.

Lemma all_ascii_complete c : In c all_ascii.
Proof.
  unfold all_ascii. rewrite <- (ascii_nat_embedding c).
  apply in_map, in_seq. pose proof (nat_ascii_bounded c). lia.
Qed.

Lemma ascii_forall (P : ascii → bool) :
  forallb P all_ascii = true → ∀ c, P c = true.
Proof. intros H c. rewrite forallb_forall in H. apply H, all_ascii_complete. Qed.

Lemma ascii_forall2 (P : ascii → ascii → bool) :
  forallb (λ a, forallb (P a) all_ascii) all_ascii = true → ∀ a b, P a b = true.
Proof.
  intros H a b. apply (ascii_forall (P a)).
  apply (ascii_forall (λ a, forallb (P a) all_ascii) H a).
Qed.

(** Folding to upper case identifies the same characters as folding to
    lower case. *)
Lemma fold_agree a b :
  Ascii.eqb (PyStr.upper_char a) (PyStr.upper_char b)
  = Ascii.eqb (PyStr.lower_char a) (PyStr.lower_char b).
Proof.
  apply Bool.eqb_prop.
  apply (ascii_forall2 (λ a b,
           Bool.eqb (Ascii.eqb (PyStr.upper_char a) (PyStr.upper_char b))
                    (Ascii.eqb (PyStr.lower_char a) (PyStr.lower_char b)))).
  vm_compute. reflexivity.
Qed.

Lemma lower_eq_iff s t : PyStr.lower s = PyStr.lower t ↔ eq_ignore_case s t = true.
Proof.
  unfold PyStr.lower.
  revert t. induction s as [|a s IH]; intros [|b t]; simpl; try easy.
  rewrite andb_true_iff, Ascii.eqb_eq, <- IH. split.
  - intros H. injection H as -> ->. auto.
  - intros [-> ->]. reflexivity.
Qed.

Lemma upper_eq_iff s t : PyStr.upper s = PyStr.upper t ↔ eq_ignore_case s t = true.
Proof.
  unfold PyStr.upper.
  revert t. induction s as [|a s IH]; intros [|b t]; simpl; try easy.
  rewrite andb_true_iff, <- fold_agree, Ascii.eqb_eq, <- IH. split.
  - intros H. injection H as -> ->. auto.
  - intros [-> ->]. reflexivity.
Qed.

Lemma lstrip_by_empty p s : PyStr.lstrip_by p s = EmptyString ↔ PyStr.count (λ c, negb (p c)) s = 0%nat.
Proof.
  induction s as [|c s IH]; simpl; [easy|].
  destruct (p c); simpl; [exact IH | easy].
Qed.

Lemma rstrip_by_empty p s : PyStr.rstrip_by p s = EmptyString ↔ PyStr.count (λ c, negb (p c)) s = 0%nat.
Proof.
  induction s as [|c s IH]; simpl; [easy|].
  destruct (PyStr.rstrip_by p s) eqn:E.
  - destruct (p c); simpl; [|easy]. rewrite <- IH. easy.
  - destruct (p c); simpl; [|easy]. rewrite <- IH. easy.
Qed.

Lemma count_lstrip_by p s :
  PyStr.count (λ c, negb (p c)) (PyStr.lstrip_by p s) = PyStr.count (λ c, negb (p c)) s.
Proof.
  induction s as [|c s IH]; simpl; [easy|].
  destruct (p c) eqn:E; simpl; [exact IH | rewrite E; reflexivity].
Qed.

Lemma blank_count s : blank s = true ↔ PyStr.count (λ c, negb (PyStr.isspace c)) s = 0%nat.
Proof.
  induction s as [|c s IH]; simpl; [easy|].
  destruct (PyStr.isspace c); simpl; [exact IH | easy].
Qed.

(** [s.strip()] is empty exactly for a blank [s]. *)
Lemma strip_empty_iff s : PyStr.strip s = EmptyString ↔ blank s = true.
Proof.
  unfold PyStr.strip, PyStr.strip_by.
  rewrite rstrip_by_empty, count_lstrip_by, blank_count. reflexivity.
Qed.

Lemma strip_nonempty s : blank s = false → PyStr.is_empty (PyStr.strip s) = false.
Proof.
  intros H. destruct (PyStr.strip s) eqn:E; [|reflexivity].
  apply strip_empty_iff in E. congruence.
Qed.

End StrFacts.

(** ** Configuration: [config.py] *)

Module ConfigFacts.
Import Config.

Ltac unfold_result :=
  unfold mbind, mret, fmap, result_bind, result_ret, result_fmap in *.

Lemma truthy_dict_lookup (m : gmap string value) k v :
  m !! k = Some v → truthy (VDict m) = true.
Proof.
  intros H. simpl. destruct (size m) eqn:E; [|reflexivity].
  apply map_size_empty_iff in E. subst m. rewrite lookup_empty in H. discriminate.
Qed.

Lemma truthy_str_empty s : truthy (VStr s) = negb (PyStr.is_empty s).
Proof. reflexivity. Qed.



Lemma lower_member (words : list string) t :
  Forall (λ w, PyStr.lower w = w) words →
  bool_decide (PyStr.lower t ∈ words) = existsb (eq_ignore_case t) words.
Proof.
  intros Hw. apply Bool.eq_iff_eq_true.
  rewrite bool_decide_eq_true, existsb_exists, list_elem_of_In.
  rewrite Forall_forall in Hw. split.
  - intros Hin. exists (PyStr.lower t). split; [exact Hin|].
    apply StrFacts.lower_eq_iff. symmetry. apply Hw, list_elem_of_In, Hin.
  - intros (w & Hin & Heq). apply StrFacts.lower_eq_iff in Heq.
    rewrite Heq, (Hw w); [exact Hin | apply list_elem_of_In, Hin].
Qed.



(** ** Integer conversion *)

Lemma py_int_cases X v :
  (∃ n, py_int X v = Ok n)
  ∨ (∃ k, k ∈ int_failure_kinds ∧ py_int X v = Raise (Builtin k)).
Proof.
  unfold int_failure_kinds.
  destruct v as [|b|n|f|s|l|m]; simpl; eauto.
  - right. exists TypeError. split; [set_solver | reflexivity].
  - destruct f; simpl; eauto; right.
    + exists OverflowError. split; [set_solver | reflexivity].
    + exists ValueError. split; [set_solver | reflexivity].
  - destruct (too_many_digits X (PyStr.strip s)).
    + right. exists ValueError. split; [set_solver | reflexivity].
    + destruct (int_literal (PyStr.strip s)); eauto.
      right. exists ValueError. split; [set_solver | reflexivity].
  - right. exists TypeError. split; [set_solver | reflexivity].
  - right. exists TypeError. split; [set_solver | reflexivity].
Qed.

Lemma py_int_abc X : py_int X (VStr "abc") = Raise (Builtin ValueError).
Proof.
  unfold py_int, too_many_digits. cbn. destruct (int_max_str_digits X); reflexivity.
Qed.

Lemma overlay_lookup base (c : gmap string value) key v :
  c !! key = Some v → overlay base (Some c) !! key = Some v.
Proof.
  intros H. unfold overlay. rewrite (truthy_dict_lookup _ _ _ H).
  unfold dict_update. apply lookup_union_Some_l, H.
Qed.

Lemma overlay_lookup_None base (c : gmap string value) key :
  c !! key = None → overlay base (Some c) !! key = base !! key.
Proof.
  intros H. unfold overlay. destruct (truthy (VDict c)); [|reflexivity].
  unfold dict_update. rewrite lookup_union_r; [reflexivity | exact H].
Qed.

Lemma bind_Ok {A B} (a : A) (f : A → result B) : (Ok a ≫= f) = f a.
Proof. reflexivity. Qed.

Lemma bind_Raise {A B} e (f : A → result B) : (Raise e ≫= f) = Raise e.
Proof. reflexivity. Qed.

Lemma coerce_key_Some f key (cfg : gmap string value) v :
  cfg !! key = Some v →
  coerce_key f key cfg = (v' ← f v; Ok (<[key := v']> cfg)).
Proof. intros H. unfold coerce_key. rewrite H. reflexivity. Qed.

Lemma coerce_key_None f key (cfg : gmap string value) :
  cfg !! key = None → coerce_key f key cfg = Ok cfg.
Proof. intros H. unfold coerce_key. rewrite H. reflexivity. Qed.

Lemma coerce_key_int_fail X key (cfg : gmap string value) v k :
  cfg !! key = Some v → py_int X v = Raise (Builtin k) →
  coerce_key (λ v, VInt <$> py_int X v) key cfg = Raise (Builtin k).
Proof. intros Hv Hk. unfold coerce_key. rewrite Hv. unfold_result. rewrite Hk. reflexivity. Qed.




(** ** The two document shapes *)

Lemma explicit_shape X (data : gmap string value) :
  "dn" ∈ dom data ∨ "config" ∈ dom data →
  split_config X data =
    (cfg ← _coerce_config_types X (default ∅ (mapping_at data "config"));
     Ok (default ∅ (mapping_at data "dn"), cfg)).
Proof.
  intros H. unfold split_config.
  assert (bool_decide ("dn" ∈ dom data) || bool_decide ("config" ∈ dom data) = true) as ->.
  { apply orb_true_iff. destruct H; [left | right]; apply bool_decide_eq_true; assumption. }
  unfold _extract_explicit_blocks, update_from_block, mapping_at, dict_update.
  destruct (data !! "dn") as [[]|]; destruct (data !! "config") as [[]|];
    cbn [default from_option id]; rewrite ?(right_id_L ∅ (∪)); reflexivity.
Qed.

Lemma mapping_at_ext (data data' : gmap string value) key :
  data' !! key = data !! key → mapping_at data' key = mapping_at data key.
Proof. unfold mapping_at. intros ->. reflexivity. Qed.

(** C10.  In a document with a top-level [dn] or [config] key, the DN
    and the config are the mappings found under those keys, a value that
    is not a mapping counting as no entries at all; every other
    top-level key is dropped: two such documents that agree on [dn] and
    [config] load alike. *)
Theorem explicit_blocks_only (X : Externals) (data : gmap string value) :
  "dn" ∈ dom data ∨ "config" ∈ dom data →
  split_config X data =
    (cfg ← _coerce_config_types X (default ∅ (mapping_at data "config"));
     Ok (default ∅ (mapping_at data "dn"), cfg))
  ∧ (∀ data' : gmap string value,
       data' !! "dn" = data !! "dn" → data' !! "config" = data !! "config" →
       split_config X data' = split_config X data)
  ∧ (∀ (files : gmap Path node) path bytes raw,
       files !! path = Some (NFile bytes) → utf8_decode X bytes = Some raw →
       json_loads X raw = Some (VDict data) →
       load_json_config X files path = split_config X data).
Proof.
  intros H. split; [apply explicit_shape, H|]. split.
  - intros data' Hdn Hcfg.
    rewrite (explicit_shape X data H), (explicit_shape X data').
    + rewrite (mapping_at_ext _ _ _ Hdn), (mapping_at_ext _ _ _ Hcfg). reflexivity.
    + rewrite !elem_of_dom, Hdn, Hcfg, <- !elem_of_dom. exact H.
  - intros files path bytes raw Hf Hu Hj.
    unfold load_json_config, _read_json_file, read_text. rewrite Hf, Hu, Hj. reflexivity.
Qed.

(** A document whose [dn] is not a mapping: the DN comes out empty and
    the fields at the top level are lost, although the flat rules would
    have routed them had the [dn] key not been there. *)
Lemma explicit_blocks_only_witness :
  split_config Sample.externals
    (list_to_map [ ("dn", VStr "oops"); ("commonName", VStr "a.test");
                   ("valid_days", VStr "30") ])
  = Ok (∅, ∅)
  ∧ split_config Sample.externals
      (list_to_map [ ("commonName", VStr "a.test"); ("valid_days", VStr "30") ])
    = Ok ({[ "commonName" := VStr "a.test" ]}, {[ "valid_days" := VInt 30 ]}).
Proof.
  split.
  - refine (eq_trans (proj1 (explicit_blocks_only Sample.externals
              (list_to_map [ ("dn", VStr "oops"); ("commonName", VStr "a.test");
                             ("valid_days", VStr "30") ]) _)) _).
    + left. apply elem_of_dom. exists (VStr "oops"). reflexivity.
    + reflexivity.
  - vm_compute. reflexivity.
Defined.

(** ** Merging with the defaults *)

Lemma overlay_setting (json_cfg : option (gmap string value)) key :
  overlay CONFIG_DEFAULT json_cfg !! key = setting json_cfg key.
Proof.
  unfold setting. destruct json_cfg as [c|]; [|reflexivity]. cbn [mbind option_bind].
  destruct (c !! key) as [v|] eqn:E.
  - apply overlay_lookup, E.
  - apply overlay_lookup_None, E.
Qed.

Lemma upper_is_rsa s : String.eqb (PyStr.upper s) "RSA" = eq_ignore_case s "RSA".
Proof.
  apply Bool.eq_iff_eq_true. rewrite String.eqb_eq, <- StrFacts.upper_eq_iff. reflexivity.
Qed.

Lemma merged_key_type json_cfg bits days :
  merged json_cfg bits days !! "private_key_type" = setting json_cfg "private_key_type".
Proof.
  unfold merged. rewrite !lookup_insert_ne by discriminate. apply overlay_setting.
Qed.

Lemma merge_after_ints X json_dn json_cfg vb vd bits days :
  setting json_cfg "private_key_bits" = Some vb → py_int X vb = Ok bits →
  setting json_cfg "valid_days" = Some vd → py_int X vd = Ok days →
  merge_settings_json X json_dn json_cfg =
    (bad ← key_type_is_not_rsa (merged json_cfg bits days);
     if (bad : bool)
     then kt ← subscript (merged json_cfg bits days) "private_key_type";
          Raise (unsupported_key_type kt)
     else _ ← validate_dn X (overlay ∅ json_dn);
          Ok (overlay ∅ json_dn, merged json_cfg bits days)).
Proof.
  intros Hb Hib Hd Hid. unfold merge_settings_json, subscript.
  rewrite overlay_setting, Hb, bind_Ok, Hib, bind_Ok.
  rewrite lookup_insert_ne by discriminate.
  rewrite overlay_setting, Hd, bind_Ok, Hid, bind_Ok. reflexivity.
Qed.

(** The key type check inside [merge_settings_json], for a key type that
    is a string. *)
Lemma merge_key_type_string X json_dn json_cfg vb vd bits days s :
  setting json_cfg "private_key_bits" = Some vb → py_int X vb = Ok bits →
  setting json_cfg "valid_days" = Some vd → py_int X vd = Ok days →
  setting json_cfg "private_key_type" = Some (VStr s) →
  merge_settings_json X json_dn json_cfg =
    if eq_ignore_case s "RSA"
    then _ ← validate_dn X (overlay ∅ json_dn);
         Ok (overlay ∅ json_dn, merged json_cfg bits days)
    else Raise (unsupported_key_type (VStr s)).
Proof.
  intros Hb Hib Hd Hid Hs.
  rewrite (merge_after_ints _ _ _ _ _ _ _ Hb Hib Hd Hid).
  unfold key_type_is_not_rsa, subscript. rewrite merged_key_type, Hs.
  cbn [default from_option id]. rewrite upper_is_rsa, bind_Ok.
  destruct (eq_ignore_case s "RSA"); reflexivity.
Qed.

Lemma merge_key_type_other X json_dn json_cfg vb vd bits days v :
  setting json_cfg "private_key_bits" = Some vb → py_int X vb = Ok bits →
  setting json_cfg "valid_days" = Some vd → py_int X vd = Ok days →
  setting json_cfg "private_key_type" = Some v → (∀ s, v ≠ VStr s) →
  merge_settings_json X json_dn json_cfg = Raise (Builtin AttributeError).
Proof.
  intros Hb Hib Hd Hid Hv Hns.
  rewrite (merge_after_ints _ _ _ _ _ _ _ Hb Hib Hd Hid).
  unfold key_type_is_not_rsa. rewrite merged_key_type, Hv.
  cbn [default from_option id]. destruct v; try reflexivity. destruct (Hns s eq_refl).
Qed.

End ConfigFacts.

(** ** Digests, certificates and serialization: [certs.py] *)

Module CertsFacts.
Import Certs.

Ltac unfold_result :=
  unfold mbind, mret, fmap, result_bind, result_ret, result_fmap in *.

Ltac unfold_M :=
  unfold try_except, reraise_or_wrap, raise, lift, call, check_lib, of_lib,
         mbind, mret, M_bind, M_ret in *.

Lemma digest_name_lower alg : PyStr.lower (digest_name alg) = digest_name alg.
Proof. destruct alg; reflexivity. Qed.

Lemma allowed_digest_name alg : ALLOWED_DIGESTS !! digest_name alg = Some alg.
Proof. destruct alg; reflexivity. Qed.

Lemma allowed_digest_inv key alg :
  ALLOWED_DIGESTS !! key = Some alg → key = digest_name alg.
Proof.
  unfold ALLOWED_DIGESTS. cbn [list_to_map foldr uncurry fst snd].
  intros H. repeat (apply lookup_insert_Some in H as [[<- <-] | [_ H]]; [reflexivity|]).
  rewrite lookup_empty in H. discriminate.
Qed.

(** A name that is one of the three up to case resolves to its
    algorithm. *)
Lemma get_digest_known alg s :
  eq_ignore_case s (digest_name alg) = true → get_digest (VStr s) = Ok alg.
Proof.
  intros H. apply StrFacts.lower_eq_iff in H. rewrite digest_name_lower in H.
  unfold get_digest. rewrite H, allowed_digest_name. reflexivity.
Qed.

(** Every other name is a [ConfigError]. *)
Lemma get_digest_unknown s :
  (∀ alg, eq_ignore_case s (digest_name alg) = false) →
  get_digest (VStr s)
  = Raise (ConfigError [Lit "Unsupported digest: "; Repr (VStr (PyStr.lower s))]).
Proof.
  intros H. unfold get_digest.
  destruct (ALLOWED_DIGESTS !! PyStr.lower s) as [alg|] eqn:E; [|reflexivity].
  apply allowed_digest_inv in E. specialize (H alg).
  assert (eq_ignore_case s (digest_name alg) = true); [|congruence].
  apply StrFacts.lower_eq_iff. rewrite digest_name_lower. exact E.
Qed.

(** C1, at the inputs where the code departs from it.  The dashed
    spellings the docstring of [get_digest] promises to accept are
    rejected: the name is lower-cased and looked up as it is, dashes
    included. *)
Theorem get_digest_rejects_dashed_names :
  get_digest (VStr "sha-256")
  = Raise (ConfigError [Lit "Unsupported digest: "; Repr (VStr "sha-256")])
  ∧ get_digest (VStr "SHA-256")
    = Raise (ConfigError [Lit "Unsupported digest: "; Repr (VStr "sha-256")])
  ∧ get_digest (VStr "sha-512")
    = Raise (ConfigError [Lit "Unsupported digest: "; Repr (VStr "sha-512")])
  ∧ get_digest (VStr "SHA256") = Ok SHA256.
Proof. repeat split; reflexivity. Qed.

(** *** Subject alternative names *)

Lemma dns_names_strings X (names : list string) :
  (∀ s, s ∈ names → dns_name_error X s = None) →
  dns_names X (VStr <$> names) = Ok (DNSName <$> names).
Proof.
  induction names as [|s names IH]; intros H; [reflexivity|].
  cbn [fmap list_fmap dns_names dns_name].
  rewrite (H s) by (apply elem_of_cons; left; reflexivity).
  change (VStr <$> names) with (list_fmap _ _ VStr names) in IH.
  unfold_result. rewrite IH; [reflexivity|].
  intros s' Hs'. apply H, elem_of_cons. right. exact Hs'.
Qed.

Lemma dns_names_Ok X (items : list value) gs :
  dns_names X items = Ok gs →
  ∃ names, items = VStr <$> names ∧ gs = DNSName <$> names.
Proof.
  revert gs. induction items as [|v items IH]; intros gs H.
  - injection H as <-. exists []. split; reflexivity.
  - cbn [dns_names] in H. unfold_result.
    destruct (dns_name X v) as [g| |] eqn:Eg; try discriminate.
    destruct (dns_names X items) as [gs'| |] eqn:Egs; try discriminate.
    injection H as <-. destruct (IH gs' eq_refl) as (names & -> & ->).
    unfold dns_name in Eg. destruct v; try discriminate.
    destruct (dns_name_error X s); try discriminate. injection Eg as <-.
    exists (s :: names). split; reflexivity.
Qed.

(** The extensions of a certificate [generate_self_signed_cert]
    returns. *)
Lemma generate_self_signed_cert_Ok X key subj digest_alg valid_days san w c w' :
  generate_self_signed_cert X key subj digest_alg valid_days san w = (Ok c, w') →
  ∃ tail,
    extensions c = {| ext_value := BasicConstraints true None; critical := true |} :: tail
    ∧ (opt_truthy san = false → tail = [])
    ∧ (opt_truthy san = true →
       ∃ items gs, py_iter X (default VNone san) = Ok items
                   ∧ dns_names X items = Ok gs
                   ∧ tail = [ {| ext_value := SubjectAlternativeName gs;
                                 critical := false |} ]).
Proof.
  unfold generate_self_signed_cert. unfold_M. intros H.
  destruct (validity_error X (now X) valid_days); [simpl in H; try case_match; discriminate|].
  destruct (opt_truthy san) eqn:Esan.
  - destruct (py_iter X (default VNone san)) as [items| |] eqn:Ei;
      [|simpl in H; try case_match; discriminate..].
    destruct (dns_names X items) as [gs| |] eqn:Eg;
      [|simpl in H; try case_match; discriminate..].
    destruct (get_digest digest_alg) as [alg| |] eqn:Ed;
      [|simpl in H; try case_match; discriminate..].
    simpl in H. destruct (cert_sign_error X _); [simpl in H; discriminate|].
    simpl in H. injection H as <- <-. eexists. split; [reflexivity|].
    split; [discriminate|]. intros _. exists items, gs. auto.
  - destruct (get_digest digest_alg) as [alg| |] eqn:Ed;
      [|simpl in H; try case_match; discriminate..].
    simpl in H. destruct (cert_sign_error X _); [simpl in H; discriminate|].
    simpl in H. injection H as <- <-. eexists. split; [reflexivity|].
    split; [reflexivity | discriminate].
Qed.

Lemma generate_self_signed_cert_accepts X key subj d alg vd san names w :
  validity_error X (now X) vd = None →
  get_digest d = Ok alg →
  (∀ c, cert_sign_error X c = None) →
  (∀ s, dns_name_error X s = None) →
  (opt_truthy san = true → san = Some (VList (VStr <$> names))) →
  ∃ c w', generate_self_signed_cert X key subj d vd san w = (Ok c, w').
Proof.
  intros Hv Hd Hs Hn Hsan. unfold generate_self_signed_cert. unfold_M.
  rewrite Hv, Hd. destruct (opt_truthy san).
  - rewrite (Hsan eq_refl). cbn [default from_option id py_iter].
    rewrite dns_names_strings by (intros; apply Hn). simpl. rewrite Hs. eauto.
  - simpl. rewrite Hs. eauto.
Qed.

Lemma name_attributes_accepts X dn fields :
  (∀ oid v, name_attribute_error X oid v = None) →
  ∃ subj, name_attributes X dn fields = Ok subj.
Proof.
  intros H. induction fields as [|[key oid] rest [subj IH]]; [eexists; reflexivity|].
  cbn [name_attributes]. destruct (truthy _); [|eauto].
  rewrite H, IH. eexists. reflexivity.
Qed.

(** The certificate of the components comes from one call of
    [generate_self_signed_cert] on the names of the config. *)
Lemma create_cert_components_cert X dn cfg w comps w' :
  create_cert_components X dn cfg w = (Ok comps, w') →
  ∃ key subj d vd w1,
    generate_self_signed_cert X key subj d vd (get_or_none cfg "subject_alt_names") w1
    = (Ok (cert comps), w').
Proof.
  unfold create_cert_components. unfold mbind, mret, M_bind, M_ret, lift.
  intros H. repeat case_match; simplify_eq. cbn [cert]. eauto 10.
Qed.

Lemma get_or_none_list (cfg : gmap string value) (l : list value) :
  cfg !! "subject_alt_names" = Some (VList l) ∨ (cfg !! "subject_alt_names" = None ∧ l = []) →
  get_or_none cfg "subject_alt_names" = match l with [] => None | _ => Some (VList l) end.
Proof.
  unfold get_or_none. intros [-> | [-> ->]]; [|reflexivity]. destruct l; reflexivity.
Qed.

(** C2.  For a config whose [subject_alt_names] is a list or is
    missing, the certificate [create_cert_components] returns carries a
    subject-alternative-name extension exactly when the list is not
    empty; the extension then lists the entries as DNS names in their
    order and is not critical.  A library that raises nothing does
    return the components. *)
Theorem san_extension_iff_names (X : Externals) (dn cfg : gmap string value)
    (l : list value) :
  cfg !! "subject_alt_names" = Some (VList l)
  ∨ (cfg !! "subject_alt_names" = None ∧ l = []) →
  (∀ w comps w', create_cert_components X dn cfg w = (Ok comps, w') →
     ∃ names, l = VStr <$> names
       ∧ san_extensions (cert comps) =
           match names with
           | [] => []
           | _ => [ {| ext_value := SubjectAlternativeName (DNSName <$> names);
                       critical := false |} ]
           end)
  ∧ (∀ w names bits d alg vd,
       l = VStr <$> names → library_accepts X bits →
       cfg !! "private_key_bits" = Some bits →
       cfg !! "digest_alg" = Some d → get_digest d = Ok alg →
       cfg !! "valid_days" = Some vd →
       ∃ comps w', create_cert_components X dn cfg w = (Ok comps, w')).
Proof.
  intros Hl. pose proof (get_or_none_list cfg l Hl) as Hsan. split.
  - intros w comps w' H.
    destruct (create_cert_components_cert _ _ _ _ _ _ H) as (key & subj & d & vd & w1 & Hc).
    destruct (generate_self_signed_cert_Ok _ _ _ _ _ _ _ _ _ Hc) as (tail & Hext & Hno & Hyes).
    rewrite Hsan in Hno, Hyes. unfold san_extensions. rewrite Hext.
    destruct l as [|v l].
    + exists []. split; [reflexivity|]. rewrite (Hno eq_refl). reflexivity.
    + destruct (Hyes eq_refl) as (items & gs & Hi & Hg & ->).
      cbn [default from_option id py_iter] in Hi. injection Hi as <-.
      destruct (dns_names_Ok _ _ _ Hg) as (names & Hnames & ->).
      exists names. split; [exact Hnames|].
      destruct names; [discriminate | reflexivity].
  - intros w names bits d alg vd -> (Hkey & Hattr & Hdns & Hval & Hcsr & Hcert) Hb Hd Hg Hv.
    destruct Hkey as [key Hkey].
    destruct (name_attributes_accepts X dn NAME_FIELDS Hattr) as [subj Hsubj].
    unfold create_cert_components, build_x509_name, subscript.
    unfold mbind, mret, M_bind, M_ret, lift.
    rewrite Hsubj, Hb, Hd, Hv.
    unfold generate_key_pair, generate_csr. unfold_M. rewrite Hkey, Hg. simpl.
    rewrite Hcsr. simpl.
    match goal with |- context [generate_self_signed_cert X ?k ?s ?d ?v ?san ?w0] =>
      destruct (generate_self_signed_cert_accepts X k s d alg v san names w0)
        as (c & w' & Hc); auto
    end.
    + rewrite Hsan. destruct names; [discriminate | reflexivity].
    + rewrite Hc. eauto.
Qed.

Lemma sample_library_accepts : library_accepts Sample.externals (VInt 2048).
Proof. repeat split. eexists. reflexivity. Qed.

Lemma san_extension_iff_names_witness :
  ∃ comps w',
    create_cert_components Sample.externals {[ "commonName" := VStr "a.test" ]}
      (<["subject_alt_names" := VList [VStr "a.test"; VStr "b.test"]]> CONFIG_DEFAULT)
      (Sample.world ∅) = (Ok comps, w')
    ∧ san_extensions (cert comps)
      = [ {| ext_value := SubjectAlternativeName [DNSName "a.test"; DNSName "b.test"];
             critical := false |} ].
Proof.
  pose (cfg := <["subject_alt_names" := VList [VStr "a.test"; VStr "b.test"]]> CONFIG_DEFAULT).
  assert (Hl : cfg !! "subject_alt_names" = Some (VList [VStr "a.test"; VStr "b.test"])
               ∨ (cfg !! "subject_alt_names" = None ∧ [VStr "a.test"; VStr "b.test"] = []))
    by (left; reflexivity).
  destruct (san_extension_iff_names Sample.externals {[ "commonName" := VStr "a.test" ]}
              cfg _ Hl) as [Hshape Hruns].
  destruct (Hruns (Sample.world ∅) ["a.test"; "b.test"] (VInt 2048) (VStr "sha512")
              SHA512 (VInt 365) eq_refl sample_library_accepts eq_refl eq_refl eq_refl
              eq_refl) as (comps & w' & Hrun).
  exists comps, w'. split; [exact Hrun|].
  destruct (Hshape _ _ _ Hrun) as (names & Hnames & Hsan).
  destruct names as [|a [|b [|? ?]]]; try discriminate.
  injection Hnames as <- <-. exact Hsan.
Defined.

(** Neither a missing list nor an empty one gives an extension. *)
Lemma no_names_no_extension :
  (∃ comps w',
     create_cert_components Sample.externals {[ "commonName" := VStr "a.test" ]}
       CONFIG_DEFAULT (Sample.world ∅) = (Ok comps, w')
     ∧ san_extensions (cert comps) = [])
  ∧ (∃ comps w',
       create_cert_components Sample.externals {[ "commonName" := VStr "a.test" ]}
         (delete "subject_alt_names" CONFIG_DEFAULT) (Sample.world ∅) = (Ok comps, w')
       ∧ san_extensions (cert comps) = []).
Proof. split; eexists _, _; (split; [vm_compute; reflexivity | reflexivity]). Qed.

(** *** Serialization *)

(** What [serialize_cert_components] does once the encryption is chosen. *)
Lemma serialize_with X comps encrypt_key passphrase enc w :
  (encrypt_key = false ∧ enc = NoEncryption)
  ∨ (∃ p, encrypt_key = true ∧ passphrase = VStr p ∧ p ≠ EmptyString
          ∧ enc = BestAvailableEncryption p) →
  (∀ bundle w',
     serialize_cert_components X comps encrypt_key passphrase w = (Ok bundle, w') →
     private_bytes X (private_key comps) enc = inr (private_key_pem bundle)
     ∧ csr_public_bytes X (csr comps) = inr (csr_pem bundle)
     ∧ cert_public_bytes X (cert comps) = inr (certificate_pem bundle)
     ∧ lib_calls w' = (lib_calls w ++ [Call_private_bytes enc; Call_csr_public_bytes;
                                       Call_cert_public_bytes])%list
     ∧ fs w' = fs w)
  ∧ (∀ key_pem csr_pem cert_pem,
       private_bytes X (private_key comps) enc = inr key_pem →
       csr_public_bytes X (csr comps) = inr csr_pem →
       cert_public_bytes X (cert comps) = inr cert_pem →
       ∃ w', serialize_cert_components X comps encrypt_key passphrase w
             = (Ok {| certificate_pem := cert_pem; csr_pem := csr_pem;
                      private_key_pem := key_pem |}, w')).
Proof.
  intros Henc.
  unfold serialize_cert_components. unfold_M.
  destruct Henc as [[-> ->] | (p & -> & -> & Hp & ->)].
  - split.
    + intros bundle w'. simpl.
      destruct (private_bytes X _ NoEncryption); simpl; [discriminate|].
      destruct (csr_public_bytes X _); simpl; [discriminate|].
      destruct (cert_public_bytes X _); simpl; [discriminate|].
      intros H. injection H as <- <-. simpl. rewrite <- !app_assoc. auto.
    + intros key_pem csr_pem cert_pem Hk Hc Hce. simpl.
      rewrite Hk. simpl. rewrite Hc. simpl. rewrite Hce. simpl. eauto.
  - destruct p as [|a p]; [destruct (Hp eq_refl)|]. split.
    + intros bundle w'. simpl.
      destruct (private_bytes X _ _); simpl; [discriminate|].
      destruct (csr_public_bytes X _); simpl; [discriminate|].
      destruct (cert_public_bytes X _); simpl; [discriminate|].
      intros H. injection H as <- <-. simpl. rewrite <- !app_assoc. auto.
    + intros key_pem csr_pem cert_pem Hk Hc Hce. simpl.
      rewrite Hk. simpl. rewrite Hc. simpl. rewrite Hce. simpl. eauto.
Qed.



(** *** The key type in [generate_from_dn_and_config] *)

Lemma generate_key_type_string X dn (cfg : gmap string value) s w :
  Config.validate_dn X dn = Ok () →
  cfg !! "private_key_type" = Some (VStr s) →
  generate_from_dn_and_config X dn cfg w =
    if eq_ignore_case s "RSA" then generate_checked X dn cfg w
    else (Raise (Config.unsupported_key_type (VStr s)), w).
Proof.
  intros Hdn Hs. unfold generate_from_dn_and_config, Config.key_type_is_not_rsa.
  unfold mbind, M_bind, lift, raise. rewrite Hdn, Hs. cbn [default from_option id].
  rewrite ConfigFacts.upper_is_rsa. destruct (eq_ignore_case s "RSA"); reflexivity.
Qed.

Lemma generate_key_type_absent X dn (cfg : gmap string value) w :
  Config.validate_dn X dn = Ok () →
  cfg !! "private_key_type" = None →
  generate_from_dn_and_config X dn cfg w
  = (Raise (Config.unsupported_key_type VNone), w).
Proof.
  intros Hdn Hs. unfold generate_from_dn_and_config, Config.key_type_is_not_rsa.
  unfold mbind, M_bind, lift, raise. rewrite Hdn, Hs. reflexivity.
Qed.

Lemma generate_key_type_other X dn (cfg : gmap string value) v w :
  Config.validate_dn X dn = Ok () →
  cfg !! "private_key_type" = Some v → (∀ s, v ≠ VStr s) →
  generate_from_dn_and_config X dn cfg w = (Raise (Builtin AttributeError), w).
Proof.
  intros Hdn Hv Hns. unfold generate_from_dn_and_config, Config.key_type_is_not_rsa.
  unfold mbind, M_bind, lift, raise. rewrite Hdn, Hv. cbn [default from_option id].
  destruct v; try reflexivity. destruct (Hns s eq_refl).
Qed.

(** The key type check on strings: a key type that is a string passes
    exactly when it is [RSA] up to case; any other string, and a missing
    key type where no default is overlaid, is a [ConfigError] that
    carries the value. *)
Lemma private_key_type_strings (X : Externals) :
  (∀ dn (cfg : gmap string value) w,
     Config.validate_dn X dn = Ok () →
     (∀ s, cfg !! "private_key_type" = Some (VStr s) →
        generate_from_dn_and_config X dn cfg w =
          if eq_ignore_case s "RSA" then generate_checked X dn cfg w
          else (Raise (Config.unsupported_key_type (VStr s)), w))
     ∧ (cfg !! "private_key_type" = None →
        generate_from_dn_and_config X dn cfg w
        = (Raise (Config.unsupported_key_type VNone), w)))
  ∧ (∀ json_dn json_cfg vb vd bits days s,
       setting json_cfg "private_key_bits" = Some vb → py_int X vb = Ok bits →
       setting json_cfg "valid_days" = Some vd → py_int X vd = Ok days →
       setting json_cfg "private_key_type" = Some (VStr s) →
       Config.merge_settings_json X json_dn json_cfg =
         if eq_ignore_case s "RSA"
         then _ ← Config.validate_dn X (Config.overlay ∅ json_dn);
              Ok (Config.overlay ∅ json_dn, merged json_cfg bits days)
         else Raise (Config.unsupported_key_type (VStr s))).
Proof.
  split.
  - intros dn cfg w Hdn. split.
    + intros s. apply generate_key_type_string, Hdn.
    + apply generate_key_type_absent, Hdn.
  - intros. eapply ConfigFacts.merge_key_type_string; eassumption.
Qed.

(** C5, at the input where the code departs from it.  A key type that
    is not a string is not rejected with a [ConfigError]: calling
    [.upper()] on it raises [AttributeError], from the merge as from the
    programmatic entry point. *)
Theorem private_key_type_not_a_string (X : Externals) :
  Config.merge_settings_json X (Some {[ "commonName" := VStr "a.test" ]})
    (Some {[ "private_key_type" := VInt 5 ]})
  = Raise (Builtin AttributeError)
  ∧ generate_from_dn_and_config X {[ "commonName" := VStr "a.test" ]}
      (<["private_key_type" := VInt 5]> CONFIG_DEFAULT) (Sample.world ∅)
    = (Raise (Builtin AttributeError), Sample.world ∅)
  ∧ is_CertToolError (Builtin AttributeError) = false.
Proof.
  split; [|split; [|reflexivity]].
  - apply (ConfigFacts.merge_key_type_other X _ _ (VInt 2048) (VInt 365) 2048 365 (VInt 5));
      try reflexivity. discriminate.
  - apply (generate_key_type_other X _ _ (VInt 5)); [reflexivity | reflexivity | discriminate].
Qed.

End CertsFacts.

(** ** Output directories: [make_cert_subdir] *)

Module OutputFacts.
Import Certs PathLib.

(** *** Names *)

Lemma append_inj_l s a b : s +:+ a = s +:+ b → a = b.
Proof. apply (inj (String.app s)). Qed.

Lemma append_empty_r s : s +:+ EmptyString = s.
Proof.
  induction s as [|c s IH]; [reflexivity|].
  change (String c s +:+ EmptyString) with (String c (s +:+ EmptyString)).
  rewrite IH. reflexivity.
Qed.

Lemma suffixed_inj base_name : Inj (=) (=) (suffixed base_name).
Proof.
  intros j k H. unfold suffixed in H.
  apply append_inj_l, append_inj_l in H. apply (inj pretty), H.
Qed.

Lemma suffixed_ne base_name k : suffixed base_name k ≠ base_name.
Proof.
  unfold suffixed. intros H. rewrite <- (append_empty_r base_name) in H at 2.
  apply append_inj_l in H. discriminate.
Qed.

Lemma joinpath_inj base : Inj (=) (=) (joinpath base).
Proof. intros a b H. unfold joinpath in H. apply app_inj_tail in H as [_ H]. exact H. Qed.

(** *** [mkdir] *)

Lemma exists_true (files : gmap Path node) p :
  exists_ files p = true ↔ is_Some (files !! p).
Proof. unfold exists_. apply bool_decide_eq_true. Qed.

Lemma exists_false (files : gmap Path node) p :
  exists_ files p = false ↔ files !! p = None.
Proof.
  unfold exists_. rewrite bool_decide_eq_false, eq_None_not_Some. reflexivity.
Qed.

Lemma new_dirs_lookup (l : list Path) q :
  (list_to_map ((λ q, (q, NDir)) <$> l) : gmap Path node) !! q
  = if decide (q ∈ l) then Some NDir else None.
Proof.
  induction l as [|p l IH]; cbn [fmap list_fmap list_to_map foldr uncurry fst snd].
  - rewrite lookup_empty. destruct (decide (q ∈ [])) as [H|]; [|reflexivity].
    apply elem_of_nil in H. destruct H.
  - change (foldr _ _ _) with (list_to_map ((λ q, (q, NDir)) <$> l) : gmap Path node).
    destruct (decide (p = q)) as [->|Hne].
    + rewrite lookup_insert_eq. rewrite decide_True; [reflexivity | apply elem_of_cons; auto].
    + rewrite lookup_insert_ne by exact Hne. rewrite IH.
      destruct (decide (q ∈ l)) as [Hin|Hnin].
      * rewrite decide_True; [reflexivity | apply elem_of_cons; auto].
      * rewrite decide_False; [reflexivity|].
        intros H. apply elem_of_cons in H as [->|H]; [destruct (Hne eq_refl) | auto].
Qed.

Lemma prefixes_self (p : Path) : p ≠ [] → p ∈ prefixes p.
Proof.
  induction p as [|x r IH]; [congruence|]. intros _. cbn [prefixes].
  destruct r as [|y r].
  - apply elem_of_cons. left. reflexivity.
  - apply elem_of_cons. right. apply list_elem_of_fmap. exists (y :: r).
    split; [reflexivity | apply IH; discriminate].
Qed.

Lemma prefixes_prefix (p q : Path) : q ∈ prefixes p → ∃ r, p = (q ++ r)%list.
Proof.
  revert q. induction p as [|x p IH]; intros q H; cbn [prefixes] in H.
  - apply elem_of_nil in H. destruct H.
  - apply elem_of_cons in H as [->|H]; [exists p; reflexivity|].
    apply list_elem_of_fmap in H as (q' & -> & Hq').
    destruct (IH _ Hq') as [r ->]. exists r. reflexivity.
Qed.

(** A sibling of [p] is none of the directories [mkdir] creates for [p]. *)
Lemma sibling_not_prefix base a b :
  a ≠ b → joinpath base a ∉ prefixes (joinpath base b).
Proof.
  intros Hne H. apply prefixes_prefix in H as [r Hr]. unfold joinpath in Hr.
  assert (r = []) as ->.
  { apply (f_equal length) in Hr. rewrite !length_app in Hr. simpl in Hr.
    destruct r; [reflexivity | simpl in Hr; lia]. }
  rewrite app_nil_r in Hr. apply app_inj_tail in Hr as [_ Hr]. congruence.
Qed.

Lemma mkdir_fresh (X : Externals) (files : gmap Path node) p :
  exists_ files p = false → mkdir_error X files p = None →
  mkdir X files p = inr (mkdir_result files p).
Proof. intros He Hm. unfold mkdir. rewrite He, Hm. reflexivity. Qed.

(** Creation is exclusive: [mkdir] refuses a path that exists. *)
Lemma mkdir_exclusive (X : Externals) (files : gmap Path node) p :
  exists_ files p = true → mkdir X files p = inl FileExistsError.
Proof. intros He. unfold mkdir. rewrite He. reflexivity. Qed.

Lemma mkdir_result_is_dir (files : gmap Path node) p :
  files !! p = None → p ≠ [] → is_dir (mkdir_result files p) p = true.
Proof.
  intros Hf Hp. unfold is_dir, mkdir_result.
  rewrite lookup_union_r by exact Hf. rewrite new_dirs_lookup.
  rewrite decide_True by (apply prefixes_self, Hp). reflexivity.
Qed.

Lemma mkdir_result_keeps (files : gmap Path node) p : files ⊆ mkdir_result files p.
Proof. apply map_union_subseteq_l. Qed.

Lemma mkdir_result_exists (files : gmap Path node) p q :
  exists_ (mkdir_result files p) q = true
  ↔ exists_ files q = true ∨ q ∈ prefixes p.
Proof.
  rewrite !exists_true. unfold mkdir_result.
  destruct (files !! q) as [n|] eqn:E.
  - rewrite (lookup_union_Some_l _ _ _ _ E). split; [left|]; eauto.
  - rewrite lookup_union_r by exact E. rewrite new_dirs_lookup.
    destruct (decide (q ∈ prefixes p)) as [Hin|Hnin]; split; intros H.
    + right. exact Hin.
    + eauto.
    + destruct H as [? H]. discriminate.
    + destruct H as [[? H]|H]; [discriminate | contradiction].
Qed.

(** *** [create_dir] *)

Lemma create_dir_quiet (X : Externals) candidate w :
  interference X (fs w) = fs w → mkdir_error X (fs w) candidate = None →
  exists_ (fs w) candidate = false →
  create_dir X candidate w = (Ok candidate, set_fs (mkdir_result (fs w) candidate) w).
Proof.
  intros Hq Hm He. unfold create_dir. rewrite Hq, (mkdir_fresh _ _ _ He Hm). reflexivity.
Qed.

(** Another process took the name between the check and the creation:
    an [OutputError], and the directory is left to its owner. *)
Lemma create_dir_race (X : Externals) candidate w :
  exists_ (interference X (fs w)) candidate = true →
  create_dir X candidate w
  = (Raise (OutputError [Lit "Unable to create directory "; StrPath candidate; Lit ": ";
                         StrExc (Builtin FileExistsError)]),
     set_fs (interference X (fs w)) w).
Proof. intros He. unfold create_dir. rewrite (mkdir_exclusive _ _ _ He). reflexivity. Qed.

(** *** The suffix loop *)

(** The loop stops at the first unused suffix at or after [counter]. *)
Lemma suffix_loop_first (X : Externals) fuel base name counter w :
  (∃ k, counter ≤ k < counter + fuel
        ∧ exists_ (fs w) (joinpath base (suffixed name k)) = false)%nat →
  ∃ k, (counter ≤ k)%nat
       ∧ exists_ (fs w) (joinpath base (suffixed name k)) = false
       ∧ (∀ j, (counter ≤ j < k)%nat →
               exists_ (fs w) (joinpath base (suffixed name j)) = true)
       ∧ suffix_loop X fuel base name counter w
         = create_dir X (joinpath base (suffixed name k)) w.
Proof.
  revert counter. induction fuel as [|fuel IH]; intros counter (k & Hk & Hfree); [lia|].
  cbn [suffix_loop].
  destruct (exists_ (fs w) (joinpath base (suffixed name counter))) eqn:E.
  - destruct (IH (S counter)) as (k' & Hk' & Hfree' & Hused & Hloop).
    { exists k. split; [|exact Hfree]. destruct (decide (k = counter)) as [->|]; [congruence|lia]. }
    exists k'. split; [lia|]. split; [exact Hfree'|]. split; [|exact Hloop].
    intros j Hj. destruct (decide (j = counter)) as [->|]; [exact E | apply Hused; lia].
  - exists counter. split; [lia|]. split; [exact E|]. split; [intros j Hj; lia | reflexivity].
Qed.

(** Among [size files + 1] different candidates one is unused. *)
Lemma unused_candidate (files : gmap Path node) (cand : nat → Path) :
  Inj (=) (=) cand →
  ∃ k, (1 ≤ k < 1 + S (size files))%nat ∧ files !! cand k = None.
Proof.
  intros Hinj.
  destruct (decide (Exists (λ k, files !! cand k = None) (seq 1 (S (size files)))))
    as [Hex | Hall].
  - apply Exists_exists in Hex as (k & Hin & Hk). apply elem_of_seq in Hin. eauto.
  - exfalso. apply not_Exists_Forall in Hall; [|intros k; apply _].
    rewrite Forall_forall in Hall.
    assert (Hsub : (list_to_set (cand <$> seq 1 (S (size files))) : gset Path) ⊆ dom files).
    { intros p Hp. apply elem_of_list_to_set, list_elem_of_fmap in Hp as (k & -> & Hk).
      apply elem_of_dom. specialize (Hall k Hk). simpl in Hall.
      destruct (files !! cand k); [eauto | contradiction]. }
    apply subseteq_size in Hsub. rewrite size_dom in Hsub.
    rewrite size_list_to_set in Hsub.
    + rewrite length_fmap, length_seq in Hsub. lia.
    + apply NoDup_fmap; [exact Hinj | apply NoDup_seq].
Qed.

Lemma joinpath_nonempty base name : joinpath base name ≠ [].
Proof. unfold joinpath. destruct base; discriminate. Qed.

Lemma fs_set_fs files w : fs (set_fs files w) = files.
Proof. reflexivity. Qed.

Lemma make_cert_subdir_fresh (X : Externals) fuel base dn label w :
  quiet X →
  exists_ (fs w) (joinpath base (subdir_base_name X dn label)) = false →
  make_cert_subdir X fuel base dn label w
  = (Ok (joinpath base (subdir_base_name X dn label)),
     set_fs (mkdir_result (fs w) (joinpath base (subdir_base_name X dn label))) w).
Proof.
  intros [Hquiet Hperm] Hfree. unfold make_cert_subdir.
  rewrite Hfree. cbn [negb]. apply create_dir_quiet; auto.
Qed.

Lemma make_cert_subdir_loop (X : Externals) fuel base dn label w k :
  quiet X →
  exists_ (fs w) (joinpath base (subdir_base_name X dn label)) = true →
  suffix_loop X fuel base (subdir_base_name X dn label) 1 w
  = create_dir X (joinpath base (suffixed (subdir_base_name X dn label) k)) w →
  exists_ (fs w) (joinpath base (suffixed (subdir_base_name X dn label) k)) = false →
  make_cert_subdir X fuel base dn label w
  = (Ok (joinpath base (suffixed (subdir_base_name X dn label) k)),
     set_fs (mkdir_result (fs w)
               (joinpath base (suffixed (subdir_base_name X dn label) k))) w).
Proof.
  intros [Hquiet Hperm] Htaken Hl Hfree. unfold make_cert_subdir.
  rewrite Htaken. cbn [negb]. rewrite Hl. apply create_dir_quiet; auto.
Qed.

(** With fuel above the number of existing paths the loop finds the
    first unused suffix. *)
Lemma make_cert_subdir_taken (X : Externals) fuel base dn label w :
  quiet X → (size (fs w) < fuel)%nat →
  exists_ (fs w) (joinpath base (subdir_base_name X dn label)) = true →
  ∃ k, (1 ≤ k)%nat
       ∧ exists_ (fs w) (joinpath base (suffixed (subdir_base_name X dn label) k)) = false
       ∧ (∀ j, (1 ≤ j < k)%nat →
           exists_ (fs w) (joinpath base (suffixed (subdir_base_name X dn label) j)) = true)
       ∧ make_cert_subdir X fuel base dn label w
         = (Ok (joinpath base (suffixed (subdir_base_name X dn label) k)),
            set_fs (mkdir_result (fs w)
                      (joinpath base (suffixed (subdir_base_name X dn label) k))) w).
Proof.
  intros Hq Hfuel Htaken. set (name := subdir_base_name X dn label) in *.
  destruct (unused_candidate (fs w) (λ k, joinpath base (suffixed name k)))
    as (k0 & Hk0 & Hnone).
  { intros j k H. apply (suffixed_inj name), (joinpath_inj base), H. }
  destruct (suffix_loop_first X fuel base name 1 w) as (k & Hk & Hfree & Hused & Hl).
  { exists k0. split; [lia|]. apply exists_false, Hnone. }
  exists k. split; [exact Hk|]. split; [exact Hfree|]. split; [exact Hused|].
  apply make_cert_subdir_loop; assumption.
Qed.

(** On a quiet file system, with enough fuel, a directory directly
    under the root is created and returned. *)
Lemma make_cert_subdir_quiet (X : Externals) fuel base dn label w :
  quiet X → (size (fs w) < fuel)%nat →
  ∃ name, make_cert_subdir X fuel base dn label w
          = (Ok (joinpath base name), set_fs (mkdir_result (fs w) (joinpath base name)) w).
Proof.
  intros Hq Hfuel.
  destruct (exists_ (fs w) (joinpath base (subdir_base_name X dn label))) eqn:E.
  - destruct (make_cert_subdir_taken X fuel base dn label w Hq Hfuel E)
      as (k & _ & _ & _ & H). eauto.
  - rewrite (make_cert_subdir_fresh X fuel base dn label w Hq E). eauto.
Qed.



End OutputFacts.

(** ** The batch: [process_config_dir_mode] *)

Module CliFacts.
Import Cli PathLib.

(** *** Calls that return and leave the file system alone *)

Lemma result_bind_steady {A B} (r : result A) (k : A → result B) :
  r ≠ OutOfFuel → (∀ a, k a ≠ OutOfFuel) → (r ≫= k) ≠ OutOfFuel.
Proof. intros Hr Hk. destruct r; [apply Hk | discriminate | congruence]. Qed.

Lemma result_fmap_steady {A B} (f : A → B) (r : result A) :
  r ≠ OutOfFuel → (f <$> r) ≠ OutOfFuel.
Proof. intros Hr. destruct r; [discriminate | discriminate | congruence]. Qed.

Lemma steady_bind {A B} (m : M A) (k : A → M B) :
  steady m → (∀ a, steady (k a)) → steady (m ≫= k).
Proof.
  intros Hm Hk w. unfold mbind, M_bind. destruct (Hm w) as [Hr Hfs].
  destruct (m w) as [[a|e|] w']; cbn [fst snd] in *.
  - destruct (Hk a w') as [Hr' Hfs']. split; [exact Hr' | congruence].
  - split; [discriminate | exact Hfs].
  - destruct (Hr eq_refl).
Qed.

Lemma steady_lift {A} (r : result A) : r ≠ OutOfFuel → steady (lift r).
Proof. intros Hr w. split; [exact Hr | reflexivity]. Qed.

Lemma steady_raise {A} e : steady (@raise A e).
Proof. intros w. split; [discriminate | reflexivity]. Qed.

Lemma steady_mret {A} (a : A) : steady (mret a).
Proof. intros w. split; [discriminate | reflexivity]. Qed.

Lemma steady_try {A} (m : M A) (h : exn → M A) :
  steady m → (∀ e, steady (h e)) → steady (try_except m h).
Proof.
  intros Hm Hh w. unfold try_except. destruct (Hm w) as [Hr Hfs].
  destruct (m w) as [[a|e|] w']; cbn [fst snd] in *.
  - split; [discriminate | exact Hfs].
  - destruct (Hh e w') as [Hr' Hfs']. split; [exact Hr' | congruence].
  - destruct (Hr eq_refl).
Qed.

Lemma steady_call c : steady (call c).
Proof. intros w. split; [discriminate | reflexivity]. Qed.

Lemma steady_print line : steady (print line).
Proof. intros w. split; [discriminate | reflexivity]. Qed.

Lemma steady_of_lib {A} (r : py_kind + A) : steady (of_lib r).
Proof. destruct r; [apply steady_raise | apply steady_mret]. Qed.

Lemma steady_check_lib r : steady (check_lib r).
Proof. destruct r; [apply steady_raise | apply steady_mret]. Qed.

Lemma steady_with_files {A} (f : gmap Path node → result A) :
  (∀ files, f files ≠ OutOfFuel) → steady (with_files f).
Proof. intros Hf w. split; [apply Hf | reflexivity]. Qed.

Lemma steady_reraise_or_wrap {A} prefix e : steady (@Certs.reraise_or_wrap A prefix e).
Proof. unfold Certs.reraise_or_wrap. destruct (is_CertToolError e); apply steady_raise. Qed.

Lemma steady_returns {A} (m : M A) : steady m → returns m.
Proof. intros H w. apply H. Qed.

Create HintDb steady.

#[local] Hint Resolve steady_lift steady_raise steady_mret steady_call steady_print
  steady_of_lib steady_check_lib steady_reraise_or_wrap : steady.

Ltac steady_step :=
  first [ apply steady_bind; [|intros ?]
        | apply steady_try; [|intros ?]
        | apply result_bind_steady; [|intros ?]
        | apply result_fmap_steady
        | solve [auto with steady]
        | discriminate ].

Lemma subscript_steady d k : subscript d k ≠ OutOfFuel.
Proof. unfold subscript. destruct (d !! k); discriminate. Qed.

Lemma py_int_steady X v : py_int X v ≠ OutOfFuel.
Proof.
  destruct (ConfigFacts.py_int_cases X v) as [[n ->] | (k & _ & ->)]; discriminate.
Qed.

Lemma coerce_bool_steady v : Config._coerce_bool v ≠ OutOfFuel.
Proof. unfold Config._coerce_bool. repeat case_match; discriminate. Qed.

Lemma coerce_key_steady f key cfg :
  (∀ v, f v ≠ OutOfFuel) → Config.coerce_key f key cfg ≠ OutOfFuel.
Proof.
  intros Hf. unfold Config.coerce_key. destruct (cfg !! key); [|discriminate].
  apply result_bind_steady; [apply Hf | discriminate].
Qed.

Lemma coerce_config_types_steady X cfg : Config._coerce_config_types X cfg ≠ OutOfFuel.
Proof.
  unfold Config._coerce_config_types.
  repeat (apply result_bind_steady;
          [apply coerce_key_steady; intros v; apply result_fmap_steady;
           auto using py_int_steady, coerce_bool_steady | intros ?]).
  discriminate.
Qed.

Lemma load_json_config_steady X files path :
  Config.load_json_config X files path ≠ OutOfFuel.
Proof.
  unfold Config.load_json_config.
  apply result_bind_steady.
  { unfold Config._read_json_file, Config.read_text. repeat case_match; discriminate. }
  intros data_raw. apply result_bind_steady.
  { unfold Config._ensure_dict_top_level. destruct data_raw; discriminate. }
  intros data. unfold Config.split_config.
  match goal with |- context [let '(_, _) := ?e in _] => destruct e as [dn cfg] end.
  apply result_bind_steady; [apply coerce_config_types_steady | discriminate].
Qed.

Lemma validate_dn_steady X dn : Config.validate_dn X dn ≠ OutOfFuel.
Proof. unfold Config.validate_dn. repeat case_match; discriminate. Qed.

Lemma merge_settings_json_steady X json_dn json_cfg :
  Config.merge_settings_json X json_dn json_cfg ≠ OutOfFuel.
Proof.
  unfold Config.merge_settings_json.
  apply result_bind_steady; [apply subscript_steady | intros ?].
  apply result_bind_steady; [apply py_int_steady | intros ?].
  apply result_bind_steady; [apply subscript_steady | intros ?].
  apply result_bind_steady; [apply py_int_steady | intros ?].
  apply result_bind_steady.
  { unfold Config.key_type_is_not_rsa. repeat case_match; discriminate. }
  intros [].
  - apply result_bind_steady; [apply subscript_steady | discriminate].
  - apply result_bind_steady; [apply validate_dn_steady | discriminate].
Qed.

Lemma name_attributes_steady X dn fields : Certs.name_attributes X dn fields ≠ OutOfFuel.
Proof.
  induction fields as [|[key oid] rest IH]; cbn [Certs.name_attributes]; [discriminate|].
  destruct (truthy _); [|exact IH]. destruct (name_attribute_error _ _ _); [discriminate|].
  apply result_bind_steady; [exact IH | discriminate].
Qed.

Lemma get_digest_steady d : Certs.get_digest d ≠ OutOfFuel.
Proof. unfold Certs.get_digest. repeat case_match; discriminate. Qed.

Lemma dns_names_steady X items : Certs.dns_names X items ≠ OutOfFuel.
Proof.
  induction items as [|v items IH]; cbn [Certs.dns_names]; [discriminate|].
  apply result_bind_steady.
  { unfold Certs.dns_name. repeat case_match; discriminate. }
  intros g. apply result_bind_steady; [exact IH | discriminate].
Qed.

Lemma py_iter_steady X v : Certs.py_iter X v ≠ OutOfFuel.
Proof. destruct v; discriminate. Qed.

#[local] Hint Resolve subscript_steady py_int_steady get_digest_steady
  dns_names_steady py_iter_steady name_attributes_steady : steady.

Lemma create_cert_components_steady X dn cfg :
  steady (Certs.create_cert_components X dn cfg).
Proof.
  unfold Certs.create_cert_components, Certs.build_x509_name,
         Certs.generate_key_pair, Certs.generate_csr, Certs.generate_self_signed_cert.
  repeat steady_step.
  destruct (Certs.opt_truthy _); repeat steady_step.
Qed.

Lemma serialize_cert_components_steady X comps encrypt_key passphrase :
  steady (Certs.serialize_cert_components X comps encrypt_key passphrase).
Proof.
  unfold Certs.serialize_cert_components.
  apply steady_bind.
  { repeat case_match; auto with steady. }
  intros enc. repeat steady_step.
Qed.

Lemma write_bundle_to_stdout_steady bundle label :
  steady (Certs.write_bundle_to_stdout bundle label).
Proof.
  unfold Certs.write_bundle_to_stdout.
  apply steady_bind; [repeat case_match; auto with steady | intros ?].
  repeat steady_step.
Qed.

(** Printing to standard output involves no loop and no file. *)
Lemma process_one_stdout_steady X fuel passphrase cfg_path :
  steady (process_one X fuel None passphrase cfg_path).
Proof.
  unfold process_one, Certs.handle_single_cert.
  apply steady_bind; [apply steady_with_files; intros; apply load_json_config_steady|].
  intros [json_dn json_cfg].
  apply steady_bind; [apply steady_lift, merge_settings_json_steady|].
  intros [dn cfg].
  apply steady_bind; [apply create_cert_components_steady | intros comps].
  apply steady_bind; [apply serialize_cert_components_steady | intros bundle].
  apply write_bundle_to_stdout_steady.
Qed.

(** *** Writing into a directory: how far the file system grows *)

Lemma length_prefixes (p : Path) : length (prefixes p) = length p.
Proof.
  induction p as [|x p IH]; [reflexivity|]. cbn [prefixes length].
  rewrite length_fmap, IH. reflexivity.
Qed.

Lemma size_new_dirs (l : list Path) :
  (size (list_to_map ((λ q, (q, NDir)) <$> l) : gmap Path node) ≤ length l)%nat.
Proof.
  induction l as [|p l IH]; [cbn; rewrite map_size_empty; reflexivity|].
  cbn [fmap list_fmap list_to_map foldr uncurry fst snd length].
  change (foldr _ _ _) with (list_to_map ((λ q, (q, NDir)) <$> l) : gmap Path node).
  rewrite map_size_insert. case_match; unfold id.
  - apply Nat.le_le_succ_r, IH.
  - apply le_n_S, IH.
Qed.

Lemma size_mkdir_result (files : gmap Path node) p :
  (size (mkdir_result files p) ≤ size files + length p)%nat.
Proof.
  unfold mkdir_result. rewrite <- !size_dom, dom_union_L, size_union_alt.
  pose proof (size_new_dirs (prefixes p)) as H. rewrite length_prefixes, <- size_dom in H.
  assert (size (dom (list_to_map ((λ q, (q, NDir)) <$> prefixes p) : gmap Path node)
                ∖ dom files)
          ≤ size (dom (list_to_map ((λ q, (q, NDir)) <$> prefixes p) : gmap Path node)))%nat
    as Hsub.
  { apply subseteq_size. apply subseteq_difference_l. reflexivity. }
  lia.
Qed.

Lemma write_file_grows (X : Externals) fuel path data : grows fuel 1 (Certs.write_file X path data).
Proof.
  intros w _. unfold Certs.write_file, write_bytes.
  destruct (write_error X (fs w) path); cbn [fst snd].
  - split; [discriminate | lia].
  - split; [discriminate|]. rewrite OutputFacts.fs_set_fs, map_size_insert. case_match; unfold id; lia.
Qed.

(** The three files of a bundle: at most three new paths, and an
    outcome that is a value or an exception. *)
Lemma write_files (X : Externals) subdir bundle handler w :
  (∀ e, steady (handler e)) →
  let m := try_except
    (_ ← Certs.write_file X (joinpath subdir "cert.pem") (certificate_pem bundle);
     _ ← Certs.write_file X (joinpath subdir "csr.pem") (csr_pem bundle);
     Certs.write_file X (joinpath subdir "key.pem") (private_key_pem bundle)) handler in
  fst (m w) ≠ OutOfFuel ∧ (size (fs (snd (m w))) ≤ size (fs w) + 3)%nat.
Proof.
  intros Hh m. subst m. unfold try_except, mbind, M_bind.
  assert (Hw : ∀ path data w0,
            (∃ w1, Certs.write_file X path data w0 = (Ok (), w1)
                   ∧ (size (fs w1) ≤ size (fs w0) + 1)%nat)
            ∨ (∃ e, Certs.write_file X path data w0 = (Raise e, w0))).
  { intros path data w0. unfold Certs.write_file, write_bytes.
    destruct (write_error X (fs w0) path); [right; eauto|]. left. eexists. split; [reflexivity|].
    rewrite OutputFacts.fs_set_fs, map_size_insert. case_match; unfold id; lia. }
  assert (Hhandled : ∀ e w0, fst (handler e w0) ≠ OutOfFuel
                             ∧ fs (snd (handler e w0)) = fs w0) by (intros; apply Hh).
  destruct (Hw (joinpath subdir "cert.pem") (certificate_pem bundle) w)
    as [(w1 & -> & H1) | (e & ->)].
  2:{ destruct (Hhandled e w) as [? ->]. split; [assumption | lia]. }
  destruct (Hw (joinpath subdir "csr.pem") (csr_pem bundle) w1)
    as [(w2 & -> & H2) | (e & ->)].
  2:{ destruct (Hhandled e w1) as [? ->]. split; [assumption | lia]. }
  destruct (Hw (joinpath subdir "key.pem") (private_key_pem bundle) w2)
    as [(w3 & -> & H3) | (e & ->)].
  2:{ destruct (Hhandled e w2) as [? ->]. split; [assumption | lia]. }
  cbn [fst snd]. split; [discriminate | lia].
Qed.

Lemma M_bind_Ok {A B} (m : M A) (k : A → M B) w a w' :
  m w = (Ok a, w') → (m ≫= k) w = k a w'.
Proof. intros H. unfold mbind, M_bind. rewrite H. reflexivity. Qed.

Lemma write_bundle_to_dir_grows (X : Externals) fuel bundle dn label output_dir :
  quiet X →
  grows fuel (length output_dir + 4) (Certs.write_bundle_to_dir X fuel bundle dn label output_dir).
Proof.
  intros Hq w Hfuel.
  destruct (OutputFacts.make_cert_subdir_quiet X fuel output_dir dn label w Hq Hfuel)
    as [name Hmake].
  unfold Certs.write_bundle_to_dir. rewrite !(M_bind_Ok _ _ _ _ _ Hmake).
  match goal with |- context [try_except ?body ?handler] =>
    pose proof (write_files X (joinpath output_dir name) bundle handler
                  (set_fs (mkdir_result (fs w) (joinpath output_dir name)) w)) as H
  end.
  cbn zeta in H. destruct H as [Hr Hs].
  { intros e. destruct e; try apply steady_raise. destruct (is_OSError k); apply steady_raise. }
  split; [exact Hr|].
  rewrite OutputFacts.fs_set_fs in Hs.
  pose proof (size_mkdir_result (fs w) (joinpath output_dir name)) as Hm.
  unfold joinpath in Hm at 2. rewrite length_app in Hm. cbn [length] in Hm. lia.
Qed.

Lemma grows_bind_steady {A B} fuel c (m : M A) (k : A → M B) :
  steady m → (∀ a, grows fuel c (k a)) → grows fuel c (m ≫= k).
Proof.
  intros Hm Hk w Hfuel. unfold mbind, M_bind. destruct (Hm w) as [Hr Hfs].
  destruct (m w) as [[a|e|] w']; cbn [fst snd] in *.
  - rewrite <- Hfs. apply Hk. rewrite Hfs. exact Hfuel.
  - split; [discriminate | rewrite Hfs; lia].
  - destruct (Hr eq_refl).
Qed.

(** One item of a batch that writes into [output_dir]. *)
Lemma process_one_dir_grows (X : Externals) fuel output_dir passphrase cfg_path :
  quiet X →
  grows fuel (length output_dir + 4) (process_one X fuel (Some output_dir) passphrase cfg_path).
Proof.
  intros Hq. unfold process_one, Certs.handle_single_cert.
  apply grows_bind_steady;
    [apply steady_with_files; intros; apply load_json_config_steady|].
  intros [json_dn json_cfg].
  apply grows_bind_steady; [apply steady_lift, merge_settings_json_steady|].
  intros [dn cfg].
  apply grows_bind_steady; [apply create_cert_components_steady | intros comps].
  apply grows_bind_steady; [apply serialize_cert_components_steady | intros bundle].
  apply write_bundle_to_dir_grows, Hq.
Qed.

(** *** The files of the batch *)

Lemma glob_json_spec (files : gmap Path node) d name :
  name ∈ glob_json files d
  ↔ is_Some (files !! joinpath d name) ∧ PyStr.endswith name ".json" = true.
Proof.
  unfold glob_json. rewrite list_elem_of_omap. split.
  - intros (p & Hp & Hf). apply elem_of_elements, elem_of_dom in Hp.
    destruct (last p) as [name'|] eqn:El; [|discriminate].
    destruct (bool_decide (p = joinpath d name')) eqn:Ep; [|discriminate].
    destruct (PyStr.endswith name' ".json") eqn:Ee; [|discriminate].
    cbn [andb] in Hf. injection Hf as <-. apply bool_decide_eq_true in Ep. subst p.
    split; assumption.
  - intros [Hsome Hend]. exists (joinpath d name). split.
    + apply elem_of_elements, elem_of_dom, Hsome.
    + unfold joinpath at 1. rewrite last_snoc, bool_decide_true by reflexivity.
      rewrite Hend. reflexivity.
Qed.

Lemma glob_json_NoDup (files : gmap Path node) d : NoDup (glob_json files d).
Proof.
  unfold glob_json. generalize (NoDup_elements (dom files)).
  induction (elements (dom files)) as [|p l IH]; intros Hnd; [constructor|].
  apply NoDup_cons in Hnd as [Hp Hl]. cbn [omap list_omap].
  destruct (last p) as [name|] eqn:El; [|apply IH, Hl].
  destruct (bool_decide (p = joinpath d name)) eqn:Ep; [|apply IH, Hl].
  destruct (PyStr.endswith name ".json"); [|apply IH, Hl]. cbn [andb].
  apply NoDup_cons. split; [|apply IH, Hl].
  intros Hin. apply list_elem_of_omap in Hin as (q & Hq & Hf).
  destruct (last q) as [name'|] eqn:El'; [|discriminate].
  destruct (bool_decide (q = joinpath d name')) eqn:Eq; [|discriminate].
  destruct (PyStr.endswith name' ".json"); [|discriminate].
  cbn [andb] in Hf. injection Hf as ->.
  apply bool_decide_eq_true in Ep, Eq. subst p q. contradiction.
Qed.

(** The batch takes the [.json] entries of the directory, each once, in
    the order of their names. *)
Lemma sorted_glob_json_order (files : gmap Path node) d :
  ∃ names, sorted_glob_json files d = joinpath d <$> names
           ∧ StronglySorted String.le names
           ∧ NoDup names
           ∧ ∀ name, name ∈ names
                     ↔ is_Some (files !! joinpath d name)
                       ∧ PyStr.endswith name ".json" = true.
Proof.
  exists (merge_sort String.le (glob_json files d)). split; [reflexivity|].
  split; [apply StronglySorted_merge_sort; apply _|]. split.
  - rewrite merge_sort_Permutation. apply glob_json_NoDup.
  - intros name. rewrite merge_sort_Permutation. apply glob_json_spec.
Qed.

(** *** The loop *)

Lemma for_each_attempted body items w n w' errors :
  attempted body items w n w' →
  for_each_config body items errors w = (Ok (errors + n)%nat, w').
Proof.
  intros H. revert errors. induction H as [w | p rest w w1 n w' Hb _ IH | p rest w e w1 n w' Hb _ IH];
    intros errors; cbn [for_each_config].
  - rewrite Nat.add_0_r. reflexivity.
  - rewrite Hb. apply IH.
  - rewrite Hb. cbn. rewrite IH. f_equal. f_equal. lia.
Qed.

Lemma attempted_total body items w :
  (∀ p, returns (body p)) → ∃ n w', attempted body items w n w'.
Proof.
  intros Hret. revert w. induction items as [|p rest IH]; intros w.
  - exists 0%nat, w. constructor.
  - pose proof (Hret p w) as Hp. destruct (body p w) as [[[]|e|] w1] eqn:Hb.
    + destruct (IH w1) as (n & w' & H). exists n, w'. eapply attempted_done; eassumption.
    + destruct (IH (reported p e w1)) as (n & w' & H).
      exists (S n), w'. eapply attempted_failed; eassumption.
    + destruct (Hp eq_refl).
Qed.

Lemma attempted_total_grows body items fuel c w :
  (∀ p, grows fuel c (body p)) →
  (size (fs w) + length items * c < fuel)%nat →
  ∃ n w', attempted body items w n w'.
Proof.
  intros Hg. revert w. induction items as [|p rest IH]; intros w Hfuel.
  - exists 0%nat, w. constructor.
  - cbn [length] in Hfuel. destruct (Hg p w) as [Hr Hs]; [lia|].
    destruct (body p w) as [[[]|e|] w1] eqn:Hb; cbn [fst snd] in *.
    + destruct (IH w1) as (n & w' & H); [lia|].
      exists n, w'. eapply attempted_done; eassumption.
    + destruct (IH (reported p e w1)) as (n & w' & H).
      { change (fs (reported p e w1)) with (fs w1). lia. }
      exists (S n), w'. eapply attempted_failed; eassumption.
    + destruct (Hr eq_refl).
Qed.

(** The failures are reported where they occur: the error stream grows
    by one line for each. *)
Lemma attempted_reports body items w n w' :
  (∀ p w0 r w1, body p w0 = (r, w1) → stderr w1 = stderr w0) →
  attempted body items w n w' →
  ∃ lines, stderr w' = (stderr w ++ lines)%list ∧ length lines = n.
Proof.
  intros Hquiet H. induction H as [w | p rest w w1 n w' Hb _ IH | p rest w e w1 n w' Hb _ IH].
  - exists []. rewrite app_nil_r. split; reflexivity.
  - destruct IH as (lines & -> & <-). exists lines. rewrite (Hquiet _ _ _ _ Hb). auto.
  - destruct IH as (lines & -> & <-). exists (error_line p e :: lines).
    cbn. rewrite (Hquiet _ _ _ _ Hb), <- app_assoc. auto.
Qed.

Lemma config_dir_mode_attempted body config_dir w n w' :
  is_dir (fs w) config_dir = true →
  sorted_glob_json (fs w) config_dir ≠ [] →
  attempted body (sorted_glob_json (fs w) config_dir) w n w' →
  config_dir_mode body config_dir w
  = if (n =? 0)%nat then (Ok (), w')
    else (Raise (CertToolError [StrNat n;
            Lit " config file(s) failed; see error messages above."]), w').
Proof.
  intros Hdir Hne Hatt. unfold config_dir_mode.
  assert (exists_ (fs w) config_dir = true) as ->.
  { apply bool_decide_eq_true. unfold is_dir in Hdir.
    destruct (fs w !! config_dir); [eauto | discriminate]. }
  rewrite Hdir. cbn [negb orb].
  destruct (sorted_glob_json (fs w) config_dir) as [|p rest] eqn:E; [congruence|].
  rewrite (for_each_attempted _ _ _ _ _ 0%nat Hatt). cbn [Nat.add].
  destruct (n =? 0)%nat; reflexivity.
Qed.



(** The same directory written to [out]: both valid files name
    [a.test], and the second lands in [out/a.test-1]. *)
Lemma batch_into_directory :
  let r := process_config_dir_mode Sample.externals 16 ["conf"] (Some ["out"]) None
             (Sample.world Sample.batch_files) in
  fst r = Raise (CertToolError [StrNat 1;
            Lit " config file(s) failed; see error messages above."])
  ∧ is_file (fs (snd r)) ["out"; "a.test"; "cert.pem"] = true
  ∧ is_file (fs (snd r)) ["out"; "a.test-1"; "key.pem"] = true
  ∧ exists_ (fs (snd r)) ["out"; "a.test-2"] = false.
Proof. vm_compute. repeat split; reflexivity. Qed.

End CliFacts.

(** ** Names of output directories: [slugify] and [make_cert_subdir] *)

Module SlugFacts.
Import Certs PathLib.

(** *** Trimming *)

Lemma all_chars_lstrip_by q p s :
  all_chars q s = true → all_chars q (PyStr.lstrip_by p s) = true.
Proof.
  induction s as [|c s IH]; [reflexivity|]. cbn [all_chars PyStr.lstrip_by].
  intros H. apply andb_true_iff in H as [Hc Hs].
  destruct (p c); [apply IH, Hs|]. cbn [all_chars]. rewrite Hc, Hs. reflexivity.
Qed.

Lemma all_chars_rstrip_by q p s :
  all_chars q s = true → all_chars q (PyStr.rstrip_by p s) = true.
Proof.
  induction s as [|c s IH]; [reflexivity|]. cbn [all_chars PyStr.rstrip_by].
  intros H. apply andb_true_iff in H as [Hc Hs]. specialize (IH Hs).
  destruct (PyStr.rstrip_by p s) as [|d r].
  - destruct (p c); [reflexivity|]. cbn [all_chars]. rewrite Hc. reflexivity.
  - cbn [all_chars] in *. rewrite Hc, IH. reflexivity.
Qed.

Lemma head_lstrip_by p s : head_is p (PyStr.lstrip_by p s) = false.
Proof.
  induction s as [|c s IH]; [reflexivity|]. cbn [PyStr.lstrip_by].
  destruct (p c) eqn:E; [exact IH|]. cbn [head_is]. exact E.
Qed.

Lemma head_rstrip_by p q s :
  head_is q s = false → head_is q (PyStr.rstrip_by p s) = false.
Proof.
  destruct s as [|c s]; [reflexivity|]. cbn [head_is PyStr.rstrip_by]. intros H.
  destruct (PyStr.rstrip_by p s); [destruct (p c)|]; cbn [head_is]; auto.
Qed.

Lemma last_rstrip_by p s : last_is p (PyStr.rstrip_by p s) = false.
Proof.
  induction s as [|c s IH]; [reflexivity|]. cbn [PyStr.rstrip_by].
  destruct (PyStr.rstrip_by p s) as [|d r] eqn:E.
  - destruct (p c) eqn:Ec; [reflexivity|]. cbn [last_is]. exact Ec.
  - cbn [last_is]. exact IH.
Qed.

Lemma lstrip_by_fixed p s : head_is p s = false → PyStr.lstrip_by p s = s.
Proof. destruct s as [|c s]; [reflexivity|]. cbn [head_is PyStr.lstrip_by]. intros ->. reflexivity. Qed.

Lemma rstrip_by_fixed p s : last_is p s = false → PyStr.rstrip_by p s = s.
Proof.
  induction s as [|c s IH]; [reflexivity|]. cbn [last_is PyStr.rstrip_by].
  destruct s as [|d r].
  - intros ->. reflexivity.
  - intros H. rewrite (IH H). reflexivity.
Qed.

Lemma strip_by_fixed p s :
  head_is p s = false → last_is p s = false → PyStr.strip_by p s = s.
Proof.
  intros Hh Hl. unfold PyStr.strip_by. rewrite (lstrip_by_fixed _ _ Hh).
  apply rstrip_by_fixed, Hl.
Qed.

(** *** Characters *)

Lemma slug_char_lower c :
  match slug_char (PyStr.lower_char c) with
  | Some d => slug_safe_char d = true
  | None => True
  end.
Proof.
  assert (H : match slug_char (PyStr.lower_char c) with
              | Some d => slug_safe_char d
              | None => true
              end = true).
  { apply (StrFacts.ascii_forall (λ c, match slug_char (PyStr.lower_char c) with
                                       | Some d => slug_safe_char d
                                       | None => true
                                       end)).
    vm_compute. reflexivity. }
  destruct (slug_char (PyStr.lower_char c)); [exact H | exact I].
Qed.

Lemma slug_char_safe c : slug_safe_char c = true → slug_char c = Some c.
Proof.
  intros H.
  assert (Hall : (if slug_safe_char c
                  then match slug_char c with
                       | Some d => Ascii.eqb d c
                       | None => false
                       end
                  else true) = true).
  { apply (StrFacts.ascii_forall (λ c, if slug_safe_char c
                                       then match slug_char c with
                                            | Some d => Ascii.eqb d c
                                            | None => false
                                            end
                                       else true)).
    vm_compute. reflexivity. }
  rewrite H in Hall. destruct (slug_char c) as [d|]; [|discriminate].
  apply Ascii.eqb_eq in Hall. rewrite Hall. reflexivity.
Qed.

Lemma safe_not_upper c : slug_safe_char c = true → PyStr.lower_char c = c.
Proof.
  intros H.
  assert (Hall : (if slug_safe_char c
                  then Ascii.eqb (PyStr.lower_char c) c else true) = true).
  { apply (StrFacts.ascii_forall (λ c, if slug_safe_char c
                                       then Ascii.eqb (PyStr.lower_char c) c else true)).
    vm_compute. reflexivity. }
  rewrite H in Hall. apply Ascii.eqb_eq in Hall. exact Hall.
Qed.

Lemma safe_space_is_punct c :
  slug_safe_char c = true → PyStr.isspace c = true → is_slug_punct c = true.
Proof.
  intros H Hs.
  assert (Hall : (if slug_safe_char c && PyStr.isspace c
                  then is_slug_punct c else true) = true).
  { apply (StrFacts.ascii_forall (λ c, if slug_safe_char c && PyStr.isspace c
                                       then is_slug_punct c else true)).
    vm_compute. reflexivity. }
  rewrite H, Hs in Hall. exact Hall.
Qed.

Lemma safe_not_slash c : slug_safe_char c = true → Ascii.eqb c "/" = false.
Proof.
  intros H.
  assert (Hall : (if slug_safe_char c then negb (Ascii.eqb c "/") else true) = true).
  { apply (StrFacts.ascii_forall (λ c, if slug_safe_char c
                                       then negb (Ascii.eqb c "/") else true)).
    vm_compute. reflexivity. }
  rewrite H in Hall. apply negb_true_iff in Hall. exact Hall.
Qed.

Lemma slug_chars_lower s : all_chars slug_safe_char (slug_chars (PyStr.lower s)) = true.
Proof.
  unfold PyStr.lower. induction s as [|c s IH]; [reflexivity|].
  cbn [PyStr.map slug_chars]. pose proof (slug_char_lower c) as Hc.
  destruct (slug_char (PyStr.lower_char c)); [|exact IH].
  cbn [all_chars]. rewrite Hc, IH. reflexivity.
Qed.

Lemma slug_chars_safe s : all_chars slug_safe_char s = true → slug_chars s = s.
Proof.
  induction s as [|c s IH]; [reflexivity|]. cbn [all_chars slug_chars]. intros H.
  apply andb_true_iff in H as [Hc Hs]. rewrite (slug_char_safe c Hc), (IH Hs). reflexivity.
Qed.

Lemma lower_safe s : all_chars slug_safe_char s = true → PyStr.lower s = s.
Proof.
  unfold PyStr.lower. induction s as [|c s IH]; [reflexivity|].
  cbn [all_chars PyStr.map]. intros H.
  apply andb_true_iff in H as [Hc Hs]. rewrite (safe_not_upper c Hc), (IH Hs). reflexivity.
Qed.

(** *** Slugs *)

Lemma is_slug_intro s :
  s ≠ EmptyString → all_chars slug_safe_char s = true →
  head_is is_slug_punct s = false → last_is is_slug_punct s = false →
  is_slug s = true.
Proof.
  intros Hne Hall Hh Hl. unfold is_slug. rewrite Hall, Hh, Hl.
  destruct s; [destruct (Hne eq_refl) | reflexivity].
Qed.

Lemma is_slug_elim s :
  is_slug s = true →
  s ≠ EmptyString ∧ all_chars slug_safe_char s = true
  ∧ head_is is_slug_punct s = false ∧ last_is is_slug_punct s = false.
Proof.
  unfold is_slug. intros H.
  apply andb_true_iff in H as [H Hl]. apply andb_true_iff in H as [H Hh].
  apply andb_true_iff in H as [Hne Hall].
  apply negb_true_iff in Hl, Hh. repeat split; try assumption.
  intros ->. discriminate.
Qed.

Lemma slugify_slug value : is_slug (slugify value) = true.
Proof.
  unfold slugify.
  destruct (PyStr.is_empty (PyStr.lower (PyStr.strip value))); [reflexivity|].
  destruct (PyStr.strip_by is_slug_punct (slug_chars (PyStr.lower (PyStr.strip value))))
    as [|c r] eqn:E; [reflexivity|].
  cbn [PyStr.is_empty]. rewrite <- E. apply is_slug_intro.
  - rewrite E. discriminate.
  - unfold PyStr.strip_by. apply all_chars_rstrip_by, all_chars_lstrip_by, slug_chars_lower.
  - unfold PyStr.strip_by. apply head_rstrip_by, head_lstrip_by.
  - unfold PyStr.strip_by. apply last_rstrip_by.
Qed.

Lemma slug_fixed s : is_slug s = true → slugify s = s.
Proof.
  intros H. apply is_slug_elim in H as (Hne & Hall & Hh & Hl).
  assert (Hstrip : PyStr.strip s = s).
  { unfold PyStr.strip. apply strip_by_fixed.
    - clear Hne Hl. destruct s as [|c s]; [reflexivity|]. cbn [head_is all_chars] in *.
      apply andb_true_iff in Hall as [Hc _].
      destruct (PyStr.isspace c) eqn:E; [|reflexivity].
      rewrite (safe_space_is_punct c Hc E) in Hh. discriminate.
    - clear Hne Hh. induction s as [|c s IH]; [reflexivity|]. cbn [last_is all_chars] in *.
      apply andb_true_iff in Hall as [Hc Hs].
      destruct s as [|d r]; [|apply IH; assumption].
      destruct (PyStr.isspace c) eqn:E; [|reflexivity].
      rewrite (safe_space_is_punct c Hc E) in Hl. discriminate. }
  unfold slugify. rewrite Hstrip, (lower_safe s Hall), (slug_chars_safe s Hall).
  rewrite (strip_by_fixed _ _ Hh Hl).
  destruct s; [destruct (Hne eq_refl) | reflexivity].
Qed.

Lemma occurs_safe c s :
  (∀ a, slug_safe_char a = true → Ascii.eqb a c = false) →
  all_chars slug_safe_char s = true → occurs c s = false.
Proof.
  intros Hc. induction s as [|a s IH]; [reflexivity|]. cbn [all_chars occurs]. intros H.
  apply andb_true_iff in H as [Ha Hs]. rewrite (Hc a Ha), (IH Hs). reflexivity.
Qed.

(** A slug is one path component: it holds no separator and is neither
    [.] nor [..]. *)
Lemma slug_component s :
  is_slug s = true → occurs "/" s = false ∧ s ≠ "." ∧ s ≠ "..".
Proof.
  intros H. apply is_slug_elim in H as (Hne & Hall & Hh & Hl). split; [|split].
  - apply occurs_safe; [apply safe_not_slash | exact Hall].
  - intros ->. discriminate.
  - intros ->. discriminate.
Qed.



(** *** The names [make_cert_subdir] uses *)

Lemma pretty_N_char_digit x : PyStr.isdigit (pretty_N_char x) = true.
Proof. unfold pretty_N_char. repeat case_match; reflexivity. Qed.

Lemma pretty_N_go_digits x s :
  all_chars PyStr.isdigit s = true → all_chars PyStr.isdigit (pretty_N_go x s) = true.
Proof.
  revert s. induction (N.lt_wf_0 x) as [x _ IH]; intros s Hs.
  destruct (decide (x = 0)%N) as [->|Hx]; [rewrite pretty_N_go_0; exact Hs|].
  rewrite pretty_N_go_step by lia. apply IH.
  - apply N.div_lt; lia.
  - cbn [all_chars]. rewrite pretty_N_char_digit, Hs. reflexivity.
Qed.

Lemma pretty_N_go_nonempty x s : s ≠ EmptyString → pretty_N_go x s ≠ EmptyString.
Proof.
  revert s. induction (N.lt_wf_0 x) as [x _ IH]; intros s Hs.
  destruct (decide (x = 0)%N) as [->|Hx]; [rewrite pretty_N_go_0; exact Hs|].
  rewrite pretty_N_go_step by lia. apply IH; [apply N.div_lt; lia | discriminate].
Qed.

Lemma pretty_nat_digits (k : nat) :
  all_chars PyStr.isdigit (pretty k) = true ∧ pretty k ≠ EmptyString.
Proof.
  unfold pretty, pretty_nat, pretty, pretty_N.
  destruct (decide (N.of_nat k = 0)%N) as [_|Hk]; [split; [reflexivity | discriminate]|].
  split; [apply pretty_N_go_digits; reflexivity|].
  rewrite pretty_N_go_step by lia. apply pretty_N_go_nonempty. discriminate.
Qed.

Lemma all_chars_app p s t :
  all_chars p (s +:+ t) = all_chars p s && all_chars p t.
Proof.
  induction s as [|c s IH]; [reflexivity|].
  change (String c s +:+ t) with (String c (s +:+ t)). cbn [all_chars].
  rewrite IH, andb_assoc. reflexivity.
Qed.

Lemma head_is_app p s t : s ≠ EmptyString → head_is p (s +:+ t) = head_is p s.
Proof. destruct s as [|c s]; [congruence | reflexivity]. Qed.

Lemma last_is_app p s t : t ≠ EmptyString → last_is p (s +:+ t) = last_is p t.
Proof.
  intros Ht. induction s as [|c s IH]; [reflexivity|].
  change (String c s +:+ t) with (String c (s +:+ t)). cbn [last_is].
  destruct (s +:+ t) eqn:E; [|exact IH].
  destruct s; [change (EmptyString +:+ t) with t in E; congruence | discriminate].
Qed.

Lemma all_chars_weaken (p q : ascii → bool) s :
  (∀ c, p c = true → q c = true) → all_chars p s = true → all_chars q s = true.
Proof.
  intros Hpq. induction s as [|c s IH]; [reflexivity|]. cbn [all_chars]. intros H.
  apply andb_true_iff in H as [Hc Hs]. rewrite (Hpq c Hc), (IH Hs). reflexivity.
Qed.

Lemma last_is_all p q s :
  (∀ c, p c = true → q c = false) → all_chars p s = true → last_is q s = false.
Proof.
  intros Hpq. induction s as [|c s IH]; [reflexivity|]. cbn [all_chars last_is]. intros H.
  apply andb_true_iff in H as [Hc Hs]. destruct s; [apply Hpq, Hc | apply IH, Hs].
Qed.

Lemma digit_not_punct c : PyStr.isdigit c = true → is_slug_punct c = false.
Proof.
  intros H.
  assert (Hall : (if PyStr.isdigit c then negb (is_slug_punct c) else true) = true).
  { apply (StrFacts.ascii_forall (λ c, if PyStr.isdigit c
                                       then negb (is_slug_punct c) else true)).
    vm_compute. reflexivity. }
  rewrite H in Hall. apply negb_true_iff in Hall. exact Hall.
Qed.

Lemma suffixed_slug base_name k : is_slug base_name = true → is_slug (suffixed base_name k) = true.
Proof.
  intros H. apply is_slug_elim in H as (Hne & Hall & Hh & Hl).
  destruct (pretty_nat_digits k) as [Hd Hk]. unfold suffixed.
  assert (Htail : "-" +:+ pretty k ≠ EmptyString) by discriminate.
  apply is_slug_intro.
  - destruct base_name; [destruct (Hne eq_refl) | discriminate].
  - rewrite all_chars_app, Hall.
    change ("-" +:+ pretty k) with (String "-" (pretty k)). cbn [all_chars andb].
    change (slug_safe_char "-") with true. cbn [andb].
    apply (all_chars_weaken PyStr.isdigit); [|exact Hd].
    intros c Hc. unfold slug_safe_char. rewrite Hc, orb_true_r. reflexivity.
  - rewrite head_is_app by exact Hne. exact Hh.
  - rewrite last_is_app by exact Htail.
    change ("-" +:+ pretty k) with (String "-" (pretty k)). cbn [last_is].
    destruct (pretty k) as [|d r] eqn:E; [destruct (Hk eq_refl)|].
    rewrite <- E in *. change (last_is is_slug_punct (pretty k) = false).
    apply (last_is_all PyStr.isdigit); [apply digit_not_punct | exact Hd].
Qed.

Lemma subdir_base_name_slug X dn label : is_slug (subdir_base_name X dn label) = true.
Proof.
  unfold subdir_base_name. destruct (negb (PyStr.is_empty _)); [apply slugify_slug|].
  destruct label as [l|]; [|reflexivity].
  destruct (negb (PyStr.is_empty l)); [apply slugify_slug | reflexivity].
Qed.

Lemma create_dir_Ok X candidate w p w' :
  create_dir X candidate w = (Ok p, w') →
  p = candidate ∧ mkdir X (interference X (fs w)) candidate = inr (fs w').
Proof.
  unfold create_dir. destruct (mkdir X _ candidate) as [k|files'].
  - destruct (is_OSError k); discriminate.
  - intros H. injection H as <- <-. split; reflexivity.
Qed.

Lemma suffix_loop_Ok X fuel base name counter w p w' :
  suffix_loop X fuel base name counter w = (Ok p, w') →
  ∃ k, (counter ≤ k)%nat ∧ p = joinpath base (suffixed name k)
       ∧ exists_ (fs w) p = false
       ∧ mkdir X (interference X (fs w)) p = inr (fs w').
Proof.
  revert counter. induction fuel as [|fuel IH]; intros counter; cbn [suffix_loop];
    [discriminate|].
  destruct (exists_ (fs w) (joinpath base (suffixed name counter))) eqn:E; cbn [negb].
  - intros H. destruct (IH _ H) as (k & Hk & Hp). exists k. split; [lia | exact Hp].
  - intros H. apply create_dir_Ok in H as [-> Hm]. exists counter. auto.
Qed.



End SlugFacts.

(** ** Loading and merging: the rest of [config.py] *)

Module LoadFacts.
Import Config.

(** *** The flat shape *)

Lemma dn_key_not_config_key key : is_dn_key key = true → is_config_key key = false.
Proof.
  unfold is_dn_key, DN_KEYS. intros H. apply bool_decide_eq_true in H.
  repeat (apply elem_of_cons in H as [->|H]; [vm_compute; reflexivity|]).
  apply elem_of_nil in H. destruct H.
Qed.

Lemma extract_flat_lookup (data : gmap string value) :
  (∀ key, (_extract_flat_config data).1 !! key
          = if is_dn_key key then data !! key else None)
  ∧ (∀ key, (_extract_flat_config data).2 !! key
            = if is_config_key key then data !! key else None).
Proof.
  unfold _extract_flat_config.
  apply (map_fold_weak_ind
           (λ (r : gmap string value * gmap string value) (m : gmap string value),
              (∀ key, r.1 !! key = if is_dn_key key then m !! key else None)
              ∧ (∀ key, r.2 !! key = if is_config_key key then m !! key else None))).
  - split; intros key; cbn [fst snd]; rewrite lookup_empty; case_match; reflexivity.
  - intros i x m [dn cfg] Hi [Hdn Hcfg]. cbn [fst snd] in *.
    fold (is_dn_key i). destruct (is_dn_key i) eqn:Edn.
    + pose proof (dn_key_not_config_key i Edn) as Ecfg. cbn [fst snd]. split; intros key.
      * destruct (decide (i = key)) as [<-|Hne].
        -- rewrite !lookup_insert_eq, Edn. reflexivity.
        -- rewrite !lookup_insert_ne by exact Hne. apply Hdn.
      * destruct (decide (i = key)) as [<-|Hne].
        -- rewrite Hcfg, Ecfg. reflexivity.
        -- rewrite lookup_insert_ne by exact Hne. apply Hcfg.
    + fold (is_config_key i). destruct (is_config_key i) eqn:Ecfg; cbn [fst snd];
        split; intros key.
      * destruct (decide (i = key)) as [<-|Hne].
        -- rewrite Hdn, Edn. reflexivity.
        -- rewrite lookup_insert_ne by exact Hne. apply Hdn.
      * destruct (decide (i = key)) as [<-|Hne].
        -- rewrite !lookup_insert_eq, Ecfg. reflexivity.
        -- rewrite !lookup_insert_ne by exact Hne. apply Hcfg.
      * destruct (decide (i = key)) as [<-|Hne].
        -- rewrite Hdn, Edn. reflexivity.
        -- rewrite lookup_insert_ne by exact Hne. apply Hdn.
      * destruct (decide (i = key)) as [<-|Hne].
        -- rewrite Hcfg, Ecfg. reflexivity.
        -- rewrite lookup_insert_ne by exact Hne. apply Hcfg.
Qed.

Lemma extract_flat_ext (data data' : gmap string value) :
  (∀ key, is_dn_key key || is_config_key key = true → data' !! key = data !! key) →
  _extract_flat_config data' = _extract_flat_config data.
Proof.
  intros H.
  destruct (extract_flat_lookup data) as [Hdn Hcfg].
  destruct (extract_flat_lookup data') as [Hdn' Hcfg'].
  destruct (_extract_flat_config data) as [dn cfg].
  destruct (_extract_flat_config data') as [dn' cfg']. cbn [fst snd] in *.
  f_equal; apply map_eq; intros key.
  - rewrite Hdn, Hdn'. destruct (is_dn_key key) eqn:E; [|reflexivity].
    apply H. rewrite E. reflexivity.
  - rewrite Hcfg, Hcfg'. destruct (is_config_key key) eqn:E; [|reflexivity].
    apply H. rewrite E. apply orb_true_r.
Qed.

Lemma flat_shape X (data : gmap string value) :
  "dn" ∉ dom data → "config" ∉ dom data →
  split_config X data
  = (cfg ← _coerce_config_types X (_extract_flat_config data).2;
     Ok ((_extract_flat_config data).1, cfg)).
Proof.
  intros Hdn Hcfg. unfold split_config.
  rewrite (bool_decide_eq_false_2 _ Hdn), (bool_decide_eq_false_2 _ Hcfg). cbn [orb].
  destruct (_extract_flat_config data) as [dn cfg]. reflexivity.
Qed.

(** X4.  In a document without a [dn] and without a [config] key, the
    fields at the top level are routed by their names: the seven DN keys
    make up the DN, the keys of [CONFIG_DEFAULT] and [passphrase] make up
    the CONFIG, no key belongs to both, and every other key is dropped,
    so that two such documents that agree on the known keys load alike. *)
Theorem flat_config_routing (X : Externals) (data : gmap string value) :
  "dn" ∉ dom data → "config" ∉ dom data →
  ∃ dn cfg,
    _extract_flat_config data = (dn, cfg)
    ∧ (∀ key, dn !! key = if is_dn_key key then data !! key else None)
    ∧ (∀ key, cfg !! key = if is_config_key key then data !! key else None)
    ∧ (∀ key, is_dn_key key && is_config_key key = false)
    ∧ split_config X data = (cfg' ← _coerce_config_types X cfg; Ok (dn, cfg'))
    ∧ (∀ data' : gmap string value,
         "dn" ∉ dom data' → "config" ∉ dom data' →
         (∀ key, is_dn_key key || is_config_key key = true → data' !! key = data !! key) →
         split_config X data' = split_config X data).
Proof.
  intros Hdn Hcfg. destruct (extract_flat_lookup data) as [Hl1 Hl2].
  pose proof (flat_shape X data Hdn Hcfg) as Hs.
  destruct (_extract_flat_config data) as [dn cfg] eqn:E. cbn [fst snd] in *.
  exists dn, cfg. split; [reflexivity|]. split; [exact Hl1|]. split; [exact Hl2|].
  split; [|split; [exact Hs|]].
  - intros key. destruct (is_dn_key key) eqn:Ek; [|reflexivity].
    rewrite (dn_key_not_config_key key Ek). reflexivity.
  - intros data' Hdn' Hcfg' Hagree.
    rewrite (flat_shape X data' Hdn' Hcfg'), (extract_flat_ext data data' Hagree), E, Hs.
    reflexivity.
Qed.

Lemma flat_config_routing_witness :
  split_config Sample.externals
    (list_to_map [ ("commonName", VStr "a.test"); ("valid_days", VStr "30");
                   ("passphrase", VStr "secret"); ("comment", VStr "dropped") ])
  = Ok ({[ "commonName" := VStr "a.test" ]},
        <["passphrase" := VStr "secret"]> {[ "valid_days" := VInt 30 ]}).
Proof.
  destruct (flat_config_routing Sample.externals
              (list_to_map [ ("commonName", VStr "a.test"); ("valid_days", VStr "30");
                             ("passphrase", VStr "secret"); ("comment", VStr "dropped") ]))
    as (dn & cfg & He & _ & _ & _ & Hs & _).
  - vm_compute. discriminate.
  - vm_compute. discriminate.
  - rewrite Hs. assert (Hd : (dn, cfg) = ({[ "commonName" := VStr "a.test" ]},
                   <["passphrase" := VStr "secret"]> {[ "valid_days" := VStr "30" ]})).
    { rewrite <- He. reflexivity. }
    injection Hd as -> ->. reflexivity.
Defined.

(** *** Coercion *)

Lemma coerce_bool_Raise v e : _coerce_bool v = Raise e → is_ConfigError e = true.
Proof.
  unfold _coerce_bool. intros H. repeat case_match; try discriminate;
    injection H as <-; reflexivity.
Qed.

Lemma coerce_key_Ok f key (cfg cfg' : gmap string value) :
  coerce_key f key cfg = Ok cfg' →
  (cfg !! key = None ∧ cfg' = cfg)
  ∨ (∃ v v', cfg !! key = Some v ∧ f v = Ok v' ∧ cfg' = <[key := v']> cfg).
Proof.
  unfold coerce_key. destruct (cfg !! key) as [v|].
  - destruct (f v) as [v'| |] eqn:E; try discriminate. intros H. injection H as <-.
    right. eauto.
  - intros H. injection H as <-. left. auto.
Qed.

Lemma coerce_key_Raise f key (cfg : gmap string value) e :
  coerce_key f key cfg = Raise e → ∃ v, cfg !! key = Some v ∧ f v = Raise e.
Proof.
  unfold coerce_key. destruct (cfg !! key) as [v|]; [|discriminate].
  destruct (f v) as [v'| |] eqn:E; try discriminate. intros H. injection H as <-. eauto.
Qed.

Lemma coerce_key_lookup f key (cfg cfg' : gmap string value) key' :
  coerce_key f key cfg = Ok cfg' → key' ≠ key → cfg' !! key' = cfg !! key'.
Proof.
  intros H Hne. apply coerce_key_Ok in H as [[_ ->] | (v & v' & _ & _ & ->)];
    [reflexivity|]. apply lookup_insert_ne. congruence.
Qed.

Lemma coerce_key_dom f key (cfg cfg' : gmap string value) :
  coerce_key f key cfg = Ok cfg' → dom cfg' = dom cfg.
Proof.
  intros H. apply coerce_key_Ok in H as [[_ ->] | (v & v' & Hv & _ & ->)];
    [reflexivity|]. rewrite dom_insert_L.
  apply subseteq_union_1_L, singleton_subseteq_l, elem_of_dom. eauto.
Qed.

Lemma coerce_key_typed f key (cfg cfg' : gmap string value) v :
  coerce_key f key cfg = Ok cfg' → cfg' !! key = Some v → ∃ v0, f v0 = Ok v.
Proof.
  intros H Hv. apply coerce_key_Ok in H as [[Hn ->] | (v0 & v' & _ & Hf & ->)];
    [congruence|]. rewrite lookup_insert_eq in Hv. injection Hv as <-. eauto.
Qed.

Lemma int_typed X v : (∃ v0, VInt <$> py_int X v0 = Ok v) → ∃ n, v = VInt n.
Proof.
  intros [v0 H]. destruct (py_int X v0) as [n| |]; [|discriminate H..].
  injection H as <-. eauto.
Qed.

Lemma bool_typed v : (∃ v0, VBool <$> _coerce_bool v0 = Ok v) → ∃ b, v = VBool b.
Proof.
  intros [v0 H]. destruct (_coerce_bool v0) as [b| |]; [|discriminate H..].
  injection H as <-. eauto.
Qed.

Lemma coerce_config_types_Ok X cfg cfg' :
  _coerce_config_types X cfg = Ok cfg' →
  ∃ cfg1 cfg2,
    coerce_key (λ v, VInt <$> py_int X v) "private_key_bits" cfg = Ok cfg1
    ∧ coerce_key (λ v, VInt <$> py_int X v) "valid_days" cfg1 = Ok cfg2
    ∧ coerce_key (λ v, VBool <$> _coerce_bool v) "encrypt_key" cfg2 = Ok cfg'.
Proof.
  unfold _coerce_config_types. intros H.
  destruct (coerce_key _ "private_key_bits" cfg) as [cfg1| |] eqn:E1; [|discriminate H..].
  rewrite ConfigFacts.bind_Ok in H.
  destruct (coerce_key _ "valid_days" cfg1) as [cfg2| |] eqn:E2; [|discriminate H..].
  rewrite ConfigFacts.bind_Ok in H.
  destruct (coerce_key _ "encrypt_key" cfg2) as [cfg3| |] eqn:E3; [|discriminate H..].
  rewrite ConfigFacts.bind_Ok in H. injection H as <-. eauto.
Qed.

Lemma coerced_fixed X cfg : coerced cfg → _coerce_config_types X cfg = Ok cfg.
Proof.
  intros (Hb & Hd & He). unfold _coerce_config_types, coerce_key.
  destruct (cfg !! "private_key_bits") as [v|] eqn:E1.
  - destruct (Hb v eq_refl) as [n ->]. cbn [py_int fmap result_fmap].
    rewrite ConfigFacts.bind_Ok, (insert_id _ _ _ E1), ConfigFacts.bind_Ok.
    destruct (cfg !! "valid_days") as [v|] eqn:E2.
    + destruct (Hd v eq_refl) as [d ->]. cbn [py_int fmap result_fmap].
      rewrite ConfigFacts.bind_Ok, (insert_id _ _ _ E2), ConfigFacts.bind_Ok.
      destruct (cfg !! "encrypt_key") as [v|] eqn:E3; [|reflexivity].
      destruct (He v eq_refl) as [b ->]. cbn [_coerce_bool fmap result_fmap].
      rewrite ConfigFacts.bind_Ok, (insert_id _ _ _ E3). reflexivity.
    + rewrite ConfigFacts.bind_Ok.
      destruct (cfg !! "encrypt_key") as [v|] eqn:E3; [|reflexivity].
      destruct (He v eq_refl) as [b ->]. cbn [_coerce_bool fmap result_fmap].
      rewrite ConfigFacts.bind_Ok, (insert_id _ _ _ E3). reflexivity.
  - rewrite ConfigFacts.bind_Ok.
    destruct (cfg !! "valid_days") as [v|] eqn:E2.
    + destruct (Hd v eq_refl) as [d ->]. cbn [py_int fmap result_fmap].
      rewrite ConfigFacts.bind_Ok, (insert_id _ _ _ E2), ConfigFacts.bind_Ok.
      destruct (cfg !! "encrypt_key") as [v|] eqn:E3; [|reflexivity].
      destruct (He v eq_refl) as [b ->]. cbn [_coerce_bool fmap result_fmap].
      rewrite ConfigFacts.bind_Ok, (insert_id _ _ _ E3). reflexivity.
    + rewrite ConfigFacts.bind_Ok.
      destruct (cfg !! "encrypt_key") as [v|] eqn:E3; [|reflexivity].
      destruct (He v eq_refl) as [b ->]. cbn [_coerce_bool fmap result_fmap].
      rewrite ConfigFacts.bind_Ok, (insert_id _ _ _ E3). reflexivity.
Qed.

Lemma coerce_config_types_coerced X cfg cfg' :
  _coerce_config_types X cfg = Ok cfg' → coerced cfg'.
Proof.
  intros H. apply coerce_config_types_Ok in H as (cfg1 & cfg2 & H1 & H2 & H3).
  split; [|split]; intros v Hv.
  - rewrite (coerce_key_lookup _ _ _ _ _ H3), (coerce_key_lookup _ _ _ _ _ H2) in Hv
      by discriminate.
    apply (int_typed X), (coerce_key_typed _ _ _ _ _ H1 Hv).
  - rewrite (coerce_key_lookup _ _ _ _ _ H3) in Hv by discriminate.
    apply (int_typed X), (coerce_key_typed _ _ _ _ _ H2 Hv).
  - apply bool_typed, (coerce_key_typed _ _ _ _ _ H3 Hv).
Qed.

(** X5.  What [_coerce_config_types] returns is in normal form: the two
    integer fields hold integers and [encrypt_key] holds a boolean
    wherever they are present, no key is added or removed, every other
    field is as it was, and coercing the result again changes nothing.
    A configuration that is in normal form already is returned as it
    is. *)
Theorem coerce_config_types_normal_form (X : Externals) (cfg cfg' : gmap string value) :
  _coerce_config_types X cfg = Ok cfg' →
  coerced cfg'
  ∧ dom cfg' = dom cfg
  ∧ (∀ key, key ∉ ["private_key_bits"; "valid_days"; "encrypt_key"] →
            cfg' !! key = cfg !! key)
  ∧ _coerce_config_types X cfg' = Ok cfg'
  ∧ (coerced cfg → cfg' = cfg).
Proof.
  intros H. pose proof (coerce_config_types_coerced X cfg cfg' H) as Hc.
  split; [exact Hc|].
  destruct (coerce_config_types_Ok X cfg cfg' H) as (cfg1 & cfg2 & H1 & H2 & H3).
  split; [|split; [|split]].
  - rewrite (coerce_key_dom _ _ _ _ H3), (coerce_key_dom _ _ _ _ H2).
    apply (coerce_key_dom _ _ _ _ H1).
  - intros key Hkey.
    rewrite (coerce_key_lookup _ _ _ _ _ H3), (coerce_key_lookup _ _ _ _ _ H2),
      (coerce_key_lookup _ _ _ _ _ H1); [reflexivity|..]; intros ->; apply Hkey; set_solver.
  - apply coerced_fixed, Hc.
  - intros Hcfg. rewrite (coerced_fixed X cfg Hcfg) in H. injection H as <-. reflexivity.
Qed.

Lemma coerce_config_types_normal_form_witness :
  _coerce_config_types Sample.externals
    (list_to_map [ ("valid_days", VStr " 30 "); ("encrypt_key", VStr "Yes");
                   ("digest_alg", VStr "sha256") ])
  = Ok (list_to_map [ ("valid_days", VInt 30); ("encrypt_key", VBool true);
                      ("digest_alg", VStr "sha256") ])
  ∧ _coerce_config_types Sample.externals
      (list_to_map [ ("valid_days", VInt 30); ("encrypt_key", VBool true);
                     ("digest_alg", VStr "sha256") ])
    = Ok (list_to_map [ ("valid_days", VInt 30); ("encrypt_key", VBool true);
                        ("digest_alg", VStr "sha256") ]).
Proof.
  assert (H : _coerce_config_types Sample.externals
                (list_to_map [ ("valid_days", VStr " 30 "); ("encrypt_key", VStr "Yes");
                               ("digest_alg", VStr "sha256") ])
              = Ok (list_to_map [ ("valid_days", VInt 30); ("encrypt_key", VBool true);
                                  ("digest_alg", VStr "sha256") ]))
    by reflexivity.
  split; [exact H|].
  exact (proj1 (proj2 (proj2 (proj2
           (coerce_config_types_normal_form Sample.externals _ _ H))))).
Defined.

(** *** What loading can raise *)

Lemma coerce_config_types_Raise X cfg e :
  _coerce_config_types X cfg = Raise e →
  is_ConfigError e = true ∨ ∃ k, k ∈ int_failure_kinds ∧ e = Builtin k.
Proof.
  assert (Hint : ∀ v e, VInt <$> py_int X v = Raise e →
                        ∃ k, k ∈ int_failure_kinds ∧ e = Builtin k).
  { intros v e0 H. destruct (ConfigFacts.py_int_cases X v) as [[n Hn] | (k & Hk & Hr)].
    - rewrite Hn in H. discriminate.
    - rewrite Hr in H. injection H as <-. eauto. }
  unfold _coerce_config_types. intros H.
  destruct (coerce_key _ "private_key_bits" cfg) as [cfg1|e1|] eqn:E1; try discriminate.
  2:{ injection H as <-. apply coerce_key_Raise in E1 as (v & _ & Hv). right. eauto. }
  rewrite ConfigFacts.bind_Ok in H.
  destruct (coerce_key _ "valid_days" cfg1) as [cfg2|e2|] eqn:E2; try discriminate.
  2:{ injection H as <-. apply coerce_key_Raise in E2 as (v & _ & Hv). right. eauto. }
  rewrite ConfigFacts.bind_Ok in H.
  destruct (coerce_key _ "encrypt_key" cfg2) as [cfg3|e3|] eqn:E3; try discriminate.
  injection H as <-. apply coerce_key_Raise in E3 as (v & _ & Hv). left.
  destruct (_coerce_bool v) as [b|e'|] eqn:Eb; try discriminate.
  injection Hv as <-. apply (coerce_bool_Raise v), Eb.
Qed.

Lemma split_config_Raise X data e :
  split_config X data = Raise e →
  is_ConfigError e = true ∨ ∃ k, k ∈ int_failure_kinds ∧ e = Builtin k.
Proof.
  unfold split_config. intros H.
  match type of H with context [let '(_, _) := ?p in _] => destruct p as [dn cfg] end.
  destruct (_coerce_config_types X cfg) as [cfg'|e'|] eqn:E; try discriminate.
  injection H as <-. apply (coerce_config_types_Raise X cfg), E.
Qed.

Lemma read_json_file_Raise X files path e :
  _read_json_file X files path = Raise e →
  is_ConfigError e = true ∨ e = Builtin UnicodeDecodeError.
Proof.
  unfold _read_json_file, read_text. intros H.
  destruct (files !! path) as [[data|]|].
  - destruct (utf8_decode X data) as [raw|].
    + destruct (json_loads X raw); [discriminate|]. injection H as <-. left. reflexivity.
    + injection H as <-. right. reflexivity.
  - injection H as <-. left. reflexivity.
  - injection H as <-. left. reflexivity.
Qed.



(** *** Merging *)

Lemma value_str_dec (v : value) : (∃ s, v = VStr s) ∨ (∀ s, v ≠ VStr s).
Proof. destruct v; try (right; discriminate). left. eauto. Qed.

Lemma setting_default json_cfg key v :
  CONFIG_DEFAULT !! key = Some v → ∃ v', setting json_cfg key = Some v'.
Proof. intros H. unfold setting. destruct (json_cfg ≫= _); [eauto|]. rewrite H. eauto. Qed.

Lemma merge_Ok X json_dn json_cfg dn cfg :
  merge_settings_json X json_dn json_cfg = Ok (dn, cfg) →
  ∃ vb vd bits days s,
    setting json_cfg "private_key_bits" = Some vb ∧ py_int X vb = Ok bits
    ∧ setting json_cfg "valid_days" = Some vd ∧ py_int X vd = Ok days
    ∧ setting json_cfg "private_key_type" = Some (VStr s)
    ∧ eq_ignore_case s "RSA" = true
    ∧ dn = overlay ∅ json_dn ∧ validate_dn X dn = Ok ()
    ∧ cfg = merged json_cfg bits days.
Proof.
  intros H.
  destruct (setting_default json_cfg "private_key_bits" (VInt 2048) eq_refl) as [vb Hb].
  destruct (setting_default json_cfg "valid_days" (VInt 365) eq_refl) as [vd Hd].
  destruct (setting_default json_cfg "private_key_type" (VStr "RSA") eq_refl) as [kt Hk].
  destruct (py_int X vb) as [bits|e1|] eqn:Eb.
  2:{ unfold merge_settings_json, subscript in H.
      rewrite ConfigFacts.overlay_setting, Hb, ConfigFacts.bind_Ok, Eb in H. discriminate. }
  2:{ unfold merge_settings_json, subscript in H.
      rewrite ConfigFacts.overlay_setting, Hb, ConfigFacts.bind_Ok, Eb in H. discriminate. }
  destruct (py_int X vd) as [days|e2|] eqn:Ed.
  2:{ unfold merge_settings_json, subscript in H.
      rewrite ConfigFacts.overlay_setting, Hb, ConfigFacts.bind_Ok, Eb,
        ConfigFacts.bind_Ok in H.
      rewrite lookup_insert_ne in H by discriminate.
      rewrite ConfigFacts.overlay_setting, Hd, ConfigFacts.bind_Ok, Ed in H. discriminate. }
  2:{ unfold merge_settings_json, subscript in H.
      rewrite ConfigFacts.overlay_setting, Hb, ConfigFacts.bind_Ok, Eb,
        ConfigFacts.bind_Ok in H.
      rewrite lookup_insert_ne in H by discriminate.
      rewrite ConfigFacts.overlay_setting, Hd, ConfigFacts.bind_Ok, Ed in H. discriminate. }
  destruct (value_str_dec kt) as [[s ->] | Hns].
  - rewrite (ConfigFacts.merge_key_type_string X json_dn json_cfg vb vd bits days s
               Hb Eb Hd Ed Hk) in H.
    destruct (eq_ignore_case s "RSA") eqn:Es; [|discriminate].
    destruct (validate_dn X (overlay ∅ json_dn)) as [[]| |] eqn:Ev; try discriminate.
    rewrite ConfigFacts.bind_Ok in H. injection H as <- <-.
    exists vb, vd, bits, days, s. repeat split; auto.
  - rewrite (ConfigFacts.merge_key_type_other X json_dn json_cfg vb vd bits days kt
               Hb Eb Hd Ed Hk Hns) in H. discriminate.
Qed.

Lemma merged_lookup json_cfg bits days key :
  key ≠ "private_key_bits" → key ≠ "valid_days" →
  merged json_cfg bits days !! key = setting json_cfg key.
Proof.
  intros H1 H2. unfold merged. rewrite !lookup_insert_ne by congruence.
  apply ConfigFacts.overlay_setting.
Qed.

Lemma overlay_empty json_dn : overlay ∅ json_dn = default ∅ json_dn.
Proof.
  unfold overlay. destruct json_dn as [m|]; [|reflexivity]. cbn [default from_option id].
  destruct (truthy (VDict m)) eqn:E.
  - unfold dict_update. apply (right_id_L ∅ (∪)).
  - cbn [truthy] in E. apply negb_false_iff, Nat.eqb_eq, map_size_empty_iff in E.
    subst m. reflexivity.
Qed.



(** X8.  Once a document has been loaded, merging it cannot fail in
    [int]: the integer fields were converted by the load, and the
    defaults are integers.  What [merge_settings_json] raises on a
    loaded configuration is a [ConfigError], or the [AttributeError] of
    a key type that is not a string. *)
Theorem merge_after_load (X : Externals) (data dn cfg : gmap string value) :
  split_config X data = Ok (dn, cfg) →
  coerced cfg
  ∧ merge_settings_json X (Some dn) (Some cfg) ≠ OutOfFuel
  ∧ (∀ e, merge_settings_json X (Some dn) (Some cfg) = Raise e →
          is_ConfigError e = true
          ∨ (e = Builtin AttributeError
             ∧ ∃ v, cfg !! "private_key_type" = Some v ∧ ∀ s, v ≠ VStr s))
  ∧ (∀ dn' cfg', merge_settings_json X (Some dn) (Some cfg) = Ok (dn', cfg') →
       dn' = dn
       ∧ (∀ key, is_Some (cfg !! key) → cfg' !! key = cfg !! key)).
Proof.
  intros Hload.
  assert (Hc : coerced cfg).
  { unfold split_config in Hload.
    match type of Hload with context [let '(_, _) := ?p in _] => destruct p as [dn0 cfg0] end.
    destruct (_coerce_config_types X cfg0) as [c| |] eqn:E; try discriminate.
    injection Hload as <- <-. apply (coerce_config_types_coerced X cfg0), E. }
  split; [exact Hc|]. split; [apply CliFacts.merge_settings_json_steady|].
  destruct Hc as (Hb & Hd & _).
  assert (Hbits : ∃ bits, setting (Some cfg) "private_key_bits" = Some (VInt bits)).
  { unfold setting. cbn [mbind option_bind].
    destruct (cfg !! "private_key_bits") as [v|] eqn:E; [|eexists; reflexivity].
    destruct (Hb v eq_refl) as [n ->]. eauto. }
  assert (Hdays : ∃ days, setting (Some cfg) "valid_days" = Some (VInt days)).
  { unfold setting. cbn [mbind option_bind].
    destruct (cfg !! "valid_days") as [v|] eqn:E; [|eexists; reflexivity].
    destruct (Hd v eq_refl) as [n ->]. eauto. }
  destruct Hbits as [bits Hbits], Hdays as [days Hdays].
  destruct (setting_default (Some cfg) "private_key_type" (VStr "RSA") eq_refl) as [kt Hk].
  split.
  - intros e H. destruct (value_str_dec kt) as [[s ->] | Hns].
    + rewrite (ConfigFacts.merge_key_type_string X _ _ _ _ bits days s
                 Hbits eq_refl Hdays eq_refl Hk) in H.
      left. destruct (eq_ignore_case s "RSA"); [|injection H as <-; reflexivity].
      destruct (validate_dn X _) as [[]|e'|] eqn:Ev; try discriminate.
      injection H as <-. unfold validate_dn in Ev.
      repeat case_match; try discriminate; injection Ev as <-; reflexivity.
    + pose proof Hns as Hkt.
      rewrite (ConfigFacts.merge_key_type_other X _ _ _ _ bits days kt
                 Hbits eq_refl Hdays eq_refl Hk Hkt) in H.
      injection H as <-. right. split; [reflexivity|]. exists kt. split; [|exact Hkt].
      unfold setting in Hk. cbn [mbind option_bind] in Hk.
      destruct (cfg !! "private_key_type") as [v|]; [exact Hk|].
      change (CONFIG_DEFAULT !! "private_key_type") with (Some (VStr "RSA")) in Hk.
      injection Hk as <-. destruct (Hkt "RSA" eq_refl).
  - intros dn' cfg' H.
    destruct (merge_Ok _ _ _ _ _ H)
      as (vb & vd & bits' & days' & s & Hb' & Eb & Hd' & Ed & _ & _ & -> & _ & ->).
    rewrite Hbits in Hb'. injection Hb' as <-. injection Eb as <-.
    rewrite Hdays in Hd'. injection Hd' as <-. injection Ed as <-.
    split; [apply overlay_empty|]. intros key [v Hkey]. unfold merged.
    assert (Hset : setting (Some cfg) key = Some v).
    { unfold setting. cbn [mbind option_bind]. rewrite Hkey. reflexivity. }
    destruct (decide (key = "valid_days")) as [->|H2].
    { rewrite lookup_insert_eq, Hkey. rewrite Hset in Hdays. congruence. }
    rewrite lookup_insert_ne by congruence.
    destruct (decide (key = "private_key_bits")) as [->|H1].
    { rewrite lookup_insert_eq, Hkey. rewrite Hset in Hbits. congruence. }
    rewrite lookup_insert_ne by congruence.
    rewrite ConfigFacts.overlay_setting, Hset, Hkey. reflexivity.
Qed.

Lemma merge_after_load_witness :
  ∃ dn cfg,
    split_config Sample.externals
      (list_to_map [ ("commonName", VStr "a.test"); ("valid_days", VStr "30") ])
    = Ok (dn, cfg)
    ∧ coerced cfg
    ∧ merge_settings_json Sample.externals (Some dn) (Some cfg) ≠ OutOfFuel.
Proof.
  exists {[ "commonName" := VStr "a.test" ]}, {[ "valid_days" := VInt 30 ]}.
  assert (H : split_config Sample.externals
                (list_to_map [ ("commonName", VStr "a.test"); ("valid_days", VStr "30") ])
              = Ok ({[ "commonName" := VStr "a.test" ]}, {[ "valid_days" := VInt 30 ]}))
    by reflexivity.
  split; [exact H|].
  destruct (merge_after_load Sample.externals _ _ _ H) as (Hc & Hr & _).
  split; assumption.
Defined.

End LoadFacts.

(** ** Names, components and their errors: the rest of [certs.py] *)

Module GenerationFacts.
Import Certs.

(** *** Sequencing *)

Lemma M_bind_Ok_inv {A B} (m : M A) (k : A → M B) w b w' :
  (m ≫= k) w = (Ok b, w') → ∃ a w1, m w = (Ok a, w1) ∧ k a w1 = (Ok b, w').
Proof.
  unfold mbind, M_bind. destruct (m w) as [[a|e|] w1]; [eauto | discriminate..].
Qed.

Lemma M_bind_Raise_inv {A B} (m : M A) (k : A → M B) w e w' :
  (m ≫= k) w = (Raise e, w') →
  m w = (Raise e, w') ∨ ∃ a w1, m w = (Ok a, w1) ∧ k a w1 = (Raise e, w').
Proof.
  unfold mbind, M_bind. destruct (m w) as [[a|e0|] w1]; [eauto | | discriminate].
  intros H. injection H as <- <-. left. reflexivity.
Qed.

Lemma lift_Ok_inv {A} (r : result A) w a w' : lift r w = (Ok a, w') → r = Ok a ∧ w' = w.
Proof. unfold lift. intros H. injection H as -> <-. auto. Qed.

Lemma lift_Raise_inv {A} (r : result A) w e w' :
  lift r w = (Raise e, w') → r = Raise e ∧ w' = w.
Proof. unfold lift. intros H. injection H as -> <-. auto. Qed.

Lemma subscript_Ok_inv (d : gmap string value) k v : subscript d k = Ok v → d !! k = Some v.
Proof. unfold subscript. destruct (d !! k); [|discriminate]. intros H. injection H as <-. reflexivity. Qed.

Lemma subscript_Raise_inv (d : gmap string value) k e :
  subscript d k = Raise e → d !! k = None ∧ e = Builtin KeyError.
Proof. unfold subscript. destruct (d !! k); [discriminate|]. intros H. injection H as <-. auto. Qed.

Lemma called_called l1 l2 w : called l2 (called l1 w) = called (l1 ++ l2) w.
Proof. unfold called. cbn [fs stdout stderr lib_calls]. rewrite app_assoc. reflexivity. Qed.

(** *** Calls that print nothing *)

Lemma silent_bind {A B} (m : M A) (k : A → M B) :
  silent m → (∀ a, silent (k a)) → silent (m ≫= k).
Proof.
  intros Hm Hk w. unfold mbind, M_bind. destruct (Hm w) as [Ho He].
  destruct (m w) as [[a|e|] w']; cbn [fst snd] in *; [|auto..].
  destruct (Hk a w') as [Ho' He']. split; congruence.
Qed.

Lemma silent_try {A} (m : M A) (h : exn → M A) :
  silent m → (∀ e, silent (h e)) → silent (try_except m h).
Proof.
  intros Hm Hh w. unfold try_except. destruct (Hm w) as [Ho He].
  destruct (m w) as [[a|e|] w']; cbn [fst snd] in *; [auto| |auto].
  destruct (Hh e w') as [Ho' He']. split; congruence.
Qed.

Lemma silent_lift {A} (r : result A) : silent (lift r).
Proof. intros w. split; reflexivity. Qed.

Lemma silent_raise {A} e : silent (@raise A e).
Proof. intros w. split; reflexivity. Qed.

Lemma silent_mret {A} (a : A) : silent (mret a).
Proof. intros w. split; reflexivity. Qed.

Lemma silent_call c : silent (call c).
Proof. intros w. split; reflexivity. Qed.

Lemma silent_of_lib {A} (r : py_kind + A) : silent (of_lib r).
Proof. destruct r; [apply silent_raise | apply silent_mret]. Qed.

Lemma silent_check_lib r : silent (check_lib r).
Proof. destruct r; [apply silent_raise | apply silent_mret]. Qed.

Lemma silent_with_files {A} (f : gmap Path node → result A) : silent (with_files f).
Proof. intros w. split; reflexivity. Qed.

Lemma silent_reraise_or_wrap {A} prefix e : silent (@reraise_or_wrap A prefix e).
Proof. unfold reraise_or_wrap. destruct (is_CertToolError e); apply silent_raise. Qed.

Create HintDb silent.

#[local] Hint Resolve silent_lift silent_raise silent_mret silent_call silent_of_lib
  silent_check_lib silent_with_files silent_reraise_or_wrap : silent.

Ltac silent_step :=
  first [ apply silent_bind; [|intros ?]
        | apply silent_try; [|intros ?]
        | solve [auto with silent] ].

Lemma create_cert_components_silent X dn cfg : silent (create_cert_components X dn cfg).
Proof.
  unfold create_cert_components, generate_key_pair, generate_csr,
    generate_self_signed_cert.
  repeat silent_step.
  destruct (opt_truthy _); repeat silent_step.
Qed.

Lemma serialize_cert_components_silent X comps encrypt_key passphrase :
  silent (serialize_cert_components X comps encrypt_key passphrase).
Proof.
  unfold serialize_cert_components. apply silent_bind.
  { repeat case_match; auto with silent. }
  intros enc. repeat silent_step.
Qed.

(** *** The subject name *)

Lemma name_attributes_Ok X dn fields attrs :
  name_attributes X dn fields = Ok attrs →
  sublist (attr_oid <$> attrs) fields.*2
  ∧ (∀ oid v, {| attr_oid := oid; attr_value := v |} ∈ attrs
              ↔ ∃ key, (key, oid) ∈ fields ∧ dn !! key = Some v ∧ truthy v = true).
Proof.
  revert attrs. induction fields as [|[key oid] rest IH]; intros attrs H.
  - injection H as <-. split; [constructor|]. intros oid v. split.
    + intros Hin. apply elem_of_nil in Hin. destruct Hin.
    + intros (k & Hin & _). apply elem_of_nil in Hin. destruct Hin.
  - cbn [name_attributes] in H.
    destruct (truthy (default VNone (dn !! key))) eqn:Et.
    + destruct (name_attribute_error X oid _); [discriminate|].
      destruct (name_attributes X dn rest) as [attrs0| |]; [|discriminate..].
      rewrite ConfigFacts.bind_Ok in H. injection H as <-.
      destruct (IH attrs0 eq_refl) as [Hsub Hmem].
      destruct (dn !! key) as [v0|] eqn:Ek; [|discriminate]. cbn [default from_option id] in *.
      split; [cbn; apply sublist_skip, Hsub|]. intros oid' v. rewrite elem_of_cons, Hmem.
      split.
      * intros [Heq | (k & Hin & Hk)].
        -- injection Heq as -> ->. exists key. split; [left | auto].
        -- exists k. split; [right; exact Hin | exact Hk].
      * intros (k & Hin & Hk & Htv). apply elem_of_cons in Hin as [Heq | Hin].
        -- injection Heq as -> ->. left. rewrite Ek in Hk. injection Hk as ->. reflexivity.
        -- right. eauto.
    + destruct (IH attrs H) as [Hsub Hmem]. split; [cbn; apply sublist_cons, Hsub|].
      intros oid' v. rewrite Hmem. split.
      * intros (k & Hin & Hk). exists k. split; [right; exact Hin | exact Hk].
      * intros (k & Hin & Hk & Htv). apply elem_of_cons in Hin as [Heq | Hin]; [|eauto].
        injection Heq as -> ->. rewrite Hk in Et. cbn [default from_option id] in Et.
        congruence.
Qed.

Lemma name_attributes_Raise X dn fields e :
  name_attributes X dn fields = Raise e →
  ∃ key oid v k, (key, oid) ∈ fields ∧ dn !! key = Some v ∧ truthy v = true
                 ∧ name_attribute_error X oid v = Some k ∧ e = Builtin k.
Proof.
  induction fields as [|[key oid] rest IH]; intros H; [discriminate|].
  cbn [name_attributes] in H.
  assert (Hrest : name_attributes X dn rest = Raise e →
                  ∃ key0 oid0 v k, (key0, oid0) ∈ (key, oid) :: rest ∧ dn !! key0 = Some v
                    ∧ truthy v = true ∧ name_attribute_error X oid0 v = Some k
                    ∧ e = Builtin k).
  { intros Hr. destruct (IH Hr) as (key0 & oid0 & v & k & Hin & Hrest).
    exists key0, oid0, v, k. split; [right; exact Hin | exact Hrest]. }
  destruct (truthy (default VNone (dn !! key))) eqn:Et; [|apply Hrest, H].
  destruct (dn !! key) as [v0|] eqn:Ek; [|discriminate]. cbn [default from_option id] in *.
  destruct (name_attribute_error X oid v0) as [k|] eqn:En.
  - injection H as <-. exists key, oid, v0, k. split; [left|]; auto.
  - destruct (name_attributes X dn rest) as [attrs0|e0|]; [discriminate | | discriminate].
    rewrite ConfigFacts.bind_Raise in H. injection H as <-. apply Hrest. reflexivity.
Qed.

Lemma name_oids : NAME_FIELDS.*2 = NAME_OIDS.
Proof. reflexivity. Qed.

Lemma name_oids_NoDup : NoDup NAME_OIDS.
Proof.
  unfold NAME_OIDS. repeat (apply NoDup_cons; split;
    [intros H; repeat (apply elem_of_cons in H as [H|H]; [discriminate|]);
     apply elem_of_nil in H; exact H|]).
  apply NoDup_nil_2.
Qed.

(** X9.  The name [build_x509_name] returns holds one attribute for each
    of the seven DN fields whose value is true, with that value, and
    nothing else: a field that is absent, empty or otherwise false is
    skipped, and keys outside the seven are not looked at.  The
    attributes come in the fixed order country, state, locality,
    organization, unit, common name, email, each at most once.  The
    call raises only what the library raises when it rejects a value. *)
Theorem build_x509_name_attributes (X : Externals) (dn : gmap string value) :
  build_x509_name X dn ≠ OutOfFuel
  ∧ (∀ attrs, build_x509_name X dn = Ok attrs →
       (∀ oid v, {| attr_oid := oid; attr_value := v |} ∈ attrs
                 ↔ ∃ key, (key, oid) ∈ NAME_FIELDS ∧ dn !! key = Some v
                          ∧ truthy v = true)
       ∧ sublist (attr_oid <$> attrs) NAME_OIDS
       ∧ NoDup (attr_oid <$> attrs))
  ∧ (∀ e, build_x509_name X dn = Raise e →
       ∃ key oid v k, (key, oid) ∈ NAME_FIELDS ∧ dn !! key = Some v
                      ∧ name_attribute_error X oid v = Some k ∧ e = Builtin k)
  ∧ ((∀ oid v, name_attribute_error X oid v = None) →
     ∃ attrs, build_x509_name X dn = Ok attrs).
Proof.
  unfold build_x509_name. split; [apply CliFacts.name_attributes_steady|].
  split; [|split].
  - intros attrs H. destruct (name_attributes_Ok X dn NAME_FIELDS attrs H) as [Hsub Hmem].
    rewrite name_oids in Hsub. split; [exact Hmem|]. split; [exact Hsub|].
    eapply sublist_NoDup; first [exact Hsub | apply name_oids_NoDup].
  - intros e H. destruct (name_attributes_Raise X dn NAME_FIELDS e H)
      as (key & oid & v & k & Hin & Hk & _ & Hn & He). eauto 10.
  - apply CertsFacts.name_attributes_accepts.
Qed.

Lemma build_x509_name_attributes_witness :
  build_x509_name Sample.externals
    (list_to_map [ ("emailAddress", VStr "a@a.test"); ("commonName", VStr "a.test");
                   ("countryName", VStr ""); ("nickname", VStr "dropped") ])
  = Ok [ {| attr_oid := COMMON_NAME; attr_value := VStr "a.test" |};
         {| attr_oid := EMAIL_ADDRESS; attr_value := VStr "a@a.test" |} ].
Proof.
  destruct (build_x509_name_attributes Sample.externals
              (list_to_map [ ("emailAddress", VStr "a@a.test"); ("commonName", VStr "a.test");
                             ("countryName", VStr ""); ("nickname", VStr "dropped") ]))
    as (_ & _ & _ & Hacc).
  destruct Hacc as [attrs Hattrs]; [reflexivity|].
  rewrite Hattrs. f_equal.
  assert (H : Ok attrs = Ok [ {| attr_oid := COMMON_NAME; attr_value := VStr "a.test" |};
                              {| attr_oid := EMAIL_ADDRESS; attr_value := VStr "a@a.test" |} ])
    by (rewrite <- Hattrs; reflexivity).
  injection H as ->. reflexivity.
Defined.

(** *** The three generation steps *)

Lemma generate_key_pair_eq X bits w :
  generate_key_pair X bits w
  = match rsa_generate_private_key X 65537 bits with
    | inr key => (Ok key, called [Call_generate_private_key bits] w)
    | inl k => (Raise (GenerationError [Lit "Failed to generate RSA key ("; Str bits;
                                        Lit " bits): "; StrExc (Builtin k)]),
                called [Call_generate_private_key bits] w)
    end.
Proof.
  unfold generate_key_pair, try_except, mbind, M_bind, call, of_lib, raise, lift, mret, M_ret.
  destruct (rsa_generate_private_key X 65537 bits); reflexivity.
Qed.

Lemma reraise_or_wrap_Raise {A} prefix exc w (r : result A) w' :
  @reraise_or_wrap A prefix exc w = (r, w') →
  ∃ e, r = Raise e ∧ is_CertToolError e = true ∧ w' = w
       ∧ (is_CertToolError exc = true → e = exc).
Proof.
  unfold reraise_or_wrap, raise, lift. destruct (is_CertToolError exc) eqn:E;
    intros H; injection H as <- <-.
  - exists exc. auto.
  - eexists. split; [reflexivity|]. split; [reflexivity|]. split; [reflexivity | discriminate].
Qed.

Lemma get_digest_Raise d e :
  get_digest d = Raise e →
  (∃ s, d = VStr s ∧ e = ConfigError [Lit "Unsupported digest: "; Repr (VStr (PyStr.lower s))])
  ∨ ((∀ s, d ≠ VStr s) ∧ e = Builtin AttributeError).
Proof.
  unfold get_digest. destruct d; try (intros H; injection H as <-; right; split;
    [discriminate | reflexivity]).
  destruct (ALLOWED_DIGESTS !! PyStr.lower s); [discriminate|].
  intros H. injection H as <-. left. eauto.
Qed.

Lemma generate_csr_eq X key subj d w :
  generate_csr X key subj d w
  = match get_digest d with
    | Ok alg =>
        let request := {| csr_subject := subj; csr_key := key; csr_extensions := [];
                          csr_digest := alg |} in
        match csr_sign_error X request with
        | None => (Ok request, called [Call_sign_csr] w)
        | Some k => (Raise (GenerationError [Lit "Failed to generate CSR: ";
                                             StrExc (Builtin k)]),
                     called [Call_sign_csr] w)
        end
    | Raise e =>
        (Raise (if is_CertToolError e then e
                else GenerationError [Lit "Failed to generate CSR: "; StrExc e]), w)
    | OutOfFuel => (OutOfFuel, w)
    end.
Proof.
  unfold generate_csr, try_except, reraise_or_wrap, mbind, M_bind, call, check_lib, raise,
    lift, mret, M_ret.
  destruct (get_digest d) as [alg|e|]; [|destruct (is_CertToolError e); reflexivity
                                        |reflexivity].
  cbn zeta. destruct (csr_sign_error X _); reflexivity.
Qed.

(** What [generate_self_signed_cert] leaves behind, whatever its
    outcome. *)
Lemma generate_self_signed_cert_outcome X key subj d vd san w r w' :
  generate_self_signed_cert X key subj d vd san w = (r, w') →
  (w' = w ∨ w' = called [Call_sign_certificate] w)
  ∧ match r with
    | Ok c =>
        ∃ alg, get_digest d = Ok alg
               ∧ subject c = subj ∧ issuer c = subj ∧ public_key c = key
               ∧ serial_number c = random_serial_number X
               ∧ not_valid_before c = now X - 60000000
               ∧ not_valid_after c = now X + days_us X vd
               ∧ signature_hash c = alg
               ∧ w' = called [Call_sign_certificate] w
    | Raise e => is_CertToolError e = true
    | OutOfFuel => False
    end.
Proof.
  unfold generate_self_signed_cert, try_except. intros H.
  match type of H with
  | (match ?body w with _ => _ end) = _ => destruct (body w) as [[c|e|] w1] eqn:Eb
  end.
  - injection H as <- <-.
    apply M_bind_Ok_inv in Eb as ([] & w2 & Hv & Eb).
    assert (w2 = w) as ->.
    { unfold check_lib in Hv. destruct (validity_error X _ _); [discriminate|].
      injection Hv as <-. reflexivity. }
    apply M_bind_Ok_inv in Eb as (builder & w3 & Hb & Eb).
    assert (w3 = w) as ->.
    { destruct (opt_truthy san).
      - apply M_bind_Ok_inv in Hb as (items & w4 & Hi & Hb). apply lift_Ok_inv in Hi as [_ ->].
        apply M_bind_Ok_inv in Hb as (names & w5 & Hn & Hb). apply lift_Ok_inv in Hn as [_ ->].
        injection Hb as _ <-. reflexivity.
      - injection Hb as _ <-. reflexivity. }
    apply M_bind_Ok_inv in Eb as (alg & w4 & Ha & Eb). apply lift_Ok_inv in Ha as [Ha ->].
    apply M_bind_Ok_inv in Eb as ([] & w5 & Hc & Eb). injection Hc as <-.
    apply M_bind_Ok_inv in Eb as ([] & w6 & Hs & Eb).
    unfold check_lib in Hs. destruct (cert_sign_error X _); [discriminate|].
    injection Hs as <-. injection Eb as <- <-.
    split; [right; reflexivity|]. exists alg. repeat split; assumption || reflexivity.
  - apply reraise_or_wrap_Raise in H as (e' & -> & He & -> & _). split; [|exact He].
    apply M_bind_Raise_inv in Eb as [Hv | ([] & w2 & Hv & Eb)].
    { unfold check_lib in Hv. destruct (validity_error X _ _); [|discriminate].
      injection Hv as _ <-. left. reflexivity. }
    assert (w2 = w) as ->.
    { unfold check_lib in Hv. destruct (validity_error X _ _); [discriminate|].
      injection Hv as <-. reflexivity. }
    apply M_bind_Raise_inv in Eb as [Hb | (builder & w3 & Hb & Eb)].
    { left. destruct (opt_truthy san); [|discriminate].
      apply M_bind_Raise_inv in Hb as [Hi | (items & w4 & Hi & Hb)].
      - apply lift_Raise_inv in Hi as [_ ->]. reflexivity.
      - apply lift_Ok_inv in Hi as [_ ->].
        apply M_bind_Raise_inv in Hb as [Hn | (names & w5 & Hn & Hb)]; [|discriminate].
        apply lift_Raise_inv in Hn as [_ ->]. reflexivity. }
    assert (w3 = w) as ->.
    { destruct (opt_truthy san).
      - apply M_bind_Ok_inv in Hb as (items & w4 & Hi & Hb). apply lift_Ok_inv in Hi as [_ ->].
        apply M_bind_Ok_inv in Hb as (names & w5 & Hn & Hb). apply lift_Ok_inv in Hn as [_ ->].
        injection Hb as _ <-. reflexivity.
      - injection Hb as _ <-. reflexivity. }
    apply M_bind_Raise_inv in Eb as [Ha | (alg & w4 & Ha & Eb)].
    { apply lift_Raise_inv in Ha as [_ ->]. left. reflexivity. }
    apply lift_Ok_inv in Ha as [Ha ->].
    apply M_bind_Raise_inv in Eb as [Hc | ([] & w5 & Hc & Eb)]; [discriminate|].
    injection Hc as <-.
    apply M_bind_Raise_inv in Eb as [Hs | ([] & w6 & Hs & Eb)]; [|discriminate].
    unfold check_lib in Hs. destruct (cert_sign_error X _); [|discriminate].
    injection Hs as _ <-. right. reflexivity.
  - exfalso.
    revert Eb. unfold mbind, M_bind, check_lib, lift, raise, call, mret, M_ret.
    destruct (validity_error X _ _); [discriminate|].
    destruct (opt_truthy san).
    + destruct (py_iter X _) as [items| |] eqn:Ei; [|discriminate|].
      2:{ destruct san as [[]|]; discriminate. }
      destruct (dns_names X items) as [names| |] eqn:En; [|discriminate|].
      2:{ exfalso. exact (CliFacts.dns_names_steady X items En). }
      destruct (get_digest d) as [alg| |] eqn:Ed; [|discriminate|].
      2:{ exfalso. exact (CliFacts.get_digest_steady d Ed). }
      destruct (cert_sign_error X _); discriminate.
    + destruct (get_digest d) as [alg| |] eqn:Ed; [|discriminate|].
      2:{ exfalso. exact (CliFacts.get_digest_steady d Ed). }
      destruct (cert_sign_error X _); discriminate.
Qed.

(** *** The components *)

(** X10.  What a successful [create_cert_components] has done.  One key
    was generated, with exponent 65537 and the configured size, and it
    is the key of the request and of the certificate; the request and
    the certificate carry the name built from the DN, the certificate as
    subject and as issuer; both are signed with the configured digest;
    the certificate is valid from one minute before the call to
    [valid_days] days after it.  The library was called three times, in
    the order key, request, certificate, and nothing was printed or
    written. *)
Theorem create_cert_components_result (X : Externals) (dn cfg : gmap string value)
    (w w' : World) (comps : CertComponents) :
  create_cert_components X dn cfg w = (Ok comps, w') →
  ∃ subj bits d alg vd,
    build_x509_name X dn = Ok subj
    ∧ cfg !! "private_key_bits" = Some bits
    ∧ cfg !! "digest_alg" = Some d ∧ get_digest d = Ok alg
    ∧ cfg !! "valid_days" = Some vd
    ∧ rsa_generate_private_key X 65537 bits = inr (private_key comps)
    ∧ csr comps = {| csr_subject := subj; csr_key := private_key comps;
                     csr_extensions := []; csr_digest := alg |}
    ∧ subject (cert comps) = subj ∧ issuer (cert comps) = subj
    ∧ public_key (cert comps) = private_key comps
    ∧ signature_hash (cert comps) = alg
    ∧ serial_number (cert comps) = random_serial_number X
    ∧ not_valid_before (cert comps) = now X - 60000000
    ∧ not_valid_after (cert comps) = now X + days_us X vd
    ∧ (∀ n, vd = VInt n →
         not_valid_after (cert comps) - not_valid_before (cert comps)
         = n * 86400000000 + 60000000)
    ∧ lib_calls w' = (lib_calls w ++ [Call_generate_private_key bits; Call_sign_csr;
                                      Call_sign_certificate])%list
    ∧ fs w' = fs w ∧ stdout w' = stdout w ∧ stderr w' = stderr w.
Proof.
  unfold create_cert_components. intros H.
  apply M_bind_Ok_inv in H as (subj & w1 & Hsubj & H). apply lift_Ok_inv in Hsubj as [Hsubj ->].
  apply M_bind_Ok_inv in H as (bits & w1 & Hbits & H). apply lift_Ok_inv in Hbits as [Hbits ->].
  apply subscript_Ok_inv in Hbits.
  apply M_bind_Ok_inv in H as (key & w1 & Hkey & H). rewrite generate_key_pair_eq in Hkey.
  destruct (rsa_generate_private_key X 65537 bits) as [k|key'] eqn:Egen; [discriminate|].
  injection Hkey as -> <-.
  apply M_bind_Ok_inv in H as (d & w1 & Hd & H). apply lift_Ok_inv in Hd as [Hd ->].
  apply subscript_Ok_inv in Hd.
  apply M_bind_Ok_inv in H as (request & w1 & Hcsr & H). rewrite generate_csr_eq in Hcsr.
  destruct (get_digest d) as [alg|e|] eqn:Ealg; [| |discriminate].
  2:{ discriminate. }
  cbn zeta in Hcsr. destruct (csr_sign_error X _); [discriminate|].
  injection Hcsr as <- <-.
  apply M_bind_Ok_inv in H as (d' & w1 & Hd' & H). apply lift_Ok_inv in Hd' as [Hd' ->].
  apply subscript_Ok_inv in Hd'. rewrite Hd in Hd'. injection Hd' as <-.
  apply M_bind_Ok_inv in H as (vd & w1 & Hvd & H). apply lift_Ok_inv in Hvd as [Hvd ->].
  apply subscript_Ok_inv in Hvd.
  apply M_bind_Ok_inv in H as (c & w1 & Hcert & H). injection H as <- <-.
  destruct (generate_self_signed_cert_outcome _ _ _ _ _ _ _ _ _ Hcert)
    as (_ & alg' & Halg' & Hs & Hi & Hp & Hser & Hnb & Hna & Hh & ->).
  rewrite Ealg in Halg'. injection Halg' as <-.
  exists subj, bits, d, alg, vd. cbn [private_key csr cert].
  repeat (split; [assumption || reflexivity|]).
  split.
  { intros n ->. rewrite Hnb, Hna. cbn [days_us]. lia. }
  rewrite !called_called. cbn [called fs stdout stderr lib_calls app].
  repeat split; reflexivity.
Qed.

Lemma create_cert_components_result_witness :
  ∃ comps w',
    create_cert_components Sample.externals {[ "commonName" := VStr "a.test" ]}
      CONFIG_DEFAULT (Sample.world ∅) = (Ok comps, w')
    ∧ issuer (cert comps) = subject (cert comps)
    ∧ not_valid_after (cert comps) - not_valid_before (cert comps)
      = 365 * 86400000000 + 60000000
    ∧ lib_calls w' = [Call_generate_private_key (VInt 2048); Call_sign_csr;
                      Call_sign_certificate].
Proof.
  destruct (create_cert_components Sample.externals {[ "commonName" := VStr "a.test" ]}
              CONFIG_DEFAULT (Sample.world ∅)) as [r w'] eqn:E.
  assert (Hr : ∃ comps, r = Ok comps).
  { apply (f_equal fst) in E. cbn [fst] in E. rewrite <- E. eexists. reflexivity. }
  destruct Hr as [comps ->].
  destruct (create_cert_components_result _ _ _ _ _ _ E)
    as (subj & bits & d & alg & vd & _ & Hb & _ & _ & Hvd & _ & _ & Hs & Hi & _ & _ & _
        & _ & _ & Hwin & Hcalls & _).
  exists comps, w'. split; [reflexivity|]. split; [congruence|].
  assert (vd = VInt 365) as Hvd' by (injection Hvd as <-; reflexivity).
  assert (bits = VInt 2048) as -> by (injection Hb as <-; reflexivity).
  split; [exact (Hwin 365 Hvd') | exact Hcalls].
Defined.

(** A generation step that raises raises an error of the tool. *)
Lemma generate_key_pair_Raise X bits w e w' :
  generate_key_pair X bits w = (Raise e, w') →
  is_CertToolError e = true ∧ w' = called [Call_generate_private_key bits] w.
Proof.
  rewrite generate_key_pair_eq. destruct (rsa_generate_private_key X 65537 bits);
    [|discriminate]. intros H. injection H as <- <-. auto.
Qed.

Lemma generate_csr_Raise X key subj d w e w' :
  generate_csr X key subj d w = (Raise e, w') →
  is_CertToolError e = true ∧ (w' = w ∨ w' = called [Call_sign_csr] w).
Proof.
  rewrite generate_csr_eq. destruct (get_digest d) as [alg|e0|]; [| |discriminate].
  - cbn zeta. destruct (csr_sign_error X _); [|discriminate].
    intros H. injection H as <- <-. auto.
  - intros H. injection H as <- <-. split; [|auto].
    destruct (is_CertToolError e0) eqn:E0; [exact E0 | reflexivity].
Qed.

(** X11.  What [create_cert_components] can raise.  It always returns
    or raises, prints nothing and writes nothing.  A failure of the key
    generation, of either signature or of the alternative names is an
    error of the tool: a [GenerationError], or the [ConfigError] of an
    unsupported digest.  Two things are not wrapped: a [KeyError] for a
    setting that the CONFIG lacks, and whatever the library raises when
    it rejects a value of the DN.  An unsupported digest is found only
    after the key pair has been generated. *)
Theorem create_cert_components_raises (X : Externals) (dn cfg : gmap string value)
    (w : World) :
  fst (create_cert_components X dn cfg w) ≠ OutOfFuel
  ∧ fs (snd (create_cert_components X dn cfg w)) = fs w
  ∧ silent (create_cert_components X dn cfg)
  ∧ (∀ e w', create_cert_components X dn cfg w = (Raise e, w') →
       is_CertToolError e = true
       ∨ (e = Builtin KeyError
          ∧ ∃ key, key ∈ ["private_key_bits"; "digest_alg"; "valid_days"]
                   ∧ cfg !! key = None)
       ∨ (∃ key oid v k, (key, oid) ∈ NAME_FIELDS ∧ dn !! key = Some v
                         ∧ name_attribute_error X oid v = Some k ∧ e = Builtin k))
  ∧ (∀ subj bits key s,
       build_x509_name X dn = Ok subj →
       cfg !! "private_key_bits" = Some bits →
       rsa_generate_private_key X 65537 bits = inr key →
       cfg !! "digest_alg" = Some (VStr s) →
       ALLOWED_DIGESTS !! PyStr.lower s = None →
       create_cert_components X dn cfg w
       = (Raise (ConfigError [Lit "Unsupported digest: "; Repr (VStr (PyStr.lower s))]),
          called [Call_generate_private_key bits] w)).
Proof.
  destruct (CliFacts.create_cert_components_steady X dn cfg w) as [Hret Hfs].
  split; [exact Hret|]. split; [exact Hfs|].
  split; [apply create_cert_components_silent|]. split.
  - unfold create_cert_components. intros e w' H.
    apply M_bind_Raise_inv in H as [Hsubj | (subj & w1 & Hsubj & H)].
    { apply lift_Raise_inv in Hsubj as [Hsubj _]. right. right.
      destruct (name_attributes_Raise X dn NAME_FIELDS e Hsubj)
        as (key & oid & v & k & Hin & Hk & _ & Hn & He). eauto 10. }
    apply lift_Ok_inv in Hsubj as [_ ->].
    apply M_bind_Raise_inv in H as [Hbits | (bits & w1 & Hbits & H)].
    { apply lift_Raise_inv in Hbits as [Hbits _].
      apply subscript_Raise_inv in Hbits as [Hn ->]. right. left. split; [reflexivity|].
      exists "private_key_bits". split; [set_solver | exact Hn]. }
    apply lift_Ok_inv in Hbits as [_ ->].
    apply M_bind_Raise_inv in H as [Hkey | (key & w1 & Hkey & H)].
    { left. apply (generate_key_pair_Raise _ _ _ _ _ Hkey). }
    apply M_bind_Raise_inv in H as [Hd | (d & w2 & Hd & H)].
    { apply lift_Raise_inv in Hd as [Hd _].
      apply subscript_Raise_inv in Hd as [Hn ->]. right. left. split; [reflexivity|].
      exists "digest_alg". split; [set_solver | exact Hn]. }
    apply M_bind_Raise_inv in H as [Hcsr | (request & w3 & Hcsr & H)].
    { left. apply (generate_csr_Raise _ _ _ _ _ _ _ Hcsr). }
    apply M_bind_Raise_inv in H as [Hd' | (d' & w4 & Hd' & H)].
    { apply lift_Raise_inv in Hd' as [Hd' _].
      apply subscript_Raise_inv in Hd' as [Hn ->]. right. left. split; [reflexivity|].
      exists "digest_alg". split; [set_solver | exact Hn]. }
    apply M_bind_Raise_inv in H as [Hvd | (vd & w5 & Hvd & H)].
    { apply lift_Raise_inv in Hvd as [Hvd _].
      apply subscript_Raise_inv in Hvd as [Hn ->]. right. left. split; [reflexivity|].
      exists "valid_days". split; [set_solver | exact Hn]. }
    apply M_bind_Raise_inv in H as [Hcert | (c & w6 & Hcert & H)]; [|discriminate].
    left. apply (generate_self_signed_cert_outcome _ _ _ _ _ _ _ _ _ Hcert).
  - intros subj bits key s Hsubj Hbits Hkey Hd Hno.
    unfold create_cert_components, subscript, mbind, M_bind, lift.
    rewrite Hsubj, Hbits, generate_key_pair_eq, Hkey. cbn [fs stdout stderr lib_calls called].
    rewrite Hd, generate_csr_eq. unfold get_digest. rewrite Hno. reflexivity.
Qed.

Lemma create_cert_components_raises_witness :
  create_cert_components Sample.externals {[ "commonName" := VStr "a.test" ]}
    (<["digest_alg" := VStr "MD5"]> CONFIG_DEFAULT) (Sample.world ∅)
  = (Raise (ConfigError [Lit "Unsupported digest: "; Repr (VStr "md5")]),
     called [Call_generate_private_key (VInt 2048)] (Sample.world ∅)).
Proof.
  apply (proj2 (proj2 (proj2 (proj2 (create_cert_components_raises Sample.externals
                                {[ "commonName" := VStr "a.test" ]}
                                (<["digest_alg" := VStr "MD5"]> CONFIG_DEFAULT)
                                (Sample.world ∅)))))
           [ {| attr_oid := COMMON_NAME; attr_value := VStr "a.test" |} ]
           (VInt 2048) {| key_size := 2048; key_secret := 65537 |} "MD5");
    reflexivity.
Defined.

(** *** Serialization *)



End GenerationFacts.

(** ** Where the bundle goes: standard output, a directory *)

Module WriteFacts.
Import Certs PathLib.

(** *** Files below a new directory *)

Lemma well_formed_child (files : gmap Path node) p name :
  well_formed files = true → p ≠ [] → files !! p = None →
  files !! joinpath p name = None.
Proof.
  unfold well_formed. rewrite bool_decide_eq_true. intros Hwf Hp Hnone.
  destruct (files !! joinpath p name) as [n|] eqn:E; [|reflexivity]. exfalso.
  destruct (Hwf _ _ E) as [Hlen | Hdir].
  - unfold joinpath in Hlen. rewrite length_app in Hlen. cbn [length] in Hlen.
    destruct p; [congruence | cbn [length] in Hlen; lia].
  - unfold joinpath in Hdir. rewrite removelast_last in Hdir.
    unfold is_dir in Hdir. rewrite Hnone in Hdir. discriminate Hdir.
Qed.

Lemma child_not_prefix (p : Path) name : joinpath p name ∉ prefixes p.
Proof.
  intros H. apply OutputFacts.prefixes_prefix in H as [r Hr].
  apply (f_equal length) in Hr. unfold joinpath in Hr. rewrite !length_app in Hr.
  cbn [length] in Hr. lia.
Qed.

Lemma child_ne (p : Path) name : p ≠ joinpath p name.
Proof.
  intros H. apply (f_equal length) in H. unfold joinpath in H. rewrite length_app in H.
  cbn [length] in H. lia.
Qed.

Lemma mkdir_result_child (files : gmap Path node) p name :
  files !! joinpath p name = None → mkdir_result files p !! joinpath p name = None.
Proof.
  intros H. unfold mkdir_result. apply lookup_union_None. split; [exact H|].
  rewrite OutputFacts.new_dirs_lookup. rewrite decide_False by apply child_not_prefix.
  reflexivity.
Qed.

Lemma with_files_in_other (subdir : Path) (entries : list (string * string))
    (files : gmap Path node) (p : Path) :
  (∀ name, p ≠ joinpath subdir name) →
  with_files_in subdir entries files !! p = files !! p.
Proof.
  intros Hp. induction entries as [|[name data] entries IH]; [reflexivity|].
  cbn [with_files_in foldr fst snd] in *. rewrite lookup_insert_ne by (intros H; exact (Hp name (eq_sym H))).
  exact IH.
Qed.

Lemma with_files_in_absent (subdir : Path) (entries : list (string * string))
    (files : gmap Path node) (name : string) :
  files !! joinpath subdir name = None → name ∉ entries.*1 →
  with_files_in subdir entries files !! joinpath subdir name = None.
Proof.
  intros Hnone. induction entries as [|[name' data] entries IH]; intros Hnot; [exact Hnone|].
  cbn [with_files_in foldr fst snd fmap list_fmap] in *.
  apply not_elem_of_cons in Hnot as [Hne Hnot].
  rewrite lookup_insert_ne by (intros H; apply (OutputFacts.joinpath_inj subdir) in H; congruence).
  apply IH, Hnot.
Qed.

(** Writing files whose names are all new overwrites nothing. *)
Lemma with_files_in_keeps (subdir : Path) (entries : list (string * string))
    (files : gmap Path node) :
  (∀ name, files !! joinpath subdir name = None) → NoDup entries.*1 →
  files ⊆ with_files_in subdir entries files.
Proof.
  intros Hnone. induction entries as [|[name data] entries IH]; intros Hnd; [reflexivity|].
  cbn [fmap list_fmap fst] in Hnd. apply NoDup_cons in Hnd as [Hnot Hnd].
  cbn [with_files_in foldr fst snd]. etrans; [apply IH, Hnd|].
  apply insert_subseteq, with_files_in_absent; [apply Hnone | exact Hnot].
Qed.

Lemma with_files_in_lookup (subdir : Path) (entries : list (string * string))
    (files : gmap Path node) (name data : string) :
  NoDup entries.*1 → (name, data) ∈ entries →
  with_files_in subdir entries files !! joinpath subdir name = Some (NFile data).
Proof.
  induction entries as [|[name' data'] entries IH]; intros Hnd Hin.
  - apply elem_of_nil in Hin. destruct Hin.
  - cbn [fmap list_fmap fst] in Hnd. apply NoDup_cons in Hnd as [Hnot Hnd].
    cbn [with_files_in foldr fst snd]. apply elem_of_cons in Hin as [Heq | Hin].
    + injection Heq as -> ->. apply lookup_insert_eq.
    + rewrite lookup_insert_ne; [apply IH; assumption|].
      intros H. apply (OutputFacts.joinpath_inj subdir) in H. subst name'.
      apply Hnot. apply list_elem_of_fmap. exists (name, data). auto.
Qed.

Lemma write_file_cases X path data w :
  (write_error X (fs w) path = None
   ∧ write_file X path data w = (Ok (), set_fs (<[path := NFile data]> (fs w)) w))
  ∨ (∃ k, write_error X (fs w) path = Some k
          ∧ write_file X path data w = (Raise (Builtin k), w)).
Proof.
  unfold write_file, write_bytes. destruct (write_error X (fs w) path) as [k|]; eauto.
Qed.

(** The subdirectory [make_cert_subdir] creates on a quiet file system
    did not exist. *)
Lemma make_cert_subdir_new (X : Externals) fuel base dn label w :
  quiet X → (size (fs w) < fuel)%nat →
  ∃ name, fs w !! joinpath base name = None
          ∧ make_cert_subdir X fuel base dn label w
            = (Ok (joinpath base name),
               set_fs (mkdir_result (fs w) (joinpath base name)) w).
Proof.
  intros Hq Hfuel.
  destruct (exists_ (fs w) (joinpath base (subdir_base_name X dn label))) eqn:E.
  - destruct (OutputFacts.make_cert_subdir_taken X fuel base dn label w Hq Hfuel E)
      as (k & _ & Hfree & _ & H).
    eexists. split; [apply OutputFacts.exists_false, Hfree | exact H].
  - eexists. split; [apply OutputFacts.exists_false, E|].
    apply OutputFacts.make_cert_subdir_fresh; assumption.
Qed.

(** X13.  On a well-formed file system that nobody else touches,
    [write_bundle_to_dir] overwrites nothing: it creates a subdirectory
    that did not exist, and every entry that was there before is there
    afterwards, unchanged, also when a write fails half way.  On success
    the subdirectory holds [cert.pem], [csr.pem] and [key.pem] with the
    three texts of the bundle.  A write that fails with an [OSError] is
    reported as an [OutputError] naming the subdirectory; any other
    failure of a write passes through.  Nothing is printed. *)
Theorem write_bundle_to_dir_adds (X : Externals) (fuel : nat) (bundle : PemBundle)
    (dn : gmap string value) (label : option string) (output_dir : Path) (w : World) :
  quiet X → well_formed (fs w) = true → (size (fs w) < fuel)%nat →
  ∃ name,
    let subdir := joinpath output_dir name in
    let m := write_bundle_to_dir X fuel bundle dn label output_dir w in
    fs w !! subdir = None
    ∧ fs w ⊆ fs (snd m)
    ∧ is_dir (fs (snd m)) subdir = true
    ∧ stdout (snd m) = stdout w ∧ stderr (snd m) = stderr w
    ∧ lib_calls (snd m) = lib_calls w
    ∧ match fst m with
      | Ok _ =>
          fs (snd m) = with_files_in subdir
                         [ ("key.pem", private_key_pem bundle);
                           ("csr.pem", csr_pem bundle);
                           ("cert.pem", certificate_pem bundle) ]
                         (mkdir_result (fs w) subdir)
          ∧ fs (snd m) !! joinpath subdir "cert.pem" = Some (NFile (certificate_pem bundle))
          ∧ fs (snd m) !! joinpath subdir "csr.pem" = Some (NFile (csr_pem bundle))
          ∧ fs (snd m) !! joinpath subdir "key.pem" = Some (NFile (private_key_pem bundle))
      | Raise e =>
          ∃ k, (is_OSError k = true
                ∧ e = OutputError [Lit "Failed to write PEM files in "; StrPath subdir;
                                   Lit ": "; StrExc (Builtin k)])
               ∨ (is_OSError k = false ∧ e = Builtin k)
      | OutOfFuel => False
      end.
Proof.
  intros Hq Hwf Hfuel.
  destruct (make_cert_subdir_new X fuel output_dir dn label w Hq Hfuel)
    as (name & Hnew & Hmake).
  exists name. cbn zeta. unfold write_bundle_to_dir.
  rewrite (CliFacts.M_bind_Ok _ _ _ _ _ Hmake).
  set (subdir := joinpath output_dir name) in *.
  set (files0 := mkdir_result (fs w) subdir).
  assert (Hsub : subdir ≠ []) by apply OutputFacts.joinpath_nonempty.
  assert (Hchild : ∀ x, files0 !! joinpath subdir x = None).
  { intros x. apply mkdir_result_child, well_formed_child; assumption. }
  assert (Hdir : is_dir files0 subdir = true)
    by (apply OutputFacts.mkdir_result_is_dir; assumption).
  assert (Hkeep : ∀ entries, NoDup entries.*1 →
            fs w ⊆ with_files_in subdir entries files0
            ∧ is_dir (with_files_in subdir entries files0) subdir = true).
  { intros entries Hnd. split.
    - etrans; [apply OutputFacts.mkdir_result_keeps|].
      apply with_files_in_keeps; assumption.
    - unfold is_dir. rewrite with_files_in_other by (intros x; apply child_ne).
      exact Hdir. }
  assert (Hnd3 : NoDup ["key.pem"; "csr.pem"; "cert.pem"]).
  { repeat (apply NoDup_cons; split;
      [intros H; repeat (apply elem_of_cons in H as [H|H]; [discriminate H|]);
       apply elem_of_nil in H; exact H|]).
    apply NoDup_nil_2. }
  assert (Hnd2 : NoDup ["csr.pem"; "cert.pem"])
    by (apply NoDup_cons in Hnd3 as [_ H]; exact H).
  assert (Hnd1 : NoDup ["cert.pem"])
    by (apply NoDup_cons in Hnd2 as [_ H]; exact H).
  split; [exact Hnew|].
  unfold try_except, mbind, M_bind.
  set (w0 := set_fs files0 w).
  destruct (write_file_cases X (joinpath subdir "cert.pem") (certificate_pem bundle) w0)
    as [[_ ->] | (k & _ & ->)].
  2:{ destruct (Hkeep [] (NoDup_nil_2 : NoDup ([] : list string))) as [H1 H2].
      destruct (is_OSError k) eqn:Ek; cbn [raise lift fst snd fs stdout stderr lib_calls set_fs];
        (repeat split; [exact H1 | exact H2 | exists k; auto]). }
  set (w1 := set_fs _ w0).
  destruct (write_file_cases X (joinpath subdir "csr.pem") (csr_pem bundle) w1)
    as [[_ ->] | (k & _ & ->)].
  2:{ destruct (Hkeep [("cert.pem", certificate_pem bundle)] Hnd1) as [H1 H2].
      destruct (is_OSError k) eqn:Ek; cbn [raise lift fst snd fs stdout stderr lib_calls set_fs];
        (repeat split; [exact H1 | exact H2 | exists k; auto]). }
  set (w2 := set_fs _ w1).
  destruct (write_file_cases X (joinpath subdir "key.pem") (private_key_pem bundle) w2)
    as [[_ ->] | (k & _ & ->)].
  2:{ destruct (Hkeep [("csr.pem", csr_pem bundle); ("cert.pem", certificate_pem bundle)]
                  Hnd2) as [H1 H2].
      destruct (is_OSError k) eqn:Ek; cbn [raise lift fst snd fs stdout stderr lib_calls set_fs];
        (repeat split; [exact H1 | exact H2 | exists k; auto]). }
  destruct (Hkeep [("key.pem", private_key_pem bundle); ("csr.pem", csr_pem bundle);
                   ("cert.pem", certificate_pem bundle)] Hnd3) as [H1 H2].
  cbn [fst snd fs stdout stderr lib_calls set_fs].
  repeat split; [exact H1 | exact H2 | ..].
  - apply (with_files_in_lookup subdir
             [("key.pem", private_key_pem bundle); ("csr.pem", csr_pem bundle);
              ("cert.pem", certificate_pem bundle)] files0 "cert.pem" _ Hnd3).
    do 2 (apply elem_of_cons; right). apply elem_of_cons. left. reflexivity.
  - apply (with_files_in_lookup subdir
             [("key.pem", private_key_pem bundle); ("csr.pem", csr_pem bundle);
              ("cert.pem", certificate_pem bundle)] files0 "csr.pem" _ Hnd3).
    apply elem_of_cons; right. apply elem_of_cons. left. reflexivity.
  - apply (with_files_in_lookup subdir
             [("key.pem", private_key_pem bundle); ("csr.pem", csr_pem bundle);
              ("cert.pem", certificate_pem bundle)] files0 "key.pem" _ Hnd3).
    apply elem_of_cons. left. reflexivity.
Qed.

Lemma write_bundle_to_dir_adds_witness :
  let files : gmap Path node := {[ ["out"] := NDir; ["out"; "a.test"] := NDir ]} in
  let bundle := {| certificate_pem := "CERTIFICATE"; csr_pem := "CERTIFICATE REQUEST";
                   private_key_pem := "PRIVATE KEY" |} in
  let m := write_bundle_to_dir Sample.externals 3 bundle {[ "commonName" := VStr "a.test" ]}
             None ["out"] (Sample.world files) in
  well_formed files = true
  ∧ fst m = Ok ()
  ∧ files ⊆ fs (snd m)
  ∧ ∃ name, files !! joinpath ["out"] name = None
            ∧ fs (snd m) !! joinpath (joinpath ["out"] name) "key.pem"
              = Some (NFile "PRIVATE KEY").
Proof.
  cbn zeta.
  assert (Hq : quiet Sample.externals) by (split; intros; reflexivity).
  assert (Hwf : well_formed ({[ ["out"] := NDir; ["out"; "a.test"] := NDir ]}
                             : gmap Path node) = true) by (vm_compute; reflexivity).
  assert (Hfuel : (size (fs (Sample.world {[ ["out"] := NDir; ["out"; "a.test"] := NDir ]}))
                   < 3)%nat) by (vm_compute; lia).
  destruct (write_bundle_to_dir_adds Sample.externals 3
              {| certificate_pem := "CERTIFICATE"; csr_pem := "CERTIFICATE REQUEST";
                 private_key_pem := "PRIVATE KEY" |}
              {[ "commonName" := VStr "a.test" ]} None ["out"]
              (Sample.world {[ ["out"] := NDir; ["out"; "a.test"] := NDir ]}) Hq Hwf Hfuel)
    as (name & Hnew & Hkeep & _ & _ & _ & _ & Hres).
  cbn zeta in Hres.
  assert (Hok : fst (write_bundle_to_dir Sample.externals 3
                       {| certificate_pem := "CERTIFICATE";
                          csr_pem := "CERTIFICATE REQUEST";
                          private_key_pem := "PRIVATE KEY" |}
                       {[ "commonName" := VStr "a.test" ]} None ["out"]
                       (Sample.world {[ ["out"] := NDir; ["out"; "a.test"] := NDir ]}))
                = Ok ()) by (vm_compute; reflexivity).
  rewrite Hok in Hres. destruct Hres as (_ & _ & _ & Hkey).
  split; [exact Hwf|]. split; [exact Hok|]. split; [exact Hkeep|].
  exists name. split; [exact Hnew | exact Hkey].
Defined.

(** *** The two destinations *)

Lemma write_bundle_to_stdout_eq bundle label w :
  write_bundle_to_stdout bundle label w
  = (Ok (), {| fs := fs w;
               stdout := stdout w ++ header_lines label ++ bundle_lines bundle;
               stderr := stderr w; lib_calls := lib_calls w |}).
Proof.
  unfold write_bundle_to_stdout, header_lines, bundle_lines, mbind, M_bind, print, mret, M_ret.
  destruct label as [l|]; [destruct (PyStr.is_empty l)|];
    cbn [negb fs stdout stderr lib_calls]; f_equal; f_equal;
    rewrite <- ?app_assoc; reflexivity.
Qed.

Lemma create_dir_silent X candidate : silent (create_dir X candidate).
Proof.
  intros w. unfold create_dir. destruct (mkdir X _ candidate) as [k|files'];
    [destruct (is_OSError k)|]; split; reflexivity.
Qed.

Lemma suffix_loop_silent X fuel base name counter :
  silent (suffix_loop X fuel base name counter).
Proof.
  revert counter. induction fuel as [|fuel IH]; intros counter w; cbn [suffix_loop].
  - split; reflexivity.
  - destruct (negb _); [apply create_dir_silent | apply IH].
Qed.

Lemma make_cert_subdir_silent X fuel base dn label :
  silent (make_cert_subdir X fuel base dn label).
Proof.
  intros w. unfold make_cert_subdir. cbn zeta.
  destruct (negb _); [apply create_dir_silent | apply suffix_loop_silent].
Qed.

Lemma write_file_silent X path data : silent (write_file X path data).
Proof.
  intros w. unfold write_file. destruct (write_bytes X (fs w) path data); split; reflexivity.
Qed.

Lemma write_bundle_to_dir_silent X fuel bundle dn label output_dir :
  silent (write_bundle_to_dir X fuel bundle dn label output_dir).
Proof.
  unfold write_bundle_to_dir.
  apply GenerationFacts.silent_bind; [apply make_cert_subdir_silent | intros subdir].
  cbn zeta. apply GenerationFacts.silent_try.
  - repeat (apply GenerationFacts.silent_bind; [apply write_file_silent | intros ?]).
    apply write_file_silent.
  - intros e. destruct e; try apply GenerationFacts.silent_raise.
    destruct (is_OSError k); apply GenerationFacts.silent_raise.
Qed.

(** X14.  What [handle_single_cert] sends where.  With an output
    directory it prints nothing.  Without one it writes no file and
    prints nothing to the standard error, and the standard output is
    all or nothing: when generation or serialization raises, nothing
    has been printed; when both succeed, the call succeeds and has
    printed the header of a label that is not empty, followed by the
    certificate, the request and the private key, each under its
    caption. *)
Theorem handle_single_cert_output (X : Externals) (fuel : nat)
    (dn cfg : gmap string value) (label : option string) :
  (∀ d, silent (handle_single_cert X fuel dn cfg label (Some d)))
  ∧ ∀ w,
      let m := handle_single_cert X fuel dn cfg label None w in
      fst m ≠ OutOfFuel ∧ fs (snd m) = fs w ∧ stderr (snd m) = stderr w
      ∧ match fst m with
        | Ok _ =>
            ∃ comps w1 bundle w2,
              create_cert_components X dn cfg w = (Ok comps, w1)
              ∧ serialize_cert_components X comps
                  (truthy (default VNone (cfg !! "encrypt_key")))
                  (default VNone (cfg !! "passphrase")) w1 = (Ok bundle, w2)
              ∧ stdout (snd m) = (stdout w ++ header_lines label ++ bundle_lines bundle)%list
              ∧ lib_calls (snd m) = lib_calls w2
        | _ =>
            stdout (snd m) = stdout w
            ∧ (∀ comps w1, create_cert_components X dn cfg w = (Ok comps, w1) →
                 ∃ e w2, serialize_cert_components X comps
                           (truthy (default VNone (cfg !! "encrypt_key")))
                           (default VNone (cfg !! "passphrase")) w1 = (Raise e, w2))
        end.
Proof.
  split.
  - intros d. unfold handle_single_cert.
    apply GenerationFacts.silent_bind;
      [apply GenerationFacts.create_cert_components_silent | intros comps].
    apply GenerationFacts.silent_bind;
      [apply GenerationFacts.serialize_cert_components_silent | intros bundle].
    apply write_bundle_to_dir_silent.
  - intros w. cbn zeta. unfold handle_single_cert, mbind, M_bind.
    destruct (CliFacts.create_cert_components_steady X dn cfg w) as [Hr1 Hfs1].
    destruct (GenerationFacts.create_cert_components_silent X dn cfg w) as [Ho1 He1].
    destruct (create_cert_components X dn cfg w) as [[comps|e|] w1]; cbn [fst snd] in *.
    2:{ repeat split; try assumption; discriminate. }
    2:{ destruct (Hr1 eq_refl). }
    set (enc := truthy _). set (pass := default VNone _).
    destruct (CliFacts.serialize_cert_components_steady X comps enc pass w1) as [Hr2 Hfs2].
    destruct (GenerationFacts.serialize_cert_components_silent X comps enc pass w1)
      as [Ho2 He2].
    destruct (serialize_cert_components X comps enc pass w1) as [[bundle|e|] w2] eqn:Es;
      cbn [fst snd] in *.
    2:{ repeat split; try congruence. intros comps0 w0 H. injection H as <- <-. eauto. }
    2:{ destruct (Hr2 eq_refl). }
    rewrite write_bundle_to_stdout_eq. cbn [fst snd fs stdout stderr lib_calls].
    repeat split; try congruence.
    exists comps, w1, bundle, w2. repeat split; [exact Es | congruence].
Qed.

(** *** The output directory *)

Ltac settle := intros; try discriminate; simplify_eq; try reflexivity; try congruence.



End WriteFacts.

(** ** The command line: modes, and the mode without a file *)

Module ModeFacts.
Import Argparse Cli.

(** *** Which options count *)

Lemma any_dn_cli_set args : _any_dn_cli_set args = any_given (dn_options args).
Proof.
  destruct args as [v ge ef c cd od vc ic o1 o2 o3 o4 o5 o6 o7 da pkb pkt vd ek pp].
  destruct o1, o2, o3, o4, o5, o6, o7; reflexivity.
Qed.

Lemma any_cfg_cli_set args : _any_cfg_cli_set args = any_given (cfg_options args).
Proof.
  destruct args as [v ge ef c cd od vc ic o1 o2 o3 o4 o5 o6 o7 da pkb pkt vd ek pp].
  destruct da, pkb, pkt, vd, ek; reflexivity.
Qed.

(** X16.  Which command lines [validate_mode_constraints] accepts.  The
    DN options are the seven name options; the CONFIG options are the
    digest, the key size, the key type, the validity and the two
    [encrypt-key] switches, so that [--passphrase] is no CONFIG option
    and may accompany a configuration file.  The check raises nothing
    but a [ConfigError], and it accepts: anything with [--version];
    [--validate-config] alone; [--generate-example] without a
    configuration file or directory, an output directory or a DN or
    CONFIG option; and otherwise either no configuration file and no
    directory, or one of the two without any DN or CONFIG option.
    [--example-file], [--inspect-cert] and [--passphrase] never
    matter. *)
Theorem validate_mode_constraints_table (args : Namespace) :
  let flags := any_given (dn_options args) || any_given (cfg_options args) in
  let files := given (config args) || given (config_dir args) in
  _any_dn_cli_set args = any_given (dn_options args)
  ∧ _any_cfg_cli_set args = any_given (cfg_options args)
  ∧ (validate_mode_constraints args = Ok ()
     ∨ ∃ msg, validate_mode_constraints args = Raise (ConfigError msg))
  ∧ (validate_mode_constraints args = Ok () ↔
     version args = true
     ∨ (version args = false ∧ given (validate_config args) = true
        ∧ generate_example args = false ∧ files = false
        ∧ given (output_dir args) = false ∧ flags = false)
     ∨ (version args = false ∧ given (validate_config args) = false
        ∧ generate_example args = true ∧ files = false
        ∧ given (output_dir args) = false ∧ flags = false)
     ∨ (version args = false ∧ given (validate_config args) = false
        ∧ generate_example args = false
        ∧ (files = false
           ∨ (given (config args) && given (config_dir args) = false ∧ flags = false)))).
Proof.
  cbn zeta. split; [apply any_dn_cli_set|]. split; [apply any_cfg_cli_set|].
  unfold validate_mode_constraints, _validate_example_mode,
    _collect_example_mode_conflicts, _validate_standard_mode.
  rewrite any_dn_cli_set, any_cfg_cli_set.
  generalize (any_given (dn_options args)) (any_given (cfg_options args)).
  intros a b.
  destruct (version args), (given (validate_config args)), (generate_example args),
    (given (config args)), (given (config_dir args)), (given (output_dir args)), a, b;
    cbn;
    (split; [first [left; reflexivity | right; eexists; reflexivity]|]);
    (split; [intros H; first [discriminate H | tauto] | intros H; first [reflexivity | exfalso]]);
    try (repeat match goal with
                | H : _ ∨ _ |- _ => destruct H as [H | H]
                | H : _ ∧ _ |- _ => destruct H as [? H]
                end; discriminate).
Qed.

Lemma validate_mode_constraints_table_witness :
  let args :=
    {| version := false; generate_example := false; example_file := None;
       config := Some ["conf"; "a.json"]; config_dir := None; output_dir := None;
       validate_config := None; inspect_cert := None;
       countryName := None; stateOrProvinceName := None; localityName := None;
       organizationName := None; organizationalUnitName := None; commonName := None;
       emailAddress := None; digest_alg := None; private_key_bits := None;
       private_key_type := None; valid_days := None; encrypt_key := None;
       passphrase := Some "secret" |} in
  validate_mode_constraints args = Ok ().
Proof.
  cbn zeta.
  apply (proj2 (proj2 (proj2 (validate_mode_constraints_table _)))).
  right. right. right. repeat split. right. split; reflexivity.
Defined.

(** *** The controller *)

(** X17.  The order in which [run] looks at the modes.  With [--version]
    it prints the version and nothing else happens, whatever else was
    given.  Otherwise, with [--validate-config] it loads and merges that
    one file and prints that it is valid, or raises their error having
    printed nothing; it writes no file and calls no library, and no
    other option has any influence: the mode constraints are not
    checked, so the combination that [validate_mode_constraints] is
    written to refuse is never refused.  Otherwise, with
    [--inspect-cert] the certificate is inspected, again without the
    constraints.  Only then are the constraints checked, and a command
    line that violates them is refused before anything is created. *)
Theorem run_mode_precedence (X : Externals) (Y : CliExternals) (fuel : nat)
    (args : Namespace) (w : World) :
  (version args = true →
   run X Y fuel args w
   = (Ok (), {| fs := fs w; stdout := (stdout w ++ [[Lit Version.__version__]])%list;
                stderr := stderr w; lib_calls := lib_calls w |}))
  ∧ (version args = false → ∀ path, validate_config args = Some path →
     let m := run X Y fuel args w in
     fst m ≠ OutOfFuel ∧ fs (snd m) = fs w ∧ stderr (snd m) = stderr w
     ∧ lib_calls (snd m) = lib_calls w
     ∧ (∀ args', version args' = false → validate_config args' = Some path →
          run X Y fuel args' w = m)
     ∧ match fst m with
       | Ok _ =>
           (∃ loaded merged,
              Config.load_json_config X (fs w) path = Ok loaded
              ∧ Config.merge_settings_json X (Some loaded.1) (Some loaded.2) = Ok merged)
           ∧ stdout (snd m)
             = (stdout w ++ [[Lit "Configuration "; StrPath path; Lit " is valid."]])%list
       | _ => stdout (snd m) = stdout w
       end)
  ∧ (version args = false → validate_config args = None →
     ∀ path, inspect_cert args = Some path →
     let m := run X Y fuel args w in
     m = inspect_certificate Y path w
     ∧ fst m ≠ OutOfFuel ∧ fs (snd m) = fs w ∧ stderr (snd m) = stderr w
     ∧ lib_calls (snd m) = lib_calls w)
  ∧ (version args = false → validate_config args = None → inspect_cert args = None →
     ∀ e, validate_mode_constraints args = Raise e →
     run X Y fuel args w = (Raise e, w)).
Proof.
  split; [|split; [|split]].
  - intros Hv. unfold run. rewrite Hv. reflexivity.
  - intros Hv path Hp. cbn zeta.
    assert (Hrun : ∀ args', version args' = false → validate_config args' = Some path →
              run X Y fuel args' w
              = match Config.load_json_config X (fs w) path with
                | Ok loaded =>
                    match Config.merge_settings_json X (Some loaded.1) (Some loaded.2) with
                    | Ok _ => print [Lit "Configuration "; StrPath path; Lit " is valid."] w
                    | Raise e => (Raise e, w)
                    | OutOfFuel => (OutOfFuel, w)
                    end
                | Raise e => (Raise e, w)
                | OutOfFuel => (OutOfFuel, w)
                end).
    { intros args' Hv' Hp'. unfold run. rewrite Hv', Hp'.
      unfold mbind, M_bind, with_files, lift.
      destruct (Config.load_json_config X (fs w) path) as [[json_dn json_cfg]|e|];
        [|reflexivity..].
      cbn [fst snd].
      destruct (Config.merge_settings_json X (Some json_dn) (Some json_cfg))
        as [merged|e|]; reflexivity. }
    assert (Hsame : ∀ args', version args' = false → validate_config args' = Some path →
              run X Y fuel args' w = run X Y fuel args w).
    { intros args' Hv' Hp'. rewrite (Hrun args' Hv' Hp'), (Hrun args Hv Hp). reflexivity. }
    rewrite (Hrun args Hv Hp) in *.
    pose proof (CliFacts.load_json_config_steady X (fs w) path) as Hl.
    destruct (Config.load_json_config X (fs w) path) as [[json_dn json_cfg]|e|] eqn:El;
      [|cbn [fst snd]; repeat split; (discriminate || exact Hsame)
       |destruct (Hl eq_refl)].
    cbn [fst snd] in *.
    pose proof (CliFacts.merge_settings_json_steady X (Some json_dn) (Some json_cfg)) as Hm.
    destruct (Config.merge_settings_json X (Some json_dn) (Some json_cfg))
      as [merged|e|] eqn:Em;
      [|cbn [fst snd]; repeat split; (discriminate || exact Hsame)
       |destruct (Hm eq_refl)].
    cbn [print fst snd fs stdout stderr lib_calls].
    repeat split; try discriminate; try exact Hsame.
    exists (json_dn, json_cfg), merged. split; [reflexivity | exact Em].
  - intros Hv Hp path Hi. cbn zeta.
    assert (Hrun : run X Y fuel args w = inspect_certificate Y path w).
    { unfold run. rewrite Hv, Hp, Hi. reflexivity. }
    rewrite Hrun. split; [reflexivity|].
    unfold inspect_certificate.
    destruct (read_bytes (fs w) path) as [k|data];
      [destruct (is_OSError k); cbn [fst snd]; repeat split; discriminate|].
    destruct (load_pem_x509_certificate Y data) as [k|cert];
      [cbn [fst snd]; repeat split; discriminate|].
    unfold mbind, M_bind, print, mret, M_ret.
    destruct (san_dns_names (extensions cert)) as [[|name names]|];
      cbn [fst snd fs stdout stderr lib_calls]; repeat split; discriminate.
  - intros Hv Hp Hi e He. unfold run. rewrite Hv, Hp, Hi.
    unfold mbind, M_bind, lift. rewrite He. reflexivity.
Qed.

Lemma run_mode_precedence_witness :
  let args :=
    {| version := false; generate_example := true; example_file := None;
       config := Some ["conf"; "c.json"]; config_dir := Some ["conf"];
       output_dir := Some ["out"];
       validate_config := Some ["conf"; "a.json"]; inspect_cert := None;
       countryName := None; stateOrProvinceName := None; localityName := None;
       organizationName := None; organizationalUnitName := None;
       commonName := Some "b.test";
       emailAddress := None; digest_alg := None; private_key_bits := None;
       private_key_type := None; valid_days := None; encrypt_key := None;
       passphrase := None |} in
  let Y := {| json_dumps := λ _, "{}"; load_pem_x509_certificate := λ _, inl ValueError;
              rfc4514_string := λ _, ""; datetime_str := λ _, "" |} in
  (∃ msg, validate_mode_constraints args = Raise (ConfigError msg))
  ∧ run Sample.externals Y 0 args (Sample.world Sample.batch_files)
    = run Sample.externals Y 0
        {| version := false; generate_example := false; example_file := None;
           config := None; config_dir := None; output_dir := None;
           validate_config := Some ["conf"; "a.json"]; inspect_cert := None;
           countryName := None; stateOrProvinceName := None; localityName := None;
           organizationName := None; organizationalUnitName := None; commonName := None;
           emailAddress := None; digest_alg := None; private_key_bits := None;
           private_key_type := None; valid_days := None; encrypt_key := None;
           passphrase := None |}
        (Sample.world Sample.batch_files)
  ∧ fst (run Sample.externals Y 0 args (Sample.world Sample.batch_files)) = Ok ().
Proof.
  cbn zeta.
  match goal with
  | |- _ ∧ run _ ?Y _ ?a ?w = run _ _ _ _ _ ∧ _ =>
      destruct (run_mode_precedence Sample.externals Y 0 a w) as (_ & Hval & _)
  end.
  specialize (Hval eq_refl ["conf"; "a.json"] eq_refl). cbn zeta in Hval.
  destruct Hval as (_ & _ & _ & _ & Hsame & _).
  split; [eexists; reflexivity|].
  split; [symmetry; apply Hsame; reflexivity | vm_compute; reflexivity].
Defined.

(** *** The mode without a configuration file *)

Lemma cli_dn_entries args :
  cli_dn args
  = list_to_map (given_entries
      [ ("countryName", VStr <$> countryName args);
        ("stateOrProvinceName", VStr <$> stateOrProvinceName args);
        ("localityName", VStr <$> localityName args);
        ("organizationName", VStr <$> organizationName args);
        ("organizationalUnitName", VStr <$> organizationalUnitName args);
        ("commonName", VStr <$> commonName args);
        ("emailAddress", VStr <$> emailAddress args) ]).
Proof.
  destruct args as [v ge ef c cd od vc ic o1 o2 o3 o4 o5 o6 o7 da pkb pkt vd ek pp].
  destruct o1, o2, o3, o4, o5, o6, o7; reflexivity.
Qed.

Lemma cli_cfg_entries args :
  cli_cfg args
  = list_to_map (given_entries
      [ ("digest_alg", VStr <$> digest_alg args);
        ("private_key_bits", VInt <$> private_key_bits args);
        ("private_key_type", VStr <$> private_key_type args);
        ("encrypt_key", VBool <$> encrypt_key args);
        ("valid_days", VInt <$> valid_days args);
        ("passphrase", VStr <$> passphrase args) ]) ∪ CONFIG_DEFAULT.
Proof.
  destruct args as [v ge ef c cd od vc ic o1 o2 o3 o4 o5 o6 o7 da pkb pkt vd ek pp].
  destruct da, pkb, pkt, vd, ek, pp; reflexivity.
Qed.

Lemma cli_cfg_overlay args : Config.overlay CONFIG_DEFAULT (Some (cli_cfg args)) = cli_cfg args.
Proof.
  unfold Config.overlay. destruct (truthy (VDict (cli_cfg args))) eqn:E.
  - unfold dict_update. rewrite cli_cfg_entries. rewrite <- (assoc_L (∪)).
    rewrite (idemp_L (∪) CONFIG_DEFAULT). reflexivity.
  - exfalso. cbn [truthy] in E.
    apply negb_false_iff, Nat.eqb_eq, map_size_empty_iff in E.
    apply (f_equal (λ m : gmap string value, m !! "digest_alg")) in E.
    rewrite cli_cfg_entries, lookup_empty in E.
    apply eq_None_not_Some in E. apply E, lookup_union_is_Some. right. eexists. reflexivity.
Qed.

Lemma cli_cfg_passphrase args : cli_cfg args !! "passphrase" = VStr <$> passphrase args.
Proof.
  destruct args as [v ge ef c cd od vc ic o1 o2 o3 o4 o5 o6 o7 da pkb pkt vd ek pp].
  destruct da, pkb, pkt, vd, ek, pp; reflexivity.
Qed.

Lemma cli_cfg_names args : cli_cfg args !! "subject_alt_names" = Some (VList []).
Proof.
  destruct args as [v ge ef c cd od vc ic o1 o2 o3 o4 o5 o6 o7 da pkb pkt vd ek pp].
  destruct da, pkb, pkt, vd, ek, pp; reflexivity.
Qed.

Lemma cli_cfg_key_type args :
  cli_cfg args !! "private_key_type" = Some (VStr (default "RSA" (private_key_type args))).
Proof.
  destruct args as [v ge ef c cd od vc ic o1 o2 o3 o4 o5 o6 o7 da pkb pkt vd ek pp].
  destruct da, pkb, pkt, vd, ek, pp; reflexivity.
Qed.

(** X18.  The mode without a configuration file applies the rules of
    the mode with one.  The DN holds the name options that were given
    and nothing else; the CONFIG holds the defaults, overridden by the
    CONFIG options that were given, and the passphrase if there is one.
    What [process_cli_mode] then does with them, in checks, in their
    order and in errors, is what [merge_settings_json] does, followed
    by [handle_single_cert] without a label.  The key type is always a
    string here, and since no option carries alternative names, a
    certificate made in this mode has no extension but the basic
    constraints. *)
Theorem process_cli_mode_as_merge (X : Externals) (fuel : nat) (args : Namespace)
    (output_dir : option Path) (w : World) :
  process_cli_mode X fuel args output_dir w
  = match Config.merge_settings_json X (Some (cli_dn args)) (Some (cli_cfg args)) with
    | Ok merged => Certs.handle_single_cert X fuel merged.1 merged.2 None output_dir w
    | Raise e => (Raise e, w)
    | OutOfFuel => (OutOfFuel, w)
    end
  ∧ cli_dn args
    = list_to_map (given_entries
        [ ("countryName", VStr <$> countryName args);
          ("stateOrProvinceName", VStr <$> stateOrProvinceName args);
          ("localityName", VStr <$> localityName args);
          ("organizationName", VStr <$> organizationName args);
          ("organizationalUnitName", VStr <$> organizationalUnitName args);
          ("commonName", VStr <$> commonName args);
          ("emailAddress", VStr <$> emailAddress args) ])
  ∧ cli_cfg args
    = list_to_map (given_entries
        [ ("digest_alg", VStr <$> digest_alg args);
          ("private_key_bits", VInt <$> private_key_bits args);
          ("private_key_type", VStr <$> private_key_type args);
          ("encrypt_key", VBool <$> encrypt_key args);
          ("valid_days", VInt <$> valid_days args);
          ("passphrase", VStr <$> passphrase args) ]) ∪ CONFIG_DEFAULT
  ∧ Config.merge_settings_json X (Some (cli_dn args)) (Some (cli_cfg args))
    ≠ Raise (Builtin AttributeError)
  ∧ (∀ dn cfg,
       Config.merge_settings_json X (Some (cli_dn args)) (Some (cli_cfg args))
       = Ok (dn, cfg) →
       dn = cli_dn args
       ∧ cfg !! "passphrase" = VStr <$> passphrase args
       ∧ cfg !! "subject_alt_names" = Some (VList [])
       ∧ ∀ w0 comps w1,
           Certs.create_cert_components X dn cfg w0 = (Ok comps, w1) →
           extensions (cert comps)
           = [ {| ext_value := BasicConstraints true None; critical := true |} ]).
Proof.
  split; [|split; [apply cli_dn_entries|split; [apply cli_cfg_entries|split]]].
  - unfold process_cli_mode, Config.merge_settings_json.
    rewrite cli_cfg_overlay, LoadFacts.overlay_empty. cbn [default from_option id].
    cbn zeta. unfold mbind, M_bind, result_bind, lift, raise.
    destruct (subscript (cli_cfg args) "private_key_bits") as [vb|e|]; [|reflexivity..].
    destruct (py_int X vb) as [bits|e|]; [|reflexivity..].
    destruct (subscript _ "valid_days") as [vd|e|]; [|reflexivity..].
    destruct (py_int X vd) as [days|e|]; [|reflexivity..].
    destruct (Config.key_type_is_not_rsa _) as [[]|e|]; [| |reflexivity..].
    + destruct (subscript _ "private_key_type") as [kt|e|]; reflexivity.
    + destruct (Config.validate_dn X (cli_dn args)) as [[]|e|]; reflexivity.
  - unfold Config.merge_settings_json. rewrite cli_cfg_overlay.
    cbn zeta. unfold mbind, result_bind.
    destruct (subscript (cli_cfg args) "private_key_bits") as [vb|e|] eqn:Eb;
      [|apply GenerationFacts.subscript_Raise_inv in Eb as [_ ->]; discriminate
       |discriminate].
    destruct (ConfigFacts.py_int_cases X vb) as [[bits ->] | (k & Hk & ->)];
      [|intros H; injection H as ->; revert Hk; clear;
        unfold int_failure_kinds; intros Hk;
        repeat (apply elem_of_cons in Hk as [Hk|Hk]; [discriminate Hk|]);
        apply elem_of_nil in Hk; exact Hk].
    destruct (subscript _ "valid_days") as [vd|e|] eqn:Ed;
      [|apply GenerationFacts.subscript_Raise_inv in Ed as [_ ->]; discriminate
       |discriminate].
    destruct (ConfigFacts.py_int_cases X vd) as [[days ->] | (k & Hk & ->)];
      [|intros H; injection H as ->; revert Hk; clear;
        unfold int_failure_kinds; intros Hk;
        repeat (apply elem_of_cons in Hk as [Hk|Hk]; [discriminate Hk|]);
        apply elem_of_nil in Hk; exact Hk].
    unfold Config.key_type_is_not_rsa.
    rewrite !lookup_insert_ne by discriminate. rewrite cli_cfg_key_type.
    cbn [default from_option id].
    destruct (negb _).
    + unfold subscript. rewrite !lookup_insert_ne by discriminate.
      rewrite cli_cfg_key_type. discriminate.
    + destruct (Config.validate_dn X _) as [[]|e|] eqn:Ev; [discriminate| |discriminate].
      intros H. injection H as ->. revert Ev. unfold Config.validate_dn.
      repeat case_match; discriminate.
  - intros dn cfg H.
    destruct (LoadFacts.merge_Ok X _ _ _ _ H)
      as (vb & vd & bits & days & s & _ & _ & _ & _ & _ & _ & Hdn & _ & Hcfg).
    rewrite LoadFacts.overlay_empty in Hdn. cbn [default from_option id] in Hdn.
    assert (Hp : cfg !! "passphrase" = VStr <$> passphrase args).
    { rewrite Hcfg, LoadFacts.merged_lookup by discriminate.
      unfold setting. cbn [mbind option_bind]. rewrite cli_cfg_passphrase.
      destruct (passphrase args); reflexivity. }
    assert (Hn : cfg !! "subject_alt_names" = Some (VList [])).
    { rewrite Hcfg, LoadFacts.merged_lookup by discriminate.
      unfold setting. cbn [mbind option_bind]. rewrite cli_cfg_names. reflexivity. }
    split; [exact Hdn|]. split; [exact Hp|]. split; [exact Hn|].
    intros w0 comps w1 Hc.
    destruct (CertsFacts.create_cert_components_cert _ _ _ _ _ _ Hc)
      as (key & subj & d & vd' & w2 & Hcert).
    rewrite (CertsFacts.get_or_none_list cfg [] (or_introl Hn)) in Hcert.
    destruct (CertsFacts.generate_self_signed_cert_Ok _ _ _ _ _ _ _ _ _ Hcert)
      as (tail & -> & Htail & _).
    rewrite (Htail eq_refl). reflexivity.
Qed.

Lemma process_cli_mode_as_merge_witness :
  let args :=
    {| version := false; generate_example := false; example_file := None;
       config := None; config_dir := None; output_dir := None;
       validate_config := None; inspect_cert := None;
       countryName := Some "UK"; stateOrProvinceName := None; localityName := None;
       organizationName := None; organizationalUnitName := None;
       commonName := Some "a.test";
       emailAddress := None; digest_alg := Some "sha256"; private_key_bits := None;
       private_key_type := None; valid_days := Some 30; encrypt_key := None;
       passphrase := None |} in
  ∃ cfg,
    Config.merge_settings_json Sample.externals (Some (cli_dn args)) (Some (cli_cfg args))
    = Ok (cli_dn args, cfg)
    ∧ cfg !! "subject_alt_names" = Some (VList [])
    ∧ cfg !! "passphrase" = None
    ∧ fst (process_cli_mode Sample.externals 0 args None (Sample.world ∅)) = Ok ().
Proof.
  cbn zeta.
  match goal with
  | |- ∃ cfg, Config.merge_settings_json _ (Some (cli_dn ?a)) _ = _ ∧ _ =>
      destruct (process_cli_mode_as_merge Sample.externals 0 a None (Sample.world ∅))
        as (_ & _ & _ & _ & Hmerged);
      assert (Em : ∃ merged,
                Config.merge_settings_json Sample.externals (Some (cli_dn a))
                  (Some (cli_cfg a)) = Ok merged) by (eexists; reflexivity)
  end.
  destruct Em as [[dn cfg] Em].
  destruct (Hmerged dn cfg Em) as (Hdn & Hp & Hn & _).
  exists cfg. split; [rewrite Em, Hdn; reflexivity|]. split; [exact Hn|].
  split; [exact Hp|]. vm_compute. reflexivity.
Defined.

(** *** The passphrase of the command line *)

(** X19.  The passphrase of the command line is a fallback.
    [cli_passphrase] touches no key but [passphrase], and it sets that
    one only when the loaded configuration has no such key.  A
    configuration that has the key with an empty or null value
    therefore keeps it: with [encrypt_key] set, serialization then
    fails for want of a passphrase although one was given on the
    command line.  When the key is absent, the passphrase of the
    command line is the one the key is encrypted with. *)
Theorem cli_passphrase_is_fallback (X : Externals) (passphrase : option string)
    (cfg : gmap string value) (comps : CertComponents) (w : World) :
  let cfg' := cli_passphrase passphrase cfg in
  let serialized :=
    Certs.serialize_cert_components X comps
      (truthy (default VNone (cfg' !! "encrypt_key")))
      (default VNone (cfg' !! "passphrase")) w in
  (∀ key, key ≠ "passphrase" → cfg' !! key = cfg !! key)
  ∧ cfg' !! "passphrase"
    = match cfg !! "passphrase" with
      | Some v => Some v
      | None => VStr <$> passphrase
      end
  ∧ (truthy (default VNone (cfg !! "encrypt_key")) = true →
     (∀ v, cfg !! "passphrase" = Some v → truthy v = false →
        ∃ msg, serialized = (Raise (ConfigError msg), w))
     ∧ (∀ s, cfg !! "passphrase" = None → passphrase = Some s →
        serialized = Certs.serialize_cert_components X comps true (VStr s) w)).
Proof.
  cbn zeta.
  assert (Hother : ∀ key, key ≠ "passphrase" →
            cli_passphrase passphrase cfg !! key = cfg !! key).
  { intros key Hkey. unfold cli_passphrase. destruct passphrase as [p|]; [|reflexivity].
    destruct (negb _); [|reflexivity]. apply lookup_insert_ne. congruence. }
  assert (Hpass : cli_passphrase passphrase cfg !! "passphrase"
                  = match cfg !! "passphrase" with
                    | Some v => Some v
                    | None => VStr <$> passphrase
                    end).
  { unfold cli_passphrase. destruct passphrase as [p|].
    - destruct (cfg !! "passphrase") as [v|] eqn:E.
      + rewrite bool_decide_eq_true_2 by (apply elem_of_dom; eauto). exact E.
      + rewrite bool_decide_eq_false_2 by (apply not_elem_of_dom; exact E).
        apply lookup_insert_eq.
    - destruct (cfg !! "passphrase"); reflexivity. }
  split; [exact Hother|]. split; [exact Hpass|].
  intros Henc. rewrite Hother by discriminate. rewrite Henc, Hpass. split.
  - intros v -> Hv. cbn [default from_option id].
    unfold Certs.serialize_cert_components. rewrite Hv. eexists. reflexivity.
  - intros s -> ->. reflexivity.
Qed.

Lemma cli_passphrase_is_fallback_witness :
  ∃ msg,
    Certs.serialize_cert_components Sample.externals Sample.components
      (truthy (default VNone
         (cli_passphrase (Some "secret")
            {[ "encrypt_key" := VBool true; "passphrase" := VStr "" ]} !! "encrypt_key")))
      (default VNone
         (cli_passphrase (Some "secret")
            {[ "encrypt_key" := VBool true; "passphrase" := VStr "" ]} !! "passphrase"))
      (Sample.world ∅)
    = (Raise (ConfigError msg), Sample.world ∅).
Proof.
  refine (proj1 (proj2 (proj2 (cli_passphrase_is_fallback Sample.externals (Some "secret")
                                 {[ "encrypt_key" := VBool true; "passphrase" := VStr "" ]}
                                 Sample.components (Sample.world ∅))) _)
            (VStr "") _ _); reflexivity.
Defined.

(** *** One configuration file *)

(** X20.  The mode with one configuration file prints what the
    programmatic entry point returns.  A path that is no file is
    refused with a [ConfigError] before anything is read.  For a file,
    without an output directory and without a passphrase on the command
    line: when [generate_from_json_file] returns a bundle, the mode
    succeeds, having printed that bundle without a header; when it
    raises, the mode raises the same exception; in both cases they
    leave the same library calls behind, and no file is written. *)
Theorem file_mode_prints_generated_bundle (X : Externals) (fuel : nat) (path : Path)
    (output_dir : option Path) (passphrase : option string) (w : World) :
  (PathLib.is_file (fs w) path = false →
   process_config_file_mode X fuel path output_dir passphrase w
   = (Raise (ConfigError [Lit "--config "; StrPath path; Lit " is not a file."]), w))
  ∧ (PathLib.is_file (fs w) path = true →
     match Certs.generate_from_json_file X path w with
     | (Ok bundle, w1) =>
         process_config_file_mode X fuel path None None w
         = (Ok (), {| fs := fs w; stdout := (stdout w ++ bundle_lines bundle)%list;
                      stderr := stderr w; lib_calls := lib_calls w1 |})
     | (Raise e, w1) =>
         process_config_file_mode X fuel path None None w = (Raise e, w1)
         ∧ fs w1 = fs w ∧ stdout w1 = stdout w ∧ stderr w1 = stderr w
     | (OutOfFuel, _) => False
     end).
Proof.
  split.
  - intros Hf. unfold process_config_file_mode. rewrite Hf. cbn [negb].
    rewrite orb_true_r. reflexivity.
  - intros Hf. unfold process_config_file_mode. rewrite Hf.
    assert (He : PathLib.exists_ (fs w) path = true).
    { apply OutputFacts.exists_true. unfold PathLib.is_file in Hf.
      destruct (fs w !! path); [eauto | discriminate Hf]. }
    rewrite He. cbn [negb orb].
    unfold Certs.generate_from_json_file, Certs.handle_single_cert, cli_passphrase.
    unfold mbind, M_bind, with_files, lift.
    pose proof (CliFacts.load_json_config_steady X (fs w) path) as Hl.
    destruct (Config.load_json_config X (fs w) path) as [[json_dn json_cfg]|e|];
      [|repeat split; reflexivity|destruct (Hl eq_refl)].
    pose proof (CliFacts.merge_settings_json_steady X (Some json_dn) (Some json_cfg)) as Hm.
    destruct (Config.merge_settings_json X (Some json_dn) (Some json_cfg)) as [[dn cfg]|e|];
      [|repeat split; reflexivity|destruct (Hm eq_refl)].
    destruct (CliFacts.create_cert_components_steady X dn cfg w) as [Hr1 Hfs1].
    destruct (GenerationFacts.create_cert_components_silent X dn cfg w) as [Ho1 He1].
    destruct (Certs.create_cert_components X dn cfg w) as [[comps|e|] w1];
      cbn [fst snd] in *; [|repeat split; assumption|destruct (Hr1 eq_refl)].
    set (enc := truthy _). set (pass := default VNone _).
    destruct (CliFacts.serialize_cert_components_steady X comps enc pass w1) as [Hr2 Hfs2].
    destruct (GenerationFacts.serialize_cert_components_silent X comps enc pass w1)
      as [Ho2 He2].
    destruct (Certs.serialize_cert_components X comps enc pass w1) as [[bundle|e|] w2];
      cbn [fst snd] in *; [|repeat split; congruence|destruct (Hr2 eq_refl)].
    rewrite WriteFacts.write_bundle_to_stdout_eq. cbn [header_lines app].
    f_equal. f_equal; congruence.
Qed.

Lemma file_mode_prints_generated_bundle_witness :
  PathLib.is_file (fs (Sample.world Sample.batch_files)) ["conf"; "a.json"] = true
  ∧ ∃ bundle w1,
      Certs.generate_from_json_file Sample.externals ["conf"; "a.json"]
        (Sample.world Sample.batch_files) = (Ok bundle, w1)
      ∧ stdout (snd (process_config_file_mode Sample.externals 0 ["conf"; "a.json"] None None
                       (Sample.world Sample.batch_files)))
        = bundle_lines bundle.
Proof.
  assert (Hf : PathLib.is_file (fs (Sample.world Sample.batch_files)) ["conf"; "a.json"]
               = true) by (vm_compute; reflexivity).
  split; [exact Hf|].
  pose proof (proj2 (file_mode_prints_generated_bundle Sample.externals 0 ["conf"; "a.json"]
                       None None (Sample.world Sample.batch_files)) Hf) as H.
  assert (E : ∃ bundle w1,
            Certs.generate_from_json_file Sample.externals ["conf"; "a.json"]
              (Sample.world Sample.batch_files) = (Ok bundle, w1))
    by (eexists _, _; reflexivity).
  destruct E as (bundle & w1 & E). rewrite E in H.
  exists bundle, w1. split; [exact E|]. rewrite H. reflexivity.
Defined.

(** *** The example configuration *)

(** X21.  The example configuration passes the tool's own checks.
    When it is written to a file, and the file reads back as the
    document that was written, [load_json_config] accepts the file and
    [merge_settings_json] accepts what was loaded: the DN has all seven
    fields, the settings are those of the example, with two alternative
    names, and [--validate-config] on that file reports it valid. *)
Theorem example_config_round_trip (X : Externals) (Y : CliExternals) (fuel : nat)
    (p : Path) (args : Namespace) (w : World) :
  let text := json_dumps Y (VDict Example.build_example_config) +:+ Certs.newline in
  write_error X (fs w) p = None →
  utf8_decode X text = Some text →
  json_loads X text = Some (VDict Example.build_example_config) →
  version args = false → validate_config args = Some p →
  ∃ w' dn cfg,
    Example.generate_example_config X Y (Some p) w = (Ok (), w')
    ∧ fs w' = <[p := NFile text]> (fs w)
    ∧ Config.load_json_config X (fs w') p = Ok (dn, cfg)
    ∧ Config.merge_settings_json X (Some dn) (Some cfg) = Ok (dn, cfg)
    ∧ dom dn = list_to_set DN_KEYS
    ∧ dn !! "commonName" = Some (VStr "example.lupaxa.test")
    ∧ dom cfg = dom CONFIG_DEFAULT
    ∧ cfg !! "subject_alt_names"
      = Some (VList [VStr "example.lupaxa.test"; VStr "www.example.lupaxa.test"])
    ∧ run X Y fuel args w'
      = (Ok (), snd (print [Lit "Configuration "; StrPath p; Lit " is valid."] w')).
Proof.
  cbn zeta. intros Hw Hu Hj Hv Hp.
  set (text := json_dumps Y (VDict Example.build_example_config) +:+ Certs.newline) in *.
  assert (Hgen : Example.generate_example_config X Y (Some p) w
                 = (Ok (), set_fs (<[p := NFile text]> (fs w)) w)).
  { unfold Example.generate_example_config, PathLib.write_bytes. cbn zeta.
    fold text. rewrite Hw. reflexivity. }
  assert (Hsplit : ∃ dn cfg,
            Config.split_config X Example.build_example_config = Ok (dn, cfg)
            ∧ Config.merge_settings_json X (Some dn) (Some cfg) = Ok (dn, cfg)
            ∧ dom dn = list_to_set DN_KEYS
            ∧ dn !! "commonName" = Some (VStr "example.lupaxa.test")
            ∧ dom cfg = dom CONFIG_DEFAULT
            ∧ cfg !! "subject_alt_names"
              = Some (VList [VStr "example.lupaxa.test"; VStr "www.example.lupaxa.test"])).
  { eexists _, _. split; [reflexivity|]. split; [reflexivity|].
    split; [apply set_eq; intros k; vm_compute; reflexivity || tauto|].
    split; [reflexivity|]. split; [|reflexivity].
    reflexivity. }
  destruct Hsplit as (dn & cfg & Hs & Hm & Hd & Hcn & Hdc & Hsan).
  assert (Hload : Config.load_json_config X (<[p := NFile text]> (fs w)) p = Ok (dn, cfg)).
  { unfold Config.load_json_config, Config._read_json_file, Config.read_text.
    rewrite lookup_insert_eq, Hu, Hj. exact Hs. }
  exists (set_fs (<[p := NFile text]> (fs w)) w), dn, cfg.
  split; [exact Hgen|]. split; [reflexivity|]. split; [exact Hload|].
  split; [exact Hm|]. split; [exact Hd|]. split; [exact Hcn|]. split; [exact Hdc|].
  split; [exact Hsan|].
  unfold run. rewrite Hv, Hp. unfold mbind, M_bind, with_files, lift.
  cbn [fs set_fs]. rewrite Hload, Hm. reflexivity.
Qed.

Lemma example_config_round_trip_witness :
  ∃ w',
    Example.generate_example_config example_reader sample_cli_externals (Some ["example.json"])
      (Sample.world ∅) = (Ok (), w')
    ∧ fst (run example_reader sample_cli_externals 0
             {| version := false; generate_example := false; example_file := None;
                config := None; config_dir := None; output_dir := None;
                validate_config := Some ["example.json"]; inspect_cert := None;
                countryName := None; stateOrProvinceName := None; localityName := None;
                organizationName := None; organizationalUnitName := None;
                commonName := None; emailAddress := None; digest_alg := None;
                private_key_bits := None; private_key_type := None; valid_days := None;
                encrypt_key := None; passphrase := None |} w') = Ok ().
Proof.
  destruct (example_config_round_trip example_reader sample_cli_externals 0 ["example.json"]
              {| version := false; generate_example := false; example_file := None;
                 config := None; config_dir := None; output_dir := None;
                 validate_config := Some ["example.json"]; inspect_cert := None;
                 countryName := None; stateOrProvinceName := None; localityName := None;
                 organizationName := None; organizationalUnitName := None;
                 commonName := None; emailAddress := None; digest_alg := None;
                 private_key_bits := None; private_key_type := None; valid_days := None;
                 encrypt_key := None; passphrase := None |}
              (Sample.world ∅) eq_refl eq_refl eq_refl eq_refl eq_refl)
    as (w' & dn & cfg & Hgen & _ & _ & _ & _ & _ & _ & _ & Hrun).
  exists w'. split; [exact Hgen|]. rewrite Hrun. reflexivity.
Defined.

(** *** Inspection *)



End ModeFacts.

(** ** The programmatic entry points *)

Module ApiFacts.
Import Certs.

Lemma key_type_is_not_rsa_steady cfg : Config.key_type_is_not_rsa cfg ≠ OutOfFuel.
Proof. unfold Config.key_type_is_not_rsa. repeat case_match; discriminate. Qed.

Lemma coerce_int_steady X key cfg :
  Config.coerce_key (λ v, VInt <$> py_int X v) key cfg ≠ OutOfFuel.
Proof.
  apply CliFacts.coerce_key_steady. intros v.
  apply CliFacts.result_fmap_steady, CliFacts.py_int_steady.
Qed.

Lemma generate_checked_steady X dn cfg : steady (generate_checked X dn cfg).
Proof.
  unfold generate_checked.
  apply CliFacts.steady_bind; [apply CliFacts.steady_lift, coerce_int_steady | intros cfg1].
  apply CliFacts.steady_bind; [apply CliFacts.steady_lift, coerce_int_steady | intros cfg2].
  apply CliFacts.steady_bind; [apply CliFacts.create_cert_components_steady | intros comps].
  apply CliFacts.serialize_cert_components_steady.
Qed.

Lemma generate_checked_silent X dn cfg : silent (generate_checked X dn cfg).
Proof.
  unfold generate_checked.
  apply GenerationFacts.silent_bind; [apply GenerationFacts.silent_lift | intros cfg1].
  apply GenerationFacts.silent_bind; [apply GenerationFacts.silent_lift | intros cfg2].
  apply GenerationFacts.silent_bind;
    [apply GenerationFacts.create_cert_components_silent | intros comps].
  apply GenerationFacts.serialize_cert_components_silent.
Qed.

(** A configuration that has every key of [CONFIG_DEFAULT] is its own
    overlay. *)
Lemma overlay_full (cfg : gmap string value) :
  dom CONFIG_DEFAULT ⊆ dom cfg → Config.overlay CONFIG_DEFAULT (Some cfg) = cfg.
Proof.
  intros Hdom. unfold Config.overlay. destruct (truthy (VDict cfg)) eqn:E.
  - unfold dict_update. apply map_eq. intros k. rewrite lookup_union.
    destruct (cfg !! k) as [v|] eqn:Ek; [destruct (CONFIG_DEFAULT !! k); reflexivity|].
    destruct (CONFIG_DEFAULT !! k) as [d|] eqn:Ed; [|reflexivity]. exfalso.
    apply not_elem_of_dom in Ek. apply Ek, Hdom, elem_of_dom. eauto.
  - exfalso. cbn [truthy] in E. apply negb_false_iff, Nat.eqb_eq, map_size_empty_iff in E.
    subst cfg. assert (H : "digest_alg" ∈ dom (∅ : gmap string value)).
    { apply Hdom, elem_of_dom. eexists. reflexivity. }
    rewrite dom_empty in H. apply elem_of_empty in H. exact H.
Qed.

Lemma coerce_int_present X key (cfg : gmap string value) v n :
  cfg !! key = Some v → py_int X v = Ok n →
  Config.coerce_key (λ v, VInt <$> py_int X v) key cfg = Ok (<[key := VInt n]> cfg).
Proof.
  intros Hk Hn. unfold Config.coerce_key. rewrite Hk, Hn. reflexivity.
Qed.



End ApiFacts.

(** ** What a batch reports *)

Module BatchFacts.
Import Cli PathLib.

(** One item of a batch that prints to the standard output: no file is
    written and nothing goes to the standard error. *)
Lemma process_one_stdout_keeps X fuel passphrase p w :
  fst (process_one X fuel None passphrase p w) ≠ OutOfFuel
  ∧ fs (snd (process_one X fuel None passphrase p w)) = fs w
  ∧ stderr (snd (process_one X fuel None passphrase p w)) = stderr w.
Proof.
  destruct (CliFacts.process_one_stdout_steady X fuel passphrase p w) as [Hr Hfs].
  split; [exact Hr|]. split; [exact Hfs|].
  unfold process_one, Certs.handle_single_cert, mbind, M_bind, with_files, lift.
  destruct (Config.load_json_config X (fs w) p) as [[json_dn json_cfg]|e|]; [|reflexivity..].
  destruct (Config.merge_settings_json X (Some json_dn) (Some json_cfg)) as [[dn cfg]|e|];
    [|reflexivity..].
  set (cfg' := cli_passphrase passphrase cfg).
  destruct (GenerationFacts.create_cert_components_silent X dn cfg' w) as [_ He1].
  destruct (Certs.create_cert_components X dn cfg' w) as [[comps|e|] w1];
    cbn [fst snd] in *; [|assumption..].
  set (enc := truthy _). set (pass := default VNone _).
  destruct (GenerationFacts.serialize_cert_components_silent X comps enc pass w1)
    as [_ He2].
  destruct (Certs.serialize_cert_components X comps enc pass w1) as [[bundle|e|] w2];
    cbn [fst snd] in *; [|congruence..].
  rewrite WriteFacts.write_bundle_to_stdout_eq. cbn [snd stderr]. congruence.
Qed.

Lemma attempted_failures (body : Path → M unit) items w n w' :
  (∀ p w0, fs (snd (body p w0)) = fs w0 ∧ stderr (snd (body p w0)) = stderr w0) →
  attempted body items w n w' →
  ∃ failures : list (Path * exn),
    stderr w' = (stderr w ++ ((λ f, error_line f.1 f.2) <$> failures))%list
    ∧ length failures = n
    ∧ sublist failures.*1 items
    ∧ (∀ p e, (p, e) ∈ failures → ∃ w0 w1, body p w0 = (Raise e, w1))
    ∧ fs w' = fs w.
Proof.
  intros Hkeep H.
  induction H as [w | p rest w w1 n w' Hb _ IH | p rest w e w1 n w' Hb _ IH].
  - exists []. rewrite app_nil_r. split; [reflexivity|]. split; [reflexivity|].
    split; [constructor|]. split; [|reflexivity].
    intros p e Hin. apply elem_of_nil in Hin. destruct Hin.
  - destruct IH as (failures & Herr & Hlen & Hsub & Hall & Hfs).
    destruct (Hkeep p w) as [Hf He]. rewrite Hb in Hf, He. cbn [snd] in Hf, He.
    exists failures. rewrite Herr, He, Hfs, Hf.
    repeat split; try assumption. cbn. apply sublist_cons, Hsub.
  - destruct IH as (failures & Herr & Hlen & Hsub & Hall & Hfs).
    destruct (Hkeep p w) as [Hf He]. rewrite Hb in Hf, He. cbn [snd] in Hf, He.
    exists ((p, e) :: failures). rewrite Herr, Hfs. unfold reported, print_err.
    cbn [snd fs stderr fmap list_fmap fst length]. rewrite He, Hf, <- app_assoc, Hlen.
    repeat split; try reflexivity.
    + apply sublist_skip, Hsub.
    + intros q e' Hin. apply elem_of_cons in Hin as [Heq | Hin]; [|eauto].
      injection Heq as -> ->. eauto.
Qed.



End BatchFacts.
